(** * MemeBattle backend: rooms, rounds, votes and player presence

    A shallow embedding of the game coordinator of the MemeBattle backend
    (app/models/game.py, app/models/user.py, app/services/player_manager.py,
    app/services/game_service.py, app/services/room_service.py).

    The relational tables are lists of rows kept in storage order; a query
    without ORDER BY is a filter over that list and [scalar()] is its first
    row.  Integers are Python ints ([Z]); timestamps are [Z]; nullable
    columns are [option]; the rating of a user is a Python float, an IEEE
    754 binary64 value.  Service methods run in a state-and-exception
    monad over the database: the writes made before a [raise] stay in the
    session, as in the source, and the events published so far stay
    published.  The database is the session's view of it: commits and the
    advisory Redis cache are outside the model.  Each method reads the
    clock as its argument [now]. *)

From Stdlib Require Import String Ascii ZArith Bool Lia List Permutation Sorted.
From Stdlib Require Import Floats.SpecFloat.
Import ListNotations.
Local Open Scope Z_scope.

(** ** Floats

    A Python [float] and a Float column hold an IEEE 754 binary64 value:
    53 bits of precision, exponents below 1024.  [float_of_Z n] is the
    float literal of the integer [n] ([1.0], [5.0]); [float_add] is the
    [+] of two floats, rounded to the nearest value, ties to even. *)

Definition float : Set := spec_float.

Definition float_of_Z (n : Z) : float := binary_normalize 53 1024 n 0 false.

Definition float_add (x y : float) : float := SFadd 53 1024 x y.

(** ** Enumerations (app/models/game.py) *)

Module RoomStatus.
Inductive t := WAITING | PLAYING | FINISHED | CANCELLED.
Definition eqb (a b : t) : bool :=
  match a, b with
  | WAITING, WAITING | PLAYING, PLAYING
  | FINISHED, FINISHED | CANCELLED, CANCELLED => true
  | _, _ => false
  end.
End RoomStatus.

Module ParticipantStatus.
Inductive t := ACTIVE | DISCONNECTED | LEFT.
Definition eqb (a b : t) : bool :=
  match a, b with
  | ACTIVE, ACTIVE | DISCONNECTED, DISCONNECTED | LEFT, LEFT => true
  | _, _ => false
  end.
End ParticipantStatus.

Module ConnectionStatus.
Inductive t := CONNECTED | DISCONNECTED | TIMEOUT.
Definition eqb (a b : t) : bool :=
  match a, b with
  | CONNECTED, CONNECTED | DISCONNECTED, DISCONNECTED | TIMEOUT, TIMEOUT => true
  | _, _ => false
  end.
End ConnectionStatus.

Module GameStatus.
Inductive t :=
  STARTING | ROUND_SETUP | CARD_SELECTION | VOTING | ROUND_RESULTS | FINISHED.
Definition eqb (a b : t) : bool :=
  match a, b with
  | STARTING, STARTING | ROUND_SETUP, ROUND_SETUP
  | CARD_SELECTION, CARD_SELECTION | VOTING, VOTING
  | ROUND_RESULTS, ROUND_RESULTS | FINISHED, FINISHED => true
  | _, _ => false
  end.
End GameStatus.

Module Gender.
Inductive t := MALE | FEMALE | OTHER.
End Gender.

(** ** Rows (app/models/game.py, app/models/user.py) *)

Module User.
(** [rating] is a Float column. *)
Record t := mk {
  id : Z;
  nickname : option string;
  birth_date : option Z;
  gender : option Gender.t;
  rating : float
}.
(** [bool(self.nickname and self.birth_date and self.gender)] *)
Definition is_profile_complete (u : t) : bool :=
  match nickname u, birth_date u, gender u with
  | Some n, Some _, Some _ => negb (String.eqb n EmptyString)
  | _, _, _ => false
  end.
Definition set_rating (u : t) (r : float) : t :=
  mk (id u) (nickname u) (birth_date u) (gender u) r.
End User.

Module UserCard.
Record t := mk {
  id : Z;
  user_id : Z;
  card_type : string;
  card_number : Z;
  obtained_at : Z
}.
End UserCard.

Module Room.
Record t := mk {
  id : Z;
  creator_id : Z;
  max_players : Z;
  status : RoomStatus.t;
  room_code : option string;
  is_public : bool;
  age_group : option string;
  created_at : Z
}.
Definition set_status (r : t) (s : RoomStatus.t) : t :=
  mk (id r) (creator_id r) (max_players r) s (room_code r) (is_public r)
     (age_group r) (created_at r).
End Room.

Module RoomParticipant.
Record t := mk {
  id : Z;
  room_id : Z;
  user_id : Z;
  joined_at : Z;
  status : ParticipantStatus.t;
  connection_status : ConnectionStatus.t;
  last_activity : Z;
  last_ping : option Z;
  disconnect_count : Z;
  missed_actions : Z
}.
End RoomParticipant.

Module Game.
Record t := mk {
  id : Z;
  room_id : Z;
  status : GameStatus.t;
  current_round : Z;
  winner_id : option Z;
  created_at : Z;
  finished_at : option Z
}.
Definition set_status (g : t) (s : GameStatus.t) : t :=
  mk (id g) (room_id g) s (current_round g) (winner_id g) (created_at g)
     (finished_at g).
End Game.

(** The situation text is either the caller's text or the placeholder
    f"Генерация ситуации для раунда {next_round_number}...". *)
Inductive Situation :=
| SituationText (s : string)
| SituationPlaceholder (round_number : Z).

Module GameRound.
Record t := mk {
  id : Z;
  game_id : Z;
  round_number : Z;
  situation_text : Situation;
  duration_seconds : Z;
  created_at : Z;
  started_at : option Z;
  finished_at : option Z;
  selection_deadline : option Z;
  voting_deadline : option Z;
  auto_advanced : bool
}.
Definition set_finished_at (r : t) (f : option Z) : t :=
  mk (id r) (game_id r) (round_number r) (situation_text r)
     (duration_seconds r) (created_at r) (started_at r) f
     (selection_deadline r) (voting_deadline r) (auto_advanced r).
Definition set_auto_advanced (r : t) (b : bool) : t :=
  mk (id r) (game_id r) (round_number r) (situation_text r)
     (duration_seconds r) (created_at r) (started_at r) (finished_at r)
     (selection_deadline r) (voting_deadline r) b.
End GameRound.

Module PlayerChoice.
Record t := mk {
  id : Z;
  round_id : Z;
  user_id : Z;
  card_type : string;
  card_number : Z;
  submitted_at : Z
}.
End PlayerChoice.

Module Vote.
Record t := mk {
  id : Z;
  round_id : Z;
  voter_id : Z;
  choice_id : Z;
  created_at : Z
}.
End Vote.

(** ** The database: one list of rows per table *)

Record DB := mkDB {
  users : list User.t;
  user_cards : list UserCard.t;
  rooms : list Room.t;
  room_participants : list RoomParticipant.t;
  games : list Game.t;
  game_rounds : list GameRound.t;
  player_choices : list PlayerChoice.t;
  votes : list Vote.t
}.

Definition set_users (db : DB) (x : list User.t) : DB :=
  mkDB x (user_cards db) (rooms db) (room_participants db) (games db)
       (game_rounds db) (player_choices db) (votes db).
Definition set_user_cards (db : DB) (x : list UserCard.t) : DB :=
  mkDB (users db) x (rooms db) (room_participants db) (games db)
       (game_rounds db) (player_choices db) (votes db).
Definition set_rooms (db : DB) (x : list Room.t) : DB :=
  mkDB (users db) (user_cards db) x (room_participants db) (games db)
       (game_rounds db) (player_choices db) (votes db).
Definition set_room_participants (db : DB) (x : list RoomParticipant.t) : DB :=
  mkDB (users db) (user_cards db) (rooms db) x (games db)
       (game_rounds db) (player_choices db) (votes db).
Definition set_games (db : DB) (x : list Game.t) : DB :=
  mkDB (users db) (user_cards db) (rooms db) (room_participants db) x
       (game_rounds db) (player_choices db) (votes db).
Definition set_game_rounds (db : DB) (x : list GameRound.t) : DB :=
  mkDB (users db) (user_cards db) (rooms db) (room_participants db) (games db)
       x (player_choices db) (votes db).
Definition set_player_choices (db : DB) (x : list PlayerChoice.t) : DB :=
  mkDB (users db) (user_cards db) (rooms db) (room_participants db) (games db)
       (game_rounds db) x (votes db).
Definition set_votes (db : DB) (x : list Vote.t) : DB :=
  mkDB (users db) (user_cards db) (rooms db) (room_participants db) (games db)
       (game_rounds db) (player_choices db) x.

(** The next value of an autoincrement primary key. *)
Definition next_id (ids : list Z) : Z := 1 + fold_right Z.max 0 ids.

(** ** Exceptions (app/utils/exceptions.py) and results *)

Inductive Exception :=
| NotFoundError
| ValidationError
| PermissionError
| TypeError
| AttributeError.

Inductive Result (A : Type) :=
| Ok (a : A)
| Raise (e : Exception).
Arguments Ok {A} a.
Arguments Raise {A} e.

(** ** Effects outside the database

    Events published on the bus and tasks handed to [asyncio.create_task];
    a created task runs later, on its own, and is not run inline. *)

Inductive Task :=
| SelectionTimeout (round_id : Z)
| VotingTimeout (round_id : Z)
| CalculateResultsAsync (round_id : Z)
| AwardWinnerCardAsync (user_id : Z).

Inductive EventType :=
| situation_generating | round_started | voting_started
| player_choice_submitted | vote_submitted | round_results_calculated
| game_ended.

Inductive Effect :=
| Publish (room_id : Z) (event_type : EventType)
| CreateTask (t : Task)
| CeleryGenerateSituation (game_id room_id round_number : Z).

(** ** The monad of service methods *)

Definition M (A : Type) : Type := DB -> DB * list Effect * Result A.

Definition ret {A : Type} (a : A) : M A := fun db => (db, [], Ok a).

Definition raise {A : Type} (e : Exception) : M A := fun db => (db, [], Raise e).

Definition bind {A B : Type} (m : M A) (k : A -> M B) : M B :=
  fun db =>
    match m db with
    | (db1, fx1, Ok a) =>
        match k a db1 with
        | (db2, fx2, r) => (db2, fx1 ++ fx2, r)
        end
    | (db1, fx1, Raise e) => (db1, fx1, Raise e)
    end.

Notation "x <- m ;; k" := (bind m (fun x => k))
  (at level 61, m at next level, right associativity).
Notation "m ;; k" := (bind m (fun _ => k))
  (at level 61, right associativity).

(** Read the session, replace it, log effects. *)
Definition get : M DB := fun db => (db, [], Ok db).
Definition put (db' : DB) : M unit := fun _ => (db', [], Ok tt).
Definition emit (fx : list Effect) : M unit := fun db => (db, fx, Ok tt).

(** A method of [PlayerManager] that writes and returns a value. *)
Definition lift {A : Type} (f : DB -> DB * A) : M A :=
  fun db => let (db', a) := f db in (db', [], Ok a).

(** [if cond: raise e] *)
Definition raise_when (cond : bool) (e : Exception) : M unit :=
  if cond then raise e else ret tt.

(** [try: m  except Exception: h] *)
Definition try_except {A : Type} (m : M A) (h : M A) : M A :=
  fun db =>
    match m db with
    | (db1, fx1, Ok a) => (db1, fx1, Ok a)
    | (db1, fx1, Raise _) =>
        match h db1 with
        | (db2, fx2, r) => (db2, fx1 ++ fx2, r)
        end
    end.

(** ** PlayerManager (app/services/player_manager.py) *)

Module PlayerManager.

Definition TIMEOUT_SECONDS : Z := 30.
Definition MAX_DISCONNECT_COUNT : Z := 3.
Definition MAX_MISSED_ACTIONS : Z := 2.

(** [where(and_(user_id == user_id, room_id == room_id))] *)
Definition is_participant (user_id room_id : Z) (p : RoomParticipant.t) : bool :=
  (RoomParticipant.user_id p =? user_id) && (RoomParticipant.room_id p =? room_id).

(** [update(RoomParticipant).where(RoomParticipant.id == pid).values(...)] *)
Definition update_by_id (pid : Z) (f : RoomParticipant.t -> RoomParticipant.t)
    (ps : list RoomParticipant.t) : list RoomParticipant.t :=
  map (fun p => if RoomParticipant.id p =? pid then f p else p) ps.

Definition update_player_activity (db : DB) (now user_id room_id : Z) : DB * bool :=
  let values p :=
    RoomParticipant.mk (RoomParticipant.id p) (RoomParticipant.room_id p)
      (RoomParticipant.user_id p) (RoomParticipant.joined_at p)
      (RoomParticipant.status p) ConnectionStatus.CONNECTED now (Some now)
      (RoomParticipant.disconnect_count p) (RoomParticipant.missed_actions p) in
  (set_room_participants db
     (map (fun p => if is_participant user_id room_id p then values p else p)
          (room_participants db)),
   existsb (is_participant user_id room_id) (room_participants db)).

Record DisconnectInfo := mkDisconnectInfo {
  di_user_id : Z;
  di_excluded : bool;
  di_disconnect_count : Z;
  di_status : ParticipantStatus.t;
  di_can_rejoin : bool
}.

Definition mark_player_disconnected (db : DB) (now user_id room_id : Z)
    : Result (DB * DisconnectInfo) :=
  match find (is_participant user_id room_id) (room_participants db) with
  | None => Raise NotFoundError
  | Some participant =>
      let new_disconnect_count := RoomParticipant.disconnect_count participant + 1 in
      let should_exclude := new_disconnect_count >=? MAX_DISCONNECT_COUNT in
      let new_status :=
        if should_exclude then ParticipantStatus.LEFT
        else ParticipantStatus.DISCONNECTED in
      let values p :=
        RoomParticipant.mk (RoomParticipant.id p) (RoomParticipant.room_id p)
          (RoomParticipant.user_id p) (RoomParticipant.joined_at p)
          new_status ConnectionStatus.DISCONNECTED now (RoomParticipant.last_ping p)
          new_disconnect_count (RoomParticipant.missed_actions p) in
      Ok (set_room_participants db
            (update_by_id (RoomParticipant.id participant) values
                          (room_participants db)),
          mkDisconnectInfo user_id should_exclude new_disconnect_count
                           new_status (negb should_exclude))
  end.

Record MissedInfo := mkMissedInfo {
  mi_excluded : bool;
  mi_missed_actions : Z;
  mi_status : option ParticipantStatus.t
}.

Definition handle_missed_action (db : DB) (now user_id room_id : Z)
    : DB * MissedInfo :=
  match find (is_participant user_id room_id) (room_participants db) with
  | None => (db, mkMissedInfo false 0 None)
  | Some participant =>
      let new_missed_actions := RoomParticipant.missed_actions participant + 1 in
      let should_exclude := new_missed_actions >=? MAX_MISSED_ACTIONS in
      let new_status :=
        if should_exclude then ParticipantStatus.LEFT
        else RoomParticipant.status participant in
      let new_connection_status :=
        if negb should_exclude then ConnectionStatus.TIMEOUT
        else ConnectionStatus.DISCONNECTED in
      let values p :=
        RoomParticipant.mk (RoomParticipant.id p) (RoomParticipant.room_id p)
          (RoomParticipant.user_id p) (RoomParticipant.joined_at p)
          new_status new_connection_status now (RoomParticipant.last_ping p)
          (RoomParticipant.disconnect_count p) new_missed_actions in
      (set_room_participants db
         (update_by_id (RoomParticipant.id participant) values
                       (room_participants db)),
       mkMissedInfo should_exclude new_missed_actions (Some new_status))
  end.

Record PlayerInfo := mkPlayerInfo {
  pi_user_id : Z;
  pi_nickname : option string;
  pi_connection_status : ConnectionStatus.t;
  pi_last_activity : Z;
  pi_disconnect_count : Z;
  pi_missed_actions : Z;
  pi_is_connected : bool
}.

(** [select(RoomParticipant, User.nickname).join(User, ...)
     .where(room_id == room_id, status == ACTIVE)] *)
Definition get_active_players (db : DB) (room_id : Z) : list PlayerInfo :=
  flat_map
    (fun p =>
       map (fun u =>
              mkPlayerInfo (RoomParticipant.user_id p) (User.nickname u)
                (RoomParticipant.connection_status p)
                (RoomParticipant.last_activity p)
                (RoomParticipant.disconnect_count p)
                (RoomParticipant.missed_actions p)
                (ConnectionStatus.eqb (RoomParticipant.connection_status p)
                                      ConnectionStatus.CONNECTED))
           (filter (fun u => User.id u =? RoomParticipant.user_id p) (users db)))
    (filter (fun p => (RoomParticipant.room_id p =? room_id)
                      && ParticipantStatus.eqb (RoomParticipant.status p)
                                               ParticipantStatus.ACTIVE)
            (room_participants db)).

Definition cleanup_inactive_players (db : DB) (room_id : Z) : DB * list Z :=
  let excluded_users :=
    map RoomParticipant.user_id
      (filter (fun p => (RoomParticipant.room_id p =? room_id)
                        && ((RoomParticipant.disconnect_count p >=? MAX_DISCONNECT_COUNT)
                            || (RoomParticipant.missed_actions p >=? MAX_MISSED_ACTIONS)))
              (room_participants db)) in
  let values p :=
    RoomParticipant.mk (RoomParticipant.id p) (RoomParticipant.room_id p)
      (RoomParticipant.user_id p) (RoomParticipant.joined_at p)
      ParticipantStatus.LEFT (RoomParticipant.connection_status p)
      (RoomParticipant.last_activity p) (RoomParticipant.last_ping p)
      (RoomParticipant.disconnect_count p) (RoomParticipant.missed_actions p) in
  match excluded_users with
  | [] => (db, [])
  | _ =>
      (set_room_participants db
         (map (fun p => if (RoomParticipant.room_id p =? room_id)
                           && existsb (Z.eqb (RoomParticipant.user_id p)) excluded_users
                        then values p else p)
              (room_participants db)),
       excluded_users)
  end.

Record TimeoutInfo := mkTimeoutInfo {
  ti_user_id : Z;
  ti_nickname : option string;
  ti_last_activity : Z;
  ti_timeout_duration : Z
}.

(** The rows [check_players_timeout] selects: active, connected
    participants of the room whose last activity is older than the
    threshold, joined with their user. *)
Definition stale_participants (db : DB) (now room_id : Z)
    : list (RoomParticipant.t * option string) :=
  let timeout_threshold := now - TIMEOUT_SECONDS in
  flat_map
    (fun p => map (fun u => (p, User.nickname u))
                  (filter (fun u => User.id u =? RoomParticipant.user_id p) (users db)))
    (filter (fun p => (RoomParticipant.room_id p =? room_id)
                      && ParticipantStatus.eqb (RoomParticipant.status p)
                                               ParticipantStatus.ACTIVE
                      && ConnectionStatus.eqb (RoomParticipant.connection_status p)
                                              ConnectionStatus.CONNECTED
                      && (RoomParticipant.last_activity p <? timeout_threshold))
            (room_participants db)).

(** [.values(connection_status=ConnectionStatus.TIMEOUT)] *)
Definition set_timeout (p : RoomParticipant.t) : RoomParticipant.t :=
  RoomParticipant.mk (RoomParticipant.id p) (RoomParticipant.room_id p)
    (RoomParticipant.user_id p) (RoomParticipant.joined_at p)
    (RoomParticipant.status p) ConnectionStatus.TIMEOUT
    (RoomParticipant.last_activity p) (RoomParticipant.last_ping p)
    (RoomParticipant.disconnect_count p) (RoomParticipant.missed_actions p).

Definition check_players_timeout (db : DB) (now room_id : Z)
    : DB * list TimeoutInfo :=
  fold_left
    (fun acc row =>
       let '(db, timeout_players) := acc in
       let '(participant, nickname) := row in
       (set_room_participants db
          (update_by_id (RoomParticipant.id participant) set_timeout
                        (room_participants db)),
        timeout_players ++
        [mkTimeoutInfo (RoomParticipant.user_id participant) nickname
           (RoomParticipant.last_activity participant)
           (now - RoomParticipant.last_activity participant)]))
    (stale_participants db now room_id) (db, []).

Record ActionPlayers := mkActionPlayers {
  ap_total_active : Z;
  ap_connected : Z;
  ap_timeout : Z;
  ap_disconnected : Z;
  ap_should_wait_for : list PlayerInfo;
  ap_can_skip : list PlayerInfo
}.

Definition get_players_for_action (db : DB) (room_id : Z) : ActionPlayers :=
  let active_players := get_active_players db room_id in
  let connected_players := filter pi_is_connected active_players in
  let timeout_players :=
    filter (fun p => ConnectionStatus.eqb (pi_connection_status p)
                                          ConnectionStatus.TIMEOUT)
           active_players in
  let disconnected_players :=
    filter (fun p => ConnectionStatus.eqb (pi_connection_status p)
                                          ConnectionStatus.DISCONNECTED)
           active_players in
  mkActionPlayers (Z.of_nat (length active_players))
    (Z.of_nat (length connected_players))
    (Z.of_nat (length timeout_players))
    (Z.of_nat (length disconnected_players))
    connected_players
    (timeout_players ++ disconnected_players).

End PlayerManager.

(** ** Collaborators of the game service

    [redis_client] says whether a bus client was injected;
    [azure_standard_cards] is [None] when the card service has no
    [azure_service], and otherwise the card numbers that
    [list_cards_in_folder("standard")] returns.  The two queries of the
    game service that ORDER BY a vote count only are answered by the
    database in an order the code does not fix among equal counts:
    [order_vote_counts] and [order_player_stats] are the database's
    orderings of the grouped rows.  [random_index] is the draw of
    [random.choice]. *)

Record VoteCountRow := mkVoteCountRow {
  vc_choice_id : Z;
  vc_user_id : Z;
  vc_card_type : string;
  vc_card_number : Z;
  vc_submitted_at : Z;
  vc_nickname : option string;
  vc_vote_count : Z
}.

Record PlayerStat := mkPlayerStat {
  ps_user_id : Z;
  ps_nickname : option string;
  ps_round_wins : Z
}.

Record Env := mkEnv {
  redis_client : bool;
  azure_standard_cards : option (list Z);
  order_vote_counts : list VoteCountRow -> list VoteCountRow;
  order_player_stats : list PlayerStat -> list PlayerStat;
  random_index : nat
}.

(** What ORDER BY count DESC guarantees of the rows it returns. *)
Definition ordered_desc {A : Type} (key : A -> Z) (grouped result : list A) : Prop :=
  Permutation grouped result /\
  StronglySorted (fun a b => key a >= key b) result.


(** ** GameService (app/services/game_service.py) *)

Module GameService.

Definition CARD_SELECTION_TIMEOUT : Z := 300.
Definition VOTING_TIMEOUT : Z := 180.
Definition RESULTS_DISPLAY_TIME : Z := 5.

Section WithEnv.
Variable env : Env.

Definition publish_game_event (room_id : Z) (event_type : EventType) : M unit :=
  if redis_client env then emit [Publish room_id event_type] else ret tt.

Definition _get_game_or_404 (game_id : Z) : M Game.t :=
  db <- get ;;
  match find (fun g => Game.id g =? game_id) (games db) with
  | Some game => ret game
  | None => raise NotFoundError
  end.

Definition _get_round_or_404 (round_id : Z) : M GameRound.t :=
  db <- get ;;
  match find (fun r => GameRound.id r =? round_id) (game_rounds db) with
  | Some round_obj => ret round_obj
  | None => raise NotFoundError
  end.

Definition is_active_participant (room_id user_id : Z) (p : RoomParticipant.t) : bool :=
  (RoomParticipant.room_id p =? room_id)
  && (RoomParticipant.user_id p =? user_id)
  && ParticipantStatus.eqb (RoomParticipant.status p) ParticipantStatus.ACTIVE.

Definition _validate_player_in_game (room_id user_id : Z) : M unit :=
  db <- get ;;
  raise_when (negb (existsb (is_active_participant room_id user_id)
                            (room_participants db)))
             PermissionError.

(** Flushing a changed ORM row: the row with the same primary key is
    replaced. *)
Definition save_game (game : Game.t) : M unit :=
  db <- get ;;
  put (set_games db (map (fun g => if Game.id g =? Game.id game then game else g)
                         (games db))).

Definition save_round (r : GameRound.t) : M unit :=
  db <- get ;;
  put (set_game_rounds db
         (map (fun x => if GameRound.id x =? GameRound.id r then r else x)
              (game_rounds db))).

Definition save_room (room : Room.t) : M unit :=
  db <- get ;;
  put (set_rooms db (map (fun x => if Room.id x =? Room.id room then room else x)
                         (rooms db))).

Fixpoint for_each {A : Type} (l : list A) (body : A -> M unit) : M unit :=
  match l with
  | [] => ret tt
  | x :: rest => body x ;; for_each rest body
  end.

(** *** Awards *)

Definition _award_round_points (user_id : Z) : M unit :=
  try_except
    (db <- get ;;
     match find (fun u => User.id u =? user_id) (users db) with
     | Some user =>
         let rating := float_add (User.rating user) (float_of_Z 1) in
         put (set_users db
                (map (fun u => if User.id u =? user_id
                               then User.set_rating u rating else u)
                     (users db)))
     | None => ret tt
     end)
    (ret tt).

Definition _award_game_victory_points (user_id : Z) : M unit :=
  try_except
    (db <- get ;;
     match find (fun u => User.id u =? user_id) (users db) with
     | Some user =>
         let bonus_points := float_of_Z 5 in
         let rating := float_add (User.rating user) bonus_points in
         put (set_users db
                (map (fun u => if User.id u =? user_id
                               then User.set_rating u rating else u)
                     (users db)))
     | None => ret tt
     end)
    (ret tt).

(** [CardService.get_available_standard_cards_for_user] *)
Definition get_available_standard_cards_for_user (db : DB) (user_id : Z) : list Z :=
  match azure_standard_cards env with
  | None => []
  | Some all_standard_cards =>
      let existing_numbers :=
        map UserCard.card_number
            (filter (fun c => (UserCard.user_id c =? user_id)
                              && String.eqb (UserCard.card_type c) "standard")
                    (user_cards db)) in
      filter (fun num => negb (existsb (Z.eqb num) existing_numbers))
             all_standard_cards
  end.

(** [random.choice(seq)] for a non-empty [seq]. *)
Definition random_choice (seq : list Z) : Z :=
  nth (Nat.modulo (random_index env) (length seq)) seq 0.

(** The body of the task created by [end_game] for the winner. *)
Definition _award_winner_card_async (now user_id : Z) : M unit :=
  try_except
    (db <- get ;;
     let available_cards := get_available_standard_cards_for_user db user_id in
     match available_cards with
     | [] => ret tt
     | _ =>
         let card_number := random_choice available_cards in
         put (set_user_cards db
                (user_cards db ++
                 [UserCard.mk (next_id (map UserCard.id (user_cards db)))
                              user_id "standard" card_number now]))
     end)
    (ret tt).

(** *** end_game *)

Record LeaderboardEntry := mkLeaderboardEntry {
  le_user_id : Z;
  le_nickname : option string;
  le_round_wins : Z;
  le_place : Z
}.

Record EndGameResult := mkEndGameResult {
  eg_success : bool;
  eg_game_id : Z;
  eg_winner_id : option Z;
  eg_winner_nickname : option string;
  eg_total_rounds : Z;
  eg_leaderboard : list LeaderboardEntry
}.

(** [count(Vote.id)] over the outer join of a choice with its votes. *)
Definition count_votes_for (db : DB) (choice_id : Z) : Z :=
  Z.of_nat (length (filter (fun v => Vote.choice_id v =? choice_id) (votes db))).

(** The choices of a user in the rounds of a game: the inner joins of
    [User], [PlayerChoice] and [GameRound] of the [player_stats] query. *)
Definition choices_in_game (db : DB) (game_id user_id : Z) : list PlayerChoice.t :=
  filter (fun c => (PlayerChoice.user_id c =? user_id)
                   && existsb (fun r => (GameRound.id r =? PlayerChoice.round_id c)
                                        && (GameRound.game_id r =? game_id))
                              (game_rounds db))
         (player_choices db).

(** The groups of the [player_stats] query, before ORDER BY: one row per
    user with a choice in the game, counting the votes on those choices. *)
Definition player_stats_groups (db : DB) (game_id : Z) : list PlayerStat :=
  flat_map
    (fun u =>
       match choices_in_game db game_id (User.id u) with
       | [] => []
       | cs => [mkPlayerStat (User.id u) (User.nickname u)
                  (fold_right Z.add 0
                     (map (fun c => count_votes_for db (PlayerChoice.id c)) cs))]
       end)
    (users db).

(** The loop over [player_stats]. *)
Definition build_leaderboard (player_stats : list PlayerStat)
    : list LeaderboardEntry * option Z :=
  fold_left
    (fun acc row =>
       let '(leaderboard, winner_id) := acc in
       (leaderboard ++
          [mkLeaderboardEntry (ps_user_id row) (ps_nickname row) (ps_round_wins row)
                              (Z.of_nat (length leaderboard) + 1)],
        match winner_id with
        | None => Some (ps_user_id row)
        | Some w => Some w
        end))
    player_stats ([], None).

(** [if winner_id and leaderboard and leaderboard[0]["round_wins"] > 0] *)
Definition winner_is_rewarded (winner_id : option Z)
    (leaderboard : list LeaderboardEntry) : bool :=
  match winner_id, leaderboard with
  | Some w, first :: _ => negb (w =? 0) && (le_round_wins first >? 0)
  | _, _ => false
  end.

Definition end_game (now game_id : Z) : M EndGameResult :=
  game <- _get_game_or_404 game_id ;;
  db <- get ;;
  let player_stats := order_player_stats env (player_stats_groups db game_id) in
  let '(leaderboard, winner_id) := build_leaderboard player_stats in
  let game' :=
    Game.mk (Game.id game) (Game.room_id game) GameStatus.FINISHED
            (Game.current_round game) winner_id (Game.created_at game) (Some now) in
  save_game game' ;;
  match find (fun r => Room.id r =? Game.room_id game) (rooms db) with
  | Some room => save_room (Room.set_status room RoomStatus.FINISHED)
  | None => ret tt
  end ;;
  publish_game_event (Game.room_id game) game_ended ;;
  (if winner_is_rewarded winner_id leaderboard then
     match winner_id with
     | Some w =>
         emit [CreateTask (AwardWinnerCardAsync w)] ;;
         _award_game_victory_points w
     | None => ret tt
     end
   else ret tt) ;;
  ret (mkEndGameResult true game_id winner_id
         (match leaderboard with
          | first :: _ => le_nickname first
          | [] => None
          end)
         (Game.current_round game) leaderboard).

(** *** start_round *)

Inductive StartRoundResult :=
| RoundStarted (game_round : GameRound.t) (time_remaining : Z)
| GameEnded (result : EndGameResult).

Definition round_duration (current_round : Z) : Z :=
  if current_round <=? 5
  then CARD_SELECTION_TIMEOUT - (current_round - 1) * 5
  else 30.

Definition start_round (now game_id : Z) (situation_text : option string)
    : M StartRoundResult :=
  game <- _get_game_or_404 game_id ;;
  raise_when (negb (GameStatus.eqb (Game.status game) GameStatus.STARTING
                    || GameStatus.eqb (Game.status game) GameStatus.ROUND_RESULTS))
             ValidationError ;;
  lift (fun db => PlayerManager.cleanup_inactive_players db (Game.room_id game)) ;;
  db <- get ;;
  let active_players := PlayerManager.get_active_players db (Game.room_id game) in
  if Z.of_nat (length active_players) <? 3 then
    result <- end_game now game_id ;;
    ret (GameEnded result)
  else
    let duration := round_duration (Game.current_round game) in
    let current_time := now in
    let next_round_number := Game.current_round game + 1 in
    situation <-
      match situation_text with
      | Some text => ret (SituationText text)
      | None =>
          match find (fun r => Room.id r =? Game.room_id game) (rooms db) with
          | None => raise AttributeError
          | Some room =>
              emit [CeleryGenerateSituation game_id (Game.room_id game)
                                            next_round_number] ;;
              publish_game_event (Game.room_id game) situation_generating ;;
              ret (SituationPlaceholder next_round_number)
          end
      end ;;
    db <- get ;;
    let game_round :=
      GameRound.mk (next_id (map GameRound.id (game_rounds db)))
        game_id next_round_number situation duration current_time
        (Some current_time) None
        (Some (current_time + duration))
        (Some (current_time + (duration + VOTING_TIMEOUT)))
        false in
    put (set_game_rounds db (game_rounds db ++ [game_round])) ;;
    save_game (Game.mk (Game.id game) (Game.room_id game) GameStatus.CARD_SELECTION
                       next_round_number (Game.winner_id game)
                       (Game.created_at game) (Game.finished_at game)) ;;
    publish_game_event (Game.room_id game) round_started ;;
    emit [CreateTask (SelectionTimeout (GameRound.id game_round))] ;;
    ret (RoundStarted game_round duration).

(** *** Card selection *)

(** [PlayerChoiceResponse]; a [user_nickname] of [None] stands for the
    fallback text of the source, the card URL is left to the catalogue. *)
Record PlayerChoiceResponse := mkPlayerChoiceResponse {
  pc_id : Z;
  pc_round_id : Z;
  pc_user_id : Z;
  pc_user_nickname : option string;
  pc_card_type : string;
  pc_card_number : Z;
  pc_submitted_at : Z;
  pc_vote_count : Z
}.

(** [select(User.nickname).where(User.id == user_id)] then [scalar()] *)
Definition nickname_of (db : DB) (user_id : Z) : option string :=
  match find (fun u => User.id u =? user_id) (users db) with
  | Some u => User.nickname u
  | None => None
  end.

(** [datetime.utcnow() > deadline]; comparing with [None] is a TypeError. *)
Definition raise_when_past (now : Z) (deadline : option Z) : M unit :=
  match deadline with
  | None => raise TypeError
  | Some d => raise_when (now >? d) ValidationError
  end.

Definition submit_card_choice (now round_id user_id : Z)
    (card_type : string) (card_number : Z) : M PlayerChoiceResponse :=
  game_round <- _get_round_or_404 round_id ;;
  game <- _get_game_or_404 (GameRound.game_id game_round) ;;
  raise_when (negb (GameStatus.eqb (Game.status game) GameStatus.CARD_SELECTION))
             ValidationError ;;
  raise_when_past now (GameRound.selection_deadline game_round) ;;
  _validate_player_in_game (Game.room_id game) user_id ;;
  lift (fun db => PlayerManager.update_player_activity db now user_id
                                                       (Game.room_id game)) ;;
  db <- get ;;
  raise_when (existsb (fun c => (PlayerChoice.round_id c =? round_id)
                                && (PlayerChoice.user_id c =? user_id))
                      (player_choices db))
             ValidationError ;;
  raise_when (negb (existsb (fun c => (UserCard.user_id c =? user_id)
                                      && String.eqb (UserCard.card_type c) card_type
                                      && (UserCard.card_number c =? card_number))
                            (user_cards db)))
             ValidationError ;;
  let player_choice :=
    PlayerChoice.mk (next_id (map PlayerChoice.id (player_choices db)))
                    round_id user_id card_type card_number now in
  put (set_player_choices db (player_choices db ++ [player_choice])) ;;
  publish_game_event (Game.room_id game) player_choice_submitted ;;
  (* the source does not start the voting from here: it is left to the API *)
  ret (mkPlayerChoiceResponse (PlayerChoice.id player_choice) round_id user_id
         (nickname_of db user_id) card_type card_number now 0).

Record StartVotingResult := mkStartVotingResult {
  sv_round_id : Z;
  sv_voting_deadline : option Z;
  sv_total_choices : Z
}.

Definition start_voting (round_id : Z) : M StartVotingResult :=
  game_round <- _get_round_or_404 round_id ;;
  game <- _get_game_or_404 (GameRound.game_id game_round) ;;
  raise_when (negb (GameStatus.eqb (Game.status game) GameStatus.CARD_SELECTION))
             ValidationError ;;
  db <- get ;;
  let choices := filter (fun c => PlayerChoice.round_id c =? round_id)
                        (player_choices db) in
  raise_when (Z.of_nat (length choices) <? 3) ValidationError ;;
  save_game (Game.set_status game GameStatus.VOTING) ;;
  (* the event carries [voting_deadline.isoformat()] *)
  (if redis_client env then
     match GameRound.voting_deadline game_round with
     | None => raise AttributeError
     | Some _ => publish_game_event (Game.room_id game) voting_started
     end
   else ret tt) ;;
  emit [CreateTask (VotingTimeout round_id)] ;;
  ret (mkStartVotingResult round_id (GameRound.voting_deadline game_round)
                           (Z.of_nat (length choices))).

Definition connected_players (db : DB) (room_id : Z) : list PlayerManager.PlayerInfo :=
  filter PlayerManager.pi_is_connected (PlayerManager.get_active_players db room_id).

Definition _check_all_players_chose_cards (game_id round_id : Z) : M unit :=
  game <- _get_game_or_404 game_id ;;
  db <- get ;;
  let connected := connected_players db (Game.room_id game) in
  let choices_count :=
    Z.of_nat (length (filter (fun c => PlayerChoice.round_id c =? round_id)
                             (player_choices db))) in
  if (choices_count >=? Z.of_nat (length connected))
     && (Z.of_nat (length connected) >? 1)
  then start_voting round_id ;; ret tt
  else ret tt.

(** *** Voting *)

Definition _check_all_players_voted (game_id round_id : Z) : M unit :=
  game <- _get_game_or_404 game_id ;;
  db <- get ;;
  let players_should_vote :=
    Z.of_nat (length (connected_players db (Game.room_id game))) in
  let votes_count :=
    Z.of_nat (length (filter (fun v => Vote.round_id v =? round_id) (votes db))) in
  if (votes_count >=? players_should_vote) && (players_should_vote >? 1)
  then emit [CreateTask (CalculateResultsAsync round_id)]
  else ret tt.

Definition submit_vote (now round_id user_id choice_id : Z) : M Vote.t :=
  game_round <- _get_round_or_404 round_id ;;
  game <- _get_game_or_404 (GameRound.game_id game_round) ;;
  raise_when (negb (GameStatus.eqb (Game.status game) GameStatus.VOTING))
             ValidationError ;;
  raise_when_past now (GameRound.voting_deadline game_round) ;;
  _validate_player_in_game (Game.room_id game) user_id ;;
  lift (fun db => PlayerManager.update_player_activity db now user_id
                                                       (Game.room_id game)) ;;
  db <- get ;;
  raise_when (existsb (fun v => (Vote.round_id v =? round_id)
                                && (Vote.voter_id v =? user_id))
                      (votes db))
             ValidationError ;;
  match find (fun c => PlayerChoice.id c =? choice_id) (player_choices db) with
  | None => raise ValidationError
  | Some choice =>
      raise_when (negb (PlayerChoice.round_id choice =? round_id)) ValidationError ;;
      raise_when (PlayerChoice.user_id choice =? user_id) ValidationError ;;
      let vote := Vote.mk (next_id (map Vote.id (votes db)))
                          round_id user_id choice_id now in
      put (set_votes db (votes db ++ [vote])) ;;
      publish_game_event (Game.room_id game) vote_submitted ;;
      _check_all_players_voted (GameRound.game_id game_round) round_id ;;
      ret vote
  end.

(** *** Round results *)

(** The rows of [vote_counts_query] before ORDER BY: one group per choice
    of the round joined with its user, counting the votes on the choice. *)
Definition vote_count_groups (db : DB) (round_id : Z) : list VoteCountRow :=
  flat_map
    (fun c =>
       map (fun u =>
              mkVoteCountRow (PlayerChoice.id c) (PlayerChoice.user_id c)
                (PlayerChoice.card_type c) (PlayerChoice.card_number c)
                (PlayerChoice.submitted_at c) (User.nickname u)
                (count_votes_for db (PlayerChoice.id c)))
           (filter (fun u => User.id u =? PlayerChoice.user_id c) (users db)))
    (filter (fun c => PlayerChoice.round_id c =? round_id) (player_choices db)).

Definition choice_response (round_id : Z) (row : VoteCountRow) : PlayerChoiceResponse :=
  mkPlayerChoiceResponse (vc_choice_id row) round_id (vc_user_id row)
    (vc_nickname row) (vc_card_type row) (vc_card_number row)
    (vc_submitted_at row) (vc_vote_count row).

(** The loop over the rows: [choices_data], [winner_choice], [max_votes]. *)
Definition tally (round_id : Z) (rows : list VoteCountRow)
    : list PlayerChoiceResponse * option PlayerChoiceResponse * Z :=
  fold_left
    (fun acc row =>
       let '(choices_data, winner_choice, max_votes) := acc in
       let response := choice_response round_id row in
       if vc_vote_count row >? max_votes
       then (choices_data ++ [response], Some response, vc_vote_count row)
       else (choices_data ++ [response], winner_choice, max_votes))
    rows ([], None, -1).

Definition _schedule_next_round (now game_id current_round : Z) : M unit :=
  let later := now + RESULTS_DISPLAY_TIME in
  try_except
    (_get_game_or_404 game_id ;;
     if current_round >=? 7
     then end_game later game_id ;; ret tt
     else start_round later game_id None ;; ret tt)
    (try_except (end_game later game_id ;; ret tt) (ret tt)).

(** [RoundResultResponse], without the list of votes shown with it. *)
Record RoundResultResponse := mkRoundResultResponse {
  rr_round_id : Z;
  rr_round_number : Z;
  rr_winner_choice : option PlayerChoiceResponse;
  rr_all_choices : list PlayerChoiceResponse;
  rr_next_round_starts_in : Z
}.

(** The part of [calculate_round_results] before the next round is
    scheduled: the tally, the two status updates and the round points. *)
Definition aggregate_round (now round_id : Z)
    : M (Game.t * GameRound.t * RoundResultResponse) :=
  game_round <- _get_round_or_404 round_id ;;
  game <- _get_game_or_404 (GameRound.game_id game_round) ;;
  db <- get ;;
  let rows := order_vote_counts env (vote_count_groups db round_id) in
  let '(choices_data, winner_choice, max_votes) := tally round_id rows in
  put (set_games db
         (map (fun g => if Game.id g =? Game.id game
                        then Game.set_status g GameStatus.ROUND_RESULTS else g)
              (games db))) ;;
  db <- get ;;
  put (set_game_rounds db
         (map (fun r => if GameRound.id r =? round_id
                        then GameRound.set_finished_at r (Some now) else r)
              (game_rounds db))) ;;
  match winner_choice with
  | Some w => if max_votes >? 0 then _award_round_points (pc_user_id w) else ret tt
  | None => ret tt
  end ;;
  publish_game_event (Game.room_id game) round_results_calculated ;;
  ret (game, game_round,
       mkRoundResultResponse round_id (GameRound.round_number game_round)
         winner_choice choices_data RESULTS_DISPLAY_TIME).

Definition calculate_round_results (now round_id : Z) : M RoundResultResponse :=
  aggregated <- aggregate_round now round_id ;;
  let '(game, game_round, response) := aggregated in
  _schedule_next_round now (Game.id game) (GameRound.round_number game_round) ;;
  ret response.

Definition _calculate_results_async (now round_id : Z) : M unit :=
  try_except (calculate_round_results now round_id ;; ret tt) (ret tt).

(** *** Deadline timers

    Each handler sleeps until its deadline and runs at [now]. *)

Definition _handle_selection_timeout (now round_id : Z) : M unit :=
  try_except
    (game_round <- _get_round_or_404 round_id ;;
     (* the sleep subtracts the current time from the deadline *)
     match GameRound.selection_deadline game_round with
     | None => raise TypeError
     | Some _ => ret tt
     end ;;
     game <- _get_game_or_404 (GameRound.game_id game_round) ;;
     if negb (GameStatus.eqb (Game.status game) GameStatus.CARD_SELECTION)
     then ret tt
     else
       db <- get ;;
       let active_players :=
         PlayerManager.get_active_players db (Game.room_id game) in
       let players_with_choices :=
         map PlayerChoice.user_id
             (filter (fun c => PlayerChoice.round_id c =? round_id)
                     (player_choices db)) in
       for_each active_players
         (fun player =>
            if negb (existsb (Z.eqb (PlayerManager.pi_user_id player))
                             players_with_choices)
            then lift (fun db => PlayerManager.handle_missed_action db now
                          (PlayerManager.pi_user_id player) (Game.room_id game)) ;;
                 ret tt
            else ret tt) ;;
       db <- get ;;
       let choices_count :=
         Z.of_nat (length (filter (fun c => PlayerChoice.round_id c =? round_id)
                                  (player_choices db))) in
       if choices_count >=? 3
       then start_voting round_id ;; ret tt
       else end_game now (GameRound.game_id game_round) ;; ret tt)
    (ret tt).

Definition _handle_voting_timeout (now round_id : Z) : M unit :=
  try_except
    (game_round <- _get_round_or_404 round_id ;;
     match GameRound.voting_deadline game_round with
     | None => raise TypeError
     | Some _ => ret tt
     end ;;
     game <- _get_game_or_404 (GameRound.game_id game_round) ;;
     if negb (GameStatus.eqb (Game.status game) GameStatus.VOTING)
     then ret tt
     else
       db <- get ;;
       let active_players :=
         PlayerManager.get_active_players db (Game.room_id game) in
       let players_with_votes :=
         map Vote.voter_id
             (filter (fun v => Vote.round_id v =? round_id) (votes db)) in
       for_each active_players
         (fun player =>
            if negb (existsb (Z.eqb (PlayerManager.pi_user_id player))
                             players_with_votes)
            then lift (fun db => PlayerManager.handle_missed_action db now
                          (PlayerManager.pi_user_id player) (Game.room_id game)) ;;
                 ret tt
            else ret tt) ;;
       save_round (GameRound.set_auto_advanced game_round true) ;;
       _calculate_results_async now round_id)
    (ret tt).

(** *** Reading the choices of a round

    Both queries ORDER BY [submitted_at]; [by_submitted_at] is the
    database's ordering of the selected rows. *)

Definition choice_with_votes (db : DB) (choice : PlayerChoice.t)
    (nickname : option string) : PlayerChoiceResponse :=
  mkPlayerChoiceResponse (PlayerChoice.id choice) (PlayerChoice.round_id choice)
    (PlayerChoice.user_id choice) nickname (PlayerChoice.card_type choice)
    (PlayerChoice.card_number choice) (PlayerChoice.submitted_at choice)
    (count_votes_for db (PlayerChoice.id choice)).

(** [select(PlayerChoice, User.nickname).join(User, ...).where(...)] *)
Definition choices_joined (db : DB) (keep : PlayerChoice.t -> bool)
    : list (PlayerChoice.t * option string) :=
  flat_map
    (fun c => map (fun u => (c, User.nickname u))
                  (filter (fun u => User.id u =? PlayerChoice.user_id c) (users db)))
    (filter keep (player_choices db)).

Definition get_choices_for_voting
    (by_submitted_at : list (PlayerChoice.t * option string)
                       -> list (PlayerChoice.t * option string))
    (round_id user_id : Z) : M (list PlayerChoiceResponse) :=
  _get_round_or_404 round_id ;;
  db <- get ;;
  let rows :=
    by_submitted_at
      (choices_joined db (fun c => (PlayerChoice.round_id c =? round_id)
                                   && negb (PlayerChoice.user_id c =? user_id))) in
  ret (map (fun row => choice_with_votes db (fst row) (snd row)) rows).

Definition get_all_choices_for_round
    (by_submitted_at : list (PlayerChoice.t * option string)
                       -> list (PlayerChoice.t * option string))
    (round_id : Z) : M (list PlayerChoiceResponse) :=
  db <- get ;;
  let rows :=
    by_submitted_at
      (choices_joined db (fun c => PlayerChoice.round_id c =? round_id)) in
  ret (map (fun row => choice_with_votes db (fst row) (snd row)) rows).

(** [random.sample(population, k)]: [draw i] is the index drawn among the
    elements still left when [i] more are to be taken after it. *)
Fixpoint random_sample {A : Type} (draw : nat -> nat) (k : nat)
    (population : list A) : list A :=
  match k with
  | O => []
  | S k' =>
      let i := Nat.modulo (draw k') (length population) in
      match nth_error population i with
      | Some x =>
          x :: random_sample draw k' (firstn i population ++ skipn (S i) population)
      | None => []
      end
  end.

Record RoundCard := mkRoundCard {
  rc_card_type : string;
  rc_card_number : Z
}.

Definition get_round_cards_for_user (draw : nat -> nat) (round_id user_id : Z)
    : M (list RoundCard) :=
  game_round <- _get_round_or_404 round_id ;;
  game <- _get_game_or_404 (GameRound.game_id game_round) ;;
  _validate_player_in_game (Game.room_id game) user_id ;;
  db <- get ;;
  let user_cards := filter (fun c => UserCard.user_id c =? user_id) (user_cards db) in
  raise_when (Z.of_nat (length user_cards) <? 3) ValidationError ;;
  let selected_cards := random_sample draw 3 user_cards in
  ret (map (fun card => mkRoundCard (UserCard.card_type card)
                                    (UserCard.card_number card))
           selected_cards).

End WithEnv.
End GameService.

(** ** RoomService (app/services/room_service.py) *)

(** [str.upper()] on the ASCII characters of a room code. *)
Definition upper_char (c : ascii) : ascii :=
  let n := nat_of_ascii c in
  if ((97 <=? n) && (n <=? 122))%nat then ascii_of_nat (n - 32) else c.

Fixpoint upper (s : string) : string :=
  match s with
  | EmptyString => EmptyString
  | String c rest => String (upper_char c) (upper rest)
  end.

(** [string.ascii_uppercase + string.digits] *)
Definition code_alphabet : list ascii :=
  list_ascii_of_string "ABCDEFGHIJKLMNOPQRSTUVWXYZ0123456789".

(** [Room.generate_room_code]: [random.choices(alphabet, k=6)], where
    [draw k] is the index drawn for position [k]. *)
Definition generate_room_code (draw : nat -> nat) : string :=
  string_of_list_ascii
    (map (fun k => nth (Nat.modulo (draw k) (length code_alphabet))
                       code_alphabet "A"%char)
         (seq 0 6)).

Module RoomService.

Definition _get_room_or_404 (room_id : Z) : M Room.t :=
  db <- get ;;
  match find (fun r => Room.id r =? room_id) (rooms db) with
  | Some room => ret room
  | None => raise NotFoundError
  end.

Definition is_active_in (room_id : Z) (p : RoomParticipant.t) : bool :=
  (RoomParticipant.room_id p =? room_id)
  && ParticipantStatus.eqb (RoomParticipant.status p) ParticipantStatus.ACTIVE.

Definition _get_active_players_count (db : DB) (room_id : Z) : Z :=
  Z.of_nat (length (filter (is_active_in room_id) (room_participants db))).

(** [RoomDetailResponse], without the listing of the participants. *)
Record RoomDetailResponse := mkRoomDetailResponse {
  rd_id : Z;
  rd_status : RoomStatus.t;
  rd_room_code : option string;
  rd_is_public : bool;
  rd_current_players : Z;
  rd_can_start_game : bool
}.

(** Truth value of an [Optional[int]]. *)
Definition truthy (user_id : option Z) : bool :=
  match user_id with
  | Some u => negb (u =? 0)
  | None => false
  end.

Definition get_room_details (room_id : Z) (user_id : option Z)
    : M RoomDetailResponse :=
  room <- _get_room_or_404 room_id ;;
  db <- get ;;
  (if negb (Room.is_public room) && truthy user_id then
     match user_id with
     | Some u =>
         raise_when (negb (existsb (GameService.is_active_participant room_id u)
                                   (room_participants db)))
                    PermissionError
     | None => ret tt
     end
   else if negb (Room.is_public room) && negb (truthy user_id) then
     raise PermissionError
   else ret tt) ;;
  let participants := PlayerManager.get_active_players db room_id in
  ret (mkRoomDetailResponse (Room.id room) (Room.status room)
         (Room.room_code room) (Room.is_public room)
         (Z.of_nat (length participants))
         ((Z.of_nat (length participants) >=? 3)
          && RoomStatus.eqb (Room.status room) RoomStatus.WAITING)).

(** [RoomParticipant(room_id, user_id, status=ACTIVE)] with the column
    defaults of the model. *)
Definition new_participant (db : DB) (now room_id user_id : Z) : RoomParticipant.t :=
  RoomParticipant.mk (next_id (map RoomParticipant.id (room_participants db)))
    room_id user_id now ParticipantStatus.ACTIVE ConnectionStatus.CONNECTED
    now None 0 0.

Definition _join_room_internal (now room_id user_id : Z) : M RoomDetailResponse :=
  room <- _get_room_or_404 room_id ;;
  raise_when (negb (RoomStatus.eqb (Room.status room) RoomStatus.WAITING))
             ValidationError ;;
  db <- get ;;
  raise_when (existsb (GameService.is_active_participant room_id user_id)
                      (room_participants db))
             ValidationError ;;
  raise_when (_get_active_players_count db room_id >=? Room.max_players room)
             ValidationError ;;
  put (set_room_participants db
         (room_participants db ++ [new_participant db now room_id user_id])) ;;
  get_room_details room_id (Some user_id).

(** [user = db.get(User, user_id)]; [if not user or not user.is_profile_complete] *)
Definition require_complete_profile (user_id : Z) : M unit :=
  db <- get ;;
  match find (fun u => User.id u =? user_id) (users db) with
  | Some user => raise_when (negb (User.is_profile_complete user)) ValidationError
  | None => raise ValidationError
  end.

Definition join_room (now room_id user_id : Z) : M RoomDetailResponse :=
  require_complete_profile user_id ;;
  room <- _get_room_or_404 room_id ;;
  raise_when (negb (Room.is_public room)) PermissionError ;;
  raise_when (negb (RoomStatus.eqb (Room.status room) RoomStatus.WAITING))
             ValidationError ;;
  db <- get ;;
  raise_when (existsb (GameService.is_active_participant room_id user_id)
                      (room_participants db))
             ValidationError ;;
  raise_when (_get_active_players_count db room_id >=? Room.max_players room)
             ValidationError ;;
  _join_room_internal now room_id user_id.

Definition has_code (code : string) (room : Room.t) : bool :=
  match Room.room_code room with
  | Some c => String.eqb c code
  | None => false
  end.

Definition join_room_by_code (now : Z) (room_code : string) (user_id : Z)
    : M RoomDetailResponse :=
  require_complete_profile user_id ;;
  db <- get ;;
  match find (fun r => has_code (upper room_code) r
                       && RoomStatus.eqb (Room.status r) RoomStatus.WAITING)
             (rooms db) with
  | None => raise NotFoundError
  | Some room => _join_room_internal now (Room.id room) user_id
  end.

Record StartGameResult := mkStartGameResult {
  sg_success : bool;
  sg_game_id : Z;
  sg_players_count : Z
}.

Definition start_game (now room_id user_id : Z) : M StartGameResult :=
  room <- _get_room_or_404 room_id ;;
  raise_when (negb (Room.creator_id room =? user_id)) PermissionError ;;
  raise_when (negb (RoomStatus.eqb (Room.status room) RoomStatus.WAITING))
             ValidationError ;;
  db <- get ;;
  let active_players := _get_active_players_count db room_id in
  raise_when (active_players <? 3) ValidationError ;;
  GameService.save_room (Room.set_status room RoomStatus.PLAYING) ;;
  db <- get ;;
  let game := Game.mk (next_id (map Game.id (games db))) room_id
                      GameStatus.STARTING 1 None now None in
  put (set_games db (games db ++ [game])) ;;
  ret (mkStartGameResult true (Game.id game) active_players).

(** *** Leaving a room *)

Record LeaveResult := mkLeaveResult {
  lv_success : bool;
  lv_room_cancelled : bool
}.

(** [participant.status = ParticipantStatus.LEFT] on the loaded row. *)
Definition set_left (p : RoomParticipant.t) : RoomParticipant.t :=
  RoomParticipant.mk (RoomParticipant.id p) (RoomParticipant.room_id p)
    (RoomParticipant.user_id p) (RoomParticipant.joined_at p)
    ParticipantStatus.LEFT (RoomParticipant.connection_status p)
    (RoomParticipant.last_activity p) (RoomParticipant.last_ping p)
    (RoomParticipant.disconnect_count p) (RoomParticipant.missed_actions p).

Definition leave_room (room_id user_id : Z) : M LeaveResult :=
  room <- _get_room_or_404 room_id ;;
  db <- get ;;
  match find (GameService.is_active_participant room_id user_id)
             (room_participants db) with
  | None => raise ValidationError
  | Some participant =>
      put (set_room_participants db
             (PlayerManager.update_by_id (RoomParticipant.id participant) set_left
                                         (room_participants db))) ;;
      if (Room.creator_id room =? user_id)
         && RoomStatus.eqb (Room.status room) RoomStatus.WAITING
      then
        GameService.save_room (Room.set_status room RoomStatus.CANCELLED) ;;
        ret (mkLeaveResult true true)
      else ret (mkLeaveResult true false)
  end.

(** *** The room a user is in *)

(** The rows of the query of [get_user_current_room]: the room ids of the
    active participations of the user, joined with their room when it is
    waiting or playing. *)
Definition current_room_ids (db : DB) (user_id : Z) : list Z :=
  flat_map
    (fun p =>
       map (fun _ : Room.t => RoomParticipant.room_id p)
           (filter (fun r => (Room.id r =? RoomParticipant.room_id p)
                             && (RoomStatus.eqb (Room.status r) RoomStatus.WAITING
                                 || RoomStatus.eqb (Room.status r) RoomStatus.PLAYING))
                   (rooms db)))
    (filter (fun p => (RoomParticipant.user_id p =? user_id)
                      && ParticipantStatus.eqb (RoomParticipant.status p)
                                               ParticipantStatus.ACTIVE)
            (room_participants db)).

Definition get_user_current_room (user_id : Z) : M (option RoomDetailResponse) :=
  db <- get ;;
  (* [room_id = all_results[0][0] if all_results else None; if room_id:] *)
  match current_room_ids db user_id with
  | room_id :: _ =>
      if negb (room_id =? 0)
      then details <- get_room_details room_id (Some user_id) ;; ret (Some details)
      else ret None
  | [] => ret None
  end.

(** *** Creating a room *)

(** [RoomCreate] *)
Record RoomCreate := mkRoomCreate {
  rc_max_players : Z;
  rc_is_public : bool;
  rc_generate_code : bool
}.

(** [RoomResponse] *)
Record RoomResponse := mkRoomResponse {
  rr_id : Z;
  rr_creator_id : Z;
  rr_max_players : Z;
  rr_status : RoomStatus.t;
  rr_room_code : option string;
  rr_is_public : bool;
  rr_current_players : Z
}.

(** The [for _ in range(max_attempts)] loop of
    [_generate_unique_room_code]: [draws k] are the draws of the attempt
    numbered [k]. *)
Fixpoint unique_code_from (draws : nat -> nat -> nat) (db : DB)
    (attempt remaining : nat) : option string :=
  match remaining with
  | O => None
  | S rest =>
      let code := generate_room_code (draws attempt) in
      if existsb (has_code code) (rooms db)
      then unique_code_from draws db (S attempt) rest
      else Some code
  end.

Definition _generate_unique_room_code (draws : nat -> nat -> nat)
    (max_attempts : nat) : M string :=
  db <- get ;;
  match unique_code_from draws db 0 max_attempts with
  | Some code => ret code
  | None => raise ValidationError
  end.

(** [today] is [date.today()] as (year, month, day) and [calendar] gives
    the (year, month, day) of a stored birth date. *)
Section WithCalendar.
Variable today : Z * Z * Z.
Variable calendar : Z -> Z * Z * Z.

(** [(today.month, today.day) < (birth.month, birth.day)] *)
Definition before_birthday (birth : Z * Z * Z) : bool :=
  let '(_, month, day) := today in
  let '(_, birth_month, birth_day) := birth in
  (month <? birth_month) || ((month =? birth_month) && (day <? birth_day)).

Definition age_on_today (birth : Z * Z * Z) : Z :=
  let '(year, _, _) := today in
  let '(birth_year, _, _) := birth in
  year - birth_year - (if before_birthday birth then 1 else 0).

Definition _determine_age_group (user : option User.t) : string :=
  match user with
  | None => "young_adults"
  | Some u =>
      match User.birth_date u with
      | None => "young_adults"
      | Some birth_date =>
          let age := age_on_today (calendar birth_date) in
          if age <? 13 then "kids"
          else if age <? 18 then "teens"
          else if age <? 30 then "young_adults"
          else if age <? 60 then "adults"
          else "seniors"
      end
  end.

Definition has_open_room (creator_id : Z) (room : Room.t) : bool :=
  (Room.creator_id room =? creator_id)
  && (RoomStatus.eqb (Room.status room) RoomStatus.WAITING
      || RoomStatus.eqb (Room.status room) RoomStatus.PLAYING).

Definition create_room (draws : nat -> nat -> nat) (now creator_id : Z)
    (room_data : RoomCreate) : M RoomResponse :=
  db <- get ;;
  match find (fun u => User.id u =? creator_id) (users db) with
  | None => raise ValidationError
  | Some user =>
      raise_when (negb (User.is_profile_complete user)) ValidationError ;;
      raise_when (existsb (has_open_room creator_id) (rooms db)) ValidationError ;;
      room_code <-
        (if rc_generate_code room_data || negb (rc_is_public room_data)
         then code <- _generate_unique_room_code draws 10 ;; ret (Some code)
         else ret None) ;;
      let age_group :=
        if rc_is_public room_data
        then _determine_age_group (Some user)
        else "mixed"%string in
      let room :=
        Room.mk (next_id (map Room.id (rooms db))) creator_id
                (rc_max_players room_data) RoomStatus.WAITING room_code
                (rc_is_public room_data) (Some age_group) now in
      put (set_rooms db (rooms db ++ [room])) ;;
      db <- get ;;
      put (set_room_participants db
             (room_participants db
              ++ [new_participant db now (Room.id room) creator_id])) ;;
      ret (mkRoomResponse (Room.id room) creator_id (Room.max_players room)
             (Room.status room) (Room.room_code room) (Room.is_public room) 1)
  end.

(** *** Quick match *)

(** [QuickMatchRequest] *)
Record QuickMatchRequest := mkQuickMatchRequest {
  qr_preferred_players : option Z;
  qr_max_wait_time : Z
}.

(** [QuickMatchResponse], without its message. *)
Record QuickMatchResponse := mkQuickMatchResponse {
  qm_success : bool;
  qm_room_id : option Z;
  qm_room_code : option string;
  qm_wait_time : option Z
}.

(** [try: m  except ValidationError: h]; other exceptions pass. *)
Definition try_except_validation {A : Type} (m : M A) (h : M A) : M A :=
  fun db =>
    match m db with
    | (db1, fx1, Raise ValidationError) =>
        match h db1 with
        | (db2, fx2, r) => (db2, fx1 ++ fx2, r)
        end
    | other => other
    end.

(** [Room.age_group == age_group] and [Room.age_group != "mixed"]: a
    comparison with NULL holds for no row. *)
Definition age_group_matches (age_group : option string) (room : Room.t) : bool :=
  match age_group, Room.age_group room with
  | Some wanted, Some group =>
      String.eqb group wanted && negb (String.eqb group "mixed")
  | _, _ => false
  end.

(** The groups of the query of [quick_match], before ORDER BY: one row per
    public waiting room of the age group that has an active participant
    and a free seat (and the preferred size, when one is asked for), with
    the number of its active participants. *)
Definition quick_match_groups (db : DB) (age_group : option string)
    (preferred_players : option Z) : list (Room.t * Z) :=
  flat_map
    (fun room =>
       let current_players := _get_active_players_count db (Room.id room) in
       if RoomStatus.eqb (Room.status room) RoomStatus.WAITING
          && Room.is_public room
          && age_group_matches age_group room
          && (0 <? current_players)
          && (current_players <? Room.max_players room)
          && (if truthy preferred_players
              then match preferred_players with
                   | Some preferred => Room.max_players room =? preferred
                   | None => true
                   end
              else true)
       then [(room, current_players)]
       else [])
    (rooms db).

(** [by_fullness] is the database's ordering of the groups by their
    count, descending. *)
Definition quick_match (by_fullness : list (Room.t * Z) -> list (Room.t * Z))
    (draws : nat -> nat -> nat) (now user_id : Z) (request : QuickMatchRequest)
    : M QuickMatchResponse :=
  current_room <- get_user_current_room user_id ;;
  match current_room with
  | Some _ => ret (mkQuickMatchResponse false None None None)
  | None =>
      db <- get ;;
      let user := find (fun u => User.id u =? user_id) (users db) in
      let age_group :=
        match user with
        | Some u => Some (_determine_age_group (Some u))
        | None => None
        end in
      let rooms :=
        by_fullness (quick_match_groups db age_group (qr_preferred_players request)) in
      let create :=
        let room_data :=
          mkRoomCreate (if truthy (qr_preferred_players request)
                        then match qr_preferred_players request with
                             | Some preferred => preferred
                             | None => 6
                             end
                        else 6)
                       true false in
        new_room <- create_room draws now user_id room_data ;;
        ret (mkQuickMatchResponse true (Some (rr_id new_room))
                                  (rr_room_code new_room)
                                  (Some (qr_max_wait_time request))) in
      match rooms with
      | (room, current_players) :: _ =>
          try_except_validation
            (join_room now (Room.id room) user_id ;;
             ret (mkQuickMatchResponse true (Some (Room.id room))
                                       (Room.room_code room) None))
            create
      | [] => create
      end
  end.

End WithCalendar.

(** *** Listing the public rooms

    The query ORDERs BY [created_at] descending and keeps [limit] rows;
    [latest_first] is the database's ordering of the selected rooms.  The
    rooms without a free seat are dropped after the limit was applied. *)
Definition get_available_rooms (latest_first : list Room.t -> list Room.t)
    (limit : nat) (db : DB) : list RoomResponse :=
  let rooms_result :=
    firstn limit
      (latest_first
         (filter (fun r => RoomStatus.eqb (Room.status r) RoomStatus.WAITING
                           && Room.is_public r)
                 (rooms db))) in
  map (fun room =>
         mkRoomResponse (Room.id room) (Room.creator_id room)
           (Room.max_players room) (Room.status room) (Room.room_code room)
           (Room.is_public room) (_get_active_players_count db (Room.id room)))
      (filter (fun room => _get_active_players_count db (Room.id room)
                           <? Room.max_players room)
              rooms_result).

End RoomService.

(** * Vocabulary of the properties *)

(** The phase of the game a round belongs to, when both rows exist. *)
Definition phase_of_round (db : DB) (round_id : Z) : option GameStatus.t :=
  match find (fun r => GameRound.id r =? round_id) (game_rounds db) with
  | Some game_round =>
      match find (fun g => Game.id g =? GameRound.game_id game_round) (games db) with
      | Some game => Some (Game.status game)
      | None => None
      end
  | None => None
  end.

(** No stored vote references a choice made by its voter. *)
Definition no_self_votes (db : DB) : Prop :=
  forall v c,
    In v (votes db) -> In c (player_choices db) ->
    PlayerChoice.id c = Vote.choice_id v ->
    PlayerChoice.user_id c <> Vote.voter_id v.

(** At most one vote per (round, voter). *)
Definition one_vote_per_voter (db : DB) : Prop :=
  NoDup (map (fun v => (Vote.round_id v, Vote.voter_id v)) (votes db)).

(** The conditions under which the source stores a vote. *)
Definition vote_accepted (db : DB) (now round_id user_id choice_id : Z)
    (game : Game.t) (deadline : Z) : Prop :=
  Game.status game = GameStatus.VOTING
  /\ now <= deadline
  /\ (exists p, In p (room_participants db)
                /\ RoomParticipant.room_id p = Game.room_id game
                /\ RoomParticipant.user_id p = user_id
                /\ RoomParticipant.status p = ParticipantStatus.ACTIVE)
  /\ (forall v, In v (votes db) ->
                ~ (Vote.round_id v = round_id /\ Vote.voter_id v = user_id))
  /\ (exists c, find (fun c => PlayerChoice.id c =? choice_id) (player_choices db)
                  = Some c
                /\ PlayerChoice.round_id c = round_id
                /\ PlayerChoice.user_id c <> user_id).

(** The same for a round given by its id: the round, its game and the
    voting deadline of the round exist. *)
Definition vote_accepted_in (db : DB) (now round_id user_id choice_id : Z) : Prop :=
  exists game_round game deadline,
    find (fun r => GameRound.id r =? round_id) (game_rounds db) = Some game_round
    /\ find (fun g => Game.id g =? GameRound.game_id game_round) (games db)
       = Some game
    /\ GameRound.voting_deadline game_round = Some deadline
    /\ vote_accepted db now round_id user_id choice_id game deadline.

(** The error of a refused vote.  The round and its game are looked up
    first; for a round without a voting deadline the phase is tested and
    then the comparison with the deadline fails. *)
Definition vote_refusal (db : DB) (round_id : Z) (e : Exception) : Prop :=
  match find (fun r => GameRound.id r =? round_id) (game_rounds db) with
  | None => e = NotFoundError
  | Some game_round =>
      match find (fun g => Game.id g =? GameRound.game_id game_round) (games db) with
      | None => e = NotFoundError
      | Some game =>
          match GameRound.voting_deadline game_round with
          | Some _ => e = ValidationError \/ e = PermissionError
          | None =>
              if GameStatus.eqb (Game.status game) GameStatus.VOTING
              then e = TypeError
              else e = ValidationError
          end
      end
  end.

(** The effects by which the voting phase is entered. *)
Definition is_voting_effect (e : Effect) : bool :=
  match e with
  | Publish _ voting_started => true
  | CreateTask (VotingTimeout _) => true
  | _ => false
  end.

(** When [join_room] lets a user with a complete profile into a room. *)
Definition joinable (db : DB) (room_id user_id : Z) (room : Room.t) : Prop :=
  Room.is_public room = true
  /\ Room.status room = RoomStatus.WAITING
  /\ existsb (GameService.is_active_participant room_id user_id)
             (room_participants db) = false
  /\ RoomService._get_active_players_count db room_id < Room.max_players room.

(** The characters of a room code: uppercase letters and digits. *)
Definition is_code_char (c : ascii) : bool :=
  let n := nat_of_ascii c in
  (((65 <=? n) && (n <=? 90)) || ((48 <=? n) && (n <=? 57)))%nat.

Definition code_chars (code : string) : bool :=
  forallb is_code_char (list_ascii_of_string code).



(** The selection schedule as the specification words it, in seconds by
    round number: {1:50, 2:45, 3:40, 4:35, 5:30, 6:30, 7:30}. *)
Definition selection_schedule (round_number : Z) : option Z :=
  match round_number with
  | 1 => Some 50 | 2 => Some 45 | 3 => Some 40 | 4 => Some 35
  | 5 => Some 30 | 6 => Some 30 | 7 => Some 30
  | _ => None
  end.

(** The reward test of [end_game] on the ranking it read. *)
Definition top_is_rewarded (ranking : list PlayerStat) : bool :=
  match ranking with
  | top :: _ => negb (ps_user_id top =? 0) && (ps_round_wins top >? 0)
  | [] => false
  end.

(** The users table after [points] points were added, as a float, to the
    rating of [user_id]. *)
Definition with_rating_added (points user_id : Z) (us : list User.t) : list User.t :=
  match find (fun u => User.id u =? user_id) us with
  | Some user =>
      map (fun u => if User.id u =? user_id
                    then User.set_rating u
                           (float_add (User.rating user) (float_of_Z points))
                    else u) us
  | None => us
  end.

(** The user owns the standard card of that number. *)
Definition owns_standard (db : DB) (user_id card_number : Z) : Prop :=
  exists c, In c (user_cards db)
            /\ UserCard.user_id c = user_id
            /\ UserCard.card_type c = "standard"%string
            /\ UserCard.card_number c = card_number.

(** Two versions of a participant row: the same row, with counters that
    did not go down. *)
Definition presence_le (p q : RoomParticipant.t) : Prop :=
  RoomParticipant.id q = RoomParticipant.id p
  /\ RoomParticipant.room_id q = RoomParticipant.room_id p
  /\ RoomParticipant.user_id q = RoomParticipant.user_id p
  /\ RoomParticipant.disconnect_count p <= RoomParticipant.disconnect_count q
  /\ RoomParticipant.missed_actions p <= RoomParticipant.missed_actions q.

(** A counter of the row is at its limit. *)
Definition over_limit (p : RoomParticipant.t) : bool :=
  (RoomParticipant.disconnect_count p >=? PlayerManager.MAX_DISCONNECT_COUNT)
  || (RoomParticipant.missed_actions p >=? PlayerManager.MAX_MISSED_ACTIONS).

(** What [cleanup_inactive_players] does to a row, given the users it
    excludes. *)
Definition cleanup_row (room_id : Z) (excluded_users : list Z)
    (p : RoomParticipant.t) : RoomParticipant.t :=
  if (RoomParticipant.room_id p =? room_id)
     && existsb (Z.eqb (RoomParticipant.user_id p)) excluded_users
  then RoomService.set_left p else p.

(** The conditions under which the source stores a card choice. *)
Definition choice_accepted (db : DB) (now round_id user_id : Z)
    (card_type : string) (card_number : Z) (game : Game.t) (deadline : Z) : Prop :=
  Game.status game = GameStatus.CARD_SELECTION
  /\ now <= deadline
  /\ (exists p, In p (room_participants db)
                /\ RoomParticipant.room_id p = Game.room_id game
                /\ RoomParticipant.user_id p = user_id
                /\ RoomParticipant.status p = ParticipantStatus.ACTIVE)
  /\ (forall c, In c (player_choices db) ->
                ~ (PlayerChoice.round_id c = round_id /\ PlayerChoice.user_id c = user_id))
  /\ (exists card, In card (user_cards db)
                   /\ UserCard.user_id card = user_id
                   /\ UserCard.card_type card = card_type
                   /\ UserCard.card_number card = card_number).

(** At most one choice per (round, user). *)
Definition one_choice_per_player (db : DB) : Prop :=
  NoDup (map (fun c => (PlayerChoice.round_id c, PlayerChoice.user_id c))
             (player_choices db)).

(** Tasks handed to [asyncio.create_task] among the effects. *)
Definition tasks_of (fx : list Effect) : list Task :=
  flat_map (fun e => match e with CreateTask t => [t] | _ => [] end) fx.

(** The user has an active participation in a room that is waiting or
    playing. *)
Definition in_open_room (db : DB) (user_id : Z) : Prop :=
  exists p room,
    In p (room_participants db) /\ In room (rooms db)
    /\ RoomParticipant.user_id p = user_id
    /\ RoomParticipant.status p = ParticipantStatus.ACTIVE
    /\ Room.id room = RoomParticipant.room_id p
    /\ (Room.status room = RoomStatus.WAITING
        \/ Room.status room = RoomStatus.PLAYING).

(** The sizes [QuickMatchRequest] admits; the schema rejects any other
    request before [quick_match] is reached. *)
Definition valid_request (request : RoomService.QuickMatchRequest) : Prop :=
  match RoomService.qr_preferred_players request with
  | Some preferred => 3 <= preferred <= 8
  | None => True
  end.

(** * Sample data for the examples *)

Module Sample.
Local Open Scope string_scope.

Definition user (id : Z) (nickname : string) : User.t :=
  User.mk id (Some nickname) (Some 0) (Some Gender.OTHER) (float_of_Z 0).

Definition participant (id room_id user_id disconnects missed : Z) : RoomParticipant.t :=
  RoomParticipant.mk id room_id user_id 0 ParticipantStatus.ACTIVE
    ConnectionStatus.CONNECTED 0 None disconnects missed.

Definition alice := user 1 "Alice".
Definition bob := user 2 "Bob".
Definition carol := user 3 "Carol".
Definition dave := user 4 "Dave".

(** A public waiting room of capacity 4 with three active players. *)
Definition lobby : DB :=
  mkDB [alice; bob; carol; dave]
       [UserCard.mk 1 1 "starter" 3 0; UserCard.mk 2 2 "standard" 7 0;
        UserCard.mk 3 3 "starter" 9 0]
       [Room.mk 1 1 4 RoomStatus.WAITING (Some "ABC123") true None 0]
       [participant 1 1 1 0 0; participant 2 1 2 0 0; participant 3 1 3 0 0]
       [] [] [] [].

(** The same room where Bob has dropped twice and missed one action. *)
Definition flaky_lobby : DB :=
  set_room_participants lobby
    [participant 1 1 1 0 0; participant 2 1 2 2 1; participant 3 1 3 0 0].

(** A database that orders rows by a descending count with a stable sort:
    rows with equal counts stay in storage order. *)
Fixpoint insert_desc {A : Type} (key : A -> Z) (x : A) (l : list A) : list A :=
  match l with
  | [] => [x]
  | y :: rest =>
      if key x >? key y
      then x :: y :: rest
      else y :: insert_desc key x rest
  end.

Definition sort_desc {A : Type} (key : A -> Z) (l : list A) : list A :=
  fold_left (fun acc x => insert_desc key x acc) l [].

(** Collaborators: a bus, three standard cards in the catalogue, and a
    database that keeps equal counts in storage order. *)
Definition env : Env :=
  mkEnv true (Some [1; 2; 3])
        (sort_desc vc_vote_count) (sort_desc ps_round_wins) 0.

Definition state_after {A : Type} (m : M A) (db : DB) : DB := fst (fst (m db)).

(** Alice starts the game (creator of room 1), at time 100. *)
Definition game_created : DB :=
  Eval vm_compute in state_after (RoomService.start_game 100 1 1) lobby.

(** The first round is started at time 200. *)
Definition first_round : DB :=
  Eval vm_compute in state_after (GameService.start_round env 200 1 None) game_created.

(** Alice and Bob have picked their cards in that round (the row with
    id 1). *)
Definition two_chosen : DB :=
  Eval vm_compute in
    state_after (GameService.submit_card_choice env 210 1 1 "starter" 3 ;;
                 GameService.submit_card_choice env 220 1 2 "standard" 7)
                first_round.

(** Carol has picked too. *)
Definition all_chosen : DB :=
  Eval vm_compute in
    state_after (GameService.submit_card_choice env 230 1 3 "starter" 9) two_chosen.

(** The voting has been started through the API. *)
Definition voting : DB :=
  Eval vm_compute in state_after (GameService.start_voting env 1) all_chosen.

(** Bob and Carol have voted for Alice's card (choice 1). *)
Definition two_voted : DB :=
  Eval vm_compute in
    state_after (GameService.submit_vote env 240 1 2 1 ;;
                 GameService.submit_vote env 250 1 3 1)
                voting.



(** After Bob's and Carol's votes the results of the first round were
    calculated at time 300 and, 5 seconds later, the next round was started:
    the game is in [card_selection] again, for the round with id 2. *)
Definition next_round : DB :=
  Eval vm_compute in
    state_after (GameService.calculate_round_results env 300 1) two_voted.

(** A game whose seventh round has its results shown. *)
Definition seventh_results : DB :=
  set_games game_created
    [Game.mk 1 1 GameStatus.ROUND_RESULTS 7 None 100 None].

(** The sample room made private. *)
Definition private_lobby : DB :=
  set_rooms lobby
    [Room.mk 1 1 4 RoomStatus.WAITING (Some "ABC123") false
             (Some "mixed") 0].

(** The sample room with the age group of its players, who are all 25 on
    15 June 2025 when born on 1 January 2000. *)
Definition grouped_lobby : DB :=
  set_rooms lobby
    [Room.mk 1 1 4 RoomStatus.WAITING (Some "ABC123") true
             (Some "young_adults") 0].

End Sample.

(** * Properties *)

(** ** Presence thresholds *)

Section Presence.
Import PlayerManager.

Lemma find_update_by_id (f : RoomParticipant.t -> bool)
    (values : RoomParticipant.t -> RoomParticipant.t)
    (ps : list RoomParticipant.t) (p : RoomParticipant.t) :
  (forall q, f (values q) = f q) ->
  find f ps = Some p ->
  find f (update_by_id (RoomParticipant.id p) values ps) = Some (values p).
Proof.
  intros Hpres. induction ps as [|x ps IH]; simpl; [discriminate|].
  destruct (f x) eqn:Hfx.
  - intros [= ->]. rewrite Z.eqb_refl. now rewrite Hpres, Hfx.
  - intros Hfind. destruct (RoomParticipant.id x =? RoomParticipant.id p).
    + rewrite Hpres, Hfx. now apply IH.
    + rewrite Hfx. now apply IH.
Qed.

(** C8, as the source has it.  For a participant of the room,
    [mark_player_disconnected] stores the incremented disconnect counter and
    sets the membership to [LEFT] exactly when that counter is at least
    [MAX_DISCONNECT_COUNT = 3] (to [DISCONNECTED] below it);
    [handle_missed_action] stores the incremented missed-action counter and
    sets the membership to [LEFT] exactly when that counter is at least
    [MAX_MISSED_ACTIONS = 2], leaving the membership as it was below it.
    The [excluded] flag of each returned record reports the exclusion. *)
Theorem exclusion_thresholds (db : DB) (now user_id room_id : Z)
    (p : RoomParticipant.t) :
  find (is_participant user_id room_id) (room_participants db) = Some p ->
  (exists db' info p',
      mark_player_disconnected db now user_id room_id = Ok (db', info)
      /\ find (is_participant user_id room_id) (room_participants db') = Some p'
      /\ RoomParticipant.disconnect_count p' = RoomParticipant.disconnect_count p + 1
      /\ di_excluded info
         = (RoomParticipant.disconnect_count p + 1 >=? MAX_DISCONNECT_COUNT)
      /\ RoomParticipant.status p'
         = (if di_excluded info then ParticipantStatus.LEFT
            else ParticipantStatus.DISCONNECTED))
  /\
  (exists db' info p',
      handle_missed_action db now user_id room_id = (db', info)
      /\ find (is_participant user_id room_id) (room_participants db') = Some p'
      /\ RoomParticipant.missed_actions p' = RoomParticipant.missed_actions p + 1
      /\ mi_excluded info
         = (RoomParticipant.missed_actions p + 1 >=? MAX_MISSED_ACTIONS)
      /\ RoomParticipant.status p'
         = (if mi_excluded info then ParticipantStatus.LEFT
            else RoomParticipant.status p)).
Proof.
  intros Hfind. split.
  - unfold mark_player_disconnected. rewrite Hfind.
    eexists _, _, _. split; [reflexivity|]. cbn [room_participants set_room_participants].
    split; [apply find_update_by_id; [reflexivity | exact Hfind]|].
    cbn. repeat split.
  - unfold handle_missed_action. rewrite Hfind.
    eexists _, _, _. split; [reflexivity|]. cbn [room_participants set_room_participants].
    split; [apply find_update_by_id; [reflexivity | exact Hfind]|].
    cbn. repeat split.
Qed.

(** Bob, with two disconnects and one missed action on record. *)
Lemma exclusion_thresholds_witness :
  find (is_participant 2 1) (room_participants Sample.flaky_lobby)
    = Some (Sample.participant 2 1 2 2 1)
  /\ (exists db' info,
        mark_player_disconnected Sample.flaky_lobby 10 2 1 = Ok (db', info)
        /\ di_excluded info = true)
  /\ (exists db' info,
        handle_missed_action Sample.flaky_lobby 10 2 1 = (db', info)
        /\ mi_excluded info = true).
Proof.
  split; [reflexivity|].
  destruct (exclusion_thresholds Sample.flaky_lobby 10 2 1
              (Sample.participant 2 1 2 2 1) eq_refl)
    as [(db1 & i1 & p1 & H1 & _ & _ & E1 & _) (db2 & i2 & p2 & H2 & _ & _ & E2 & _)].
  split.
  - exists db1, i1. split; [exact H1 | exact E1].
  - exists db2, i2. split; [exact H2 | exact E2].
Defined.

(** C8 as stated fails: a third disconnect brings the counter to 3, which
    does not exceed [MAX_DISCONNECT_COUNT], and the participant is excluded
    all the same; a second missed action brings that counter to 2, which
    does not exceed [MAX_MISSED_ACTIONS], and the participant is excluded. *)
Lemma exclusion_at_threshold_counterexample :
  (exists db' info p',
      mark_player_disconnected Sample.flaky_lobby 10 2 1 = Ok (db', info)
      /\ find (is_participant 2 1) (room_participants db') = Some p'
      /\ RoomParticipant.disconnect_count p' = 3
      /\ ~ (RoomParticipant.disconnect_count p' > MAX_DISCONNECT_COUNT)
      /\ RoomParticipant.status p' = ParticipantStatus.LEFT
      /\ di_excluded info = true)
  /\
  (exists db' info p',
      handle_missed_action Sample.flaky_lobby 10 2 1 = (db', info)
      /\ find (is_participant 2 1) (room_participants db') = Some p'
      /\ RoomParticipant.missed_actions p' = 2
      /\ ~ (RoomParticipant.missed_actions p' > MAX_MISSED_ACTIONS)
      /\ RoomParticipant.status p' = ParticipantStatus.LEFT
      /\ mi_excluded info = true).
Proof.
  split; eexists _, _, _; (split; [reflexivity|]);
    (split; [reflexivity|]); cbn; repeat split; unfold MAX_DISCONNECT_COUNT,
    MAX_MISSED_ACTIONS; lia.
Qed.

End Presence.

(** ** Deadline timers *)

Section Timers.
Import GameService.

Lemma status_eqb_CARD_SELECTION (s : GameStatus.t) :
  GameStatus.eqb s GameStatus.CARD_SELECTION = true <-> s = GameStatus.CARD_SELECTION.
Proof. destruct s; simpl; split; congruence. Qed.

Lemma status_eqb_VOTING (s : GameStatus.t) :
  GameStatus.eqb s GameStatus.VOTING = true <-> s = GameStatus.VOTING.
Proof. destruct s; simpl; split; congruence. Qed.

(** The guard of the two handlers.  A selection-deadline timer that fires
    when the game of its round is not in [card_selection], and a
    voting-deadline timer that fires when the game is not in [voting],
    leave every table as it was, publish nothing and create no task. *)
Theorem stale_timer_is_noop (env : Env) (now round_id : Z) (db : DB) :
  (phase_of_round db round_id <> Some GameStatus.CARD_SELECTION ->
   _handle_selection_timeout env now round_id db = (db, [], Ok tt))
  /\
  (phase_of_round db round_id <> Some GameStatus.VOTING ->
   _handle_voting_timeout env now round_id db = (db, [], Ok tt)).
Proof.
  unfold phase_of_round. split; intros Hphase.
  - cbv [_handle_selection_timeout try_except bind _get_round_or_404
           _get_game_or_404 get raise ret].
    destruct (find _ (game_rounds db)) as [game_round|]; [|reflexivity].
    destruct (GameRound.selection_deadline game_round); [|reflexivity].
    destruct (find _ (games db)) as [game|]; [|reflexivity].
    destruct (GameStatus.eqb (Game.status game) GameStatus.CARD_SELECTION) eqn:E.
    + apply status_eqb_CARD_SELECTION in E. congruence.
    + reflexivity.
  - cbv [_handle_voting_timeout try_except bind _get_round_or_404
           _get_game_or_404 get raise ret].
    destruct (find _ (game_rounds db)) as [game_round|]; [|reflexivity].
    destruct (GameRound.voting_deadline game_round); [|reflexivity].
    destruct (find _ (games db)) as [game|]; [|reflexivity].
    destruct (GameStatus.eqb (Game.status game) GameStatus.VOTING) eqn:E.
    + apply status_eqb_VOTING in E. congruence.
    + reflexivity.
Qed.

(** The selection timer of the sample round firing during the voting, and
    its voting timer firing while cards are still being selected. *)
Lemma stale_timer_is_noop_witness :
  _handle_selection_timeout Sample.env 500 1 Sample.voting
    = (Sample.voting, [], Ok tt)
  /\ _handle_voting_timeout Sample.env 680 1 Sample.all_chosen
     = (Sample.all_chosen, [], Ok tt).
Proof.
  split.
  - apply (proj1 (stale_timer_is_noop Sample.env 500 1 Sample.voting)).
    vm_compute. discriminate.
  - apply (proj2 (stale_timer_is_noop Sample.env 680 1 Sample.all_chosen)).
    vm_compute. discriminate.
Defined.

(** A timer that fires in its own phase does act: at the selection deadline
    with three choices stored the game moves to the voting. *)
Lemma live_selection_timer_acts :
  phase_of_round (fst (fst (_handle_selection_timeout Sample.env 500 1 Sample.all_chosen))) 1
  = Some GameStatus.VOTING.
Proof. reflexivity. Qed.

(** C7.  The guard reads the status of the game, not the round of the
    timer.  In the sample game the first round (row 1, selection deadline
    500) was played before its deadline: its results were calculated at 300
    and the round is finished; since 305 the game is in [card_selection]
    again, for the next round (row 2, selection deadline 600).  The
    selection timer of the first round, firing at 500, passes the guard,
    counts the three choices of its own round and starts the voting: the
    game leaves [card_selection] for [voting] a hundred seconds before the
    deadline of the round being played, [voting_started] is published and a
    voting timer is created. *)
Theorem earlier_round_timer_in_later_selection :
  map GameRound.finished_at (game_rounds Sample.next_round) = [Some 300; None]
  /\ map GameRound.selection_deadline (game_rounds Sample.next_round)
     = [Some 500; Some 600]
  /\ phase_of_round Sample.next_round 2 = Some GameStatus.CARD_SELECTION
  /\ exists db' fx,
       _handle_selection_timeout Sample.env 500 1 Sample.next_round
       = (db', fx, Ok tt)
       /\ map Game.status (games db') = [GameStatus.VOTING]
       /\ phase_of_round db' 2 = Some GameStatus.VOTING
       /\ In (Publish 1 voting_started) fx
       /\ In (CreateTask (VotingTimeout 1)) fx.
Proof.
  split; [reflexivity|]. split; [reflexivity|]. split; [reflexivity|].
  eexists _, _. split; [reflexivity|].
  split; [reflexivity|]. split; [reflexivity|].
  split; vm_compute; tauto.
Qed.

End Timers.

(** ** Card selection *)

Section Selection.
Import GameService.

(** C5, as the source has it.  A successful [submit_card_choice] appends
    the choice and leaves the games table as it was, so the game stays in
    [card_selection]; it publishes no [voting_started] and creates no
    voting timer: the completion condition is not checked there.  The
    check itself, [_check_all_players_chose_cards], invokes [start_voting]
    when the choices of the round are at least as many as the connected
    participants and these are at least 2. *)
Theorem submit_choice_keeps_phase (env : Env) (now round_id user_id : Z)
    (card_type : string) (card_number : Z) (db : DB) :
  (forall db' fx response,
     submit_card_choice env now round_id user_id card_type card_number db
       = (db', fx, Ok response) ->
     games db' = games db
     /\ phase_of_round db' round_id = Some GameStatus.CARD_SELECTION
     /\ player_choices db'
        = player_choices db ++
          [PlayerChoice.mk (pc_id response) round_id user_id card_type card_number now]
     /\ existsb is_voting_effect fx = false)
  /\
  (forall game_id game,
     find (fun g => Game.id g =? game_id) (games db) = Some game ->
     Z.of_nat (length (filter (fun c => PlayerChoice.round_id c =? round_id)
                              (player_choices db)))
       >= Z.of_nat (length (connected_players db (Game.room_id game))) ->
     Z.of_nat (length (connected_players db (Game.room_id game))) >= 2 ->
     _check_all_players_chose_cards env game_id round_id db
       = (start_voting env round_id ;; ret tt) db).
Proof.
  split.
  - intros db' fx response. unfold phase_of_round.
    cbv [submit_card_choice bind _get_round_or_404 _get_game_or_404 get raise ret
         raise_when raise_when_past _validate_player_in_game lift put
         PlayerManager.update_player_activity publish_game_event emit].
    destruct (find _ (game_rounds db)) as [game_round|] eqn:Hround;
      cbn beta iota zeta; [|discriminate].
    destruct (find _ (games db)) as [game|] eqn:Hgame;
      cbn beta iota zeta; [|discriminate].
    destruct (GameStatus.eqb (Game.status game) GameStatus.CARD_SELECTION) eqn:E1;
      cbn [negb]; [|discriminate].
    destruct (GameRound.selection_deadline game_round); [|discriminate].
    destruct (now >? z); [discriminate|].
    destruct (existsb (is_active_participant _ _) _); cbn [negb]; [|discriminate].
    cbn [player_choices user_cards set_room_participants].
    destruct (existsb _ (player_choices db)); [discriminate|].
    destruct (existsb _ (user_cards db)); cbn [negb]; [|discriminate].
    destruct (redis_client env); cbn beta iota zeta;
      intros [= <- <- <-]; cbn; rewrite Hround, Hgame;
      apply status_eqb_CARD_SELECTION in E1; rewrite E1; repeat split.
  - intros game_id game Hgame Hall Htwo.
    cbv [_check_all_players_chose_cards bind _get_game_or_404 get ret].
    rewrite Hgame. cbn beta iota zeta.
    replace (_ >=? _) with true by (symmetry; apply Z.geb_le; lia).
    replace (_ >? 1) with true by (symmetry; apply Z.gtb_lt; lia).
    cbn [andb]. destruct (start_voting env round_id db) as [[db1 fx1] [r|e]];
      rewrite ?app_nil_r; reflexivity.
Qed.


(** Carol's pick in the sample round, and the completion check run by hand
    once all three have picked. *)
Lemma submit_choice_keeps_phase_witness :
  (exists db' fx response,
      submit_card_choice Sample.env 230 1 3 "starter" 9 Sample.two_chosen
        = (db', fx, Ok response)
      /\ games db' = games Sample.two_chosen
      /\ phase_of_round db' 1 = Some GameStatus.CARD_SELECTION)
  /\ _check_all_players_chose_cards Sample.env 1 1 Sample.all_chosen
     = (start_voting Sample.env 1 ;; ret tt) Sample.all_chosen.
Proof.
  destruct (submit_choice_keeps_phase Sample.env 230 1 3 "starter" 9
              Sample.two_chosen) as [Hsubmit _].
  destruct (submit_choice_keeps_phase Sample.env 230 1 3 "starter" 9
              Sample.all_chosen) as [_ Hcheck].
  split.
  - eexists _, _, _. split; [reflexivity|].
    destruct (Hsubmit _ _ _ eq_refl) as (Hgames & Hphase & _).
    split; [exact Hgames | exact Hphase].
  - apply (Hcheck 1 _ eq_refl); vm_compute; discriminate.
Defined.

(** C5 as stated fails: when Carol, the last of three connected
    participants, submits her card, the round holds 3 choices for 3
    connected participants, yet the game is still in [card_selection] and
    the only effect is the [player_choice_submitted] event. *)
Lemma submit_choice_no_early_advance_counterexample :
  exists db' fx response,
    submit_card_choice Sample.env 230 1 3 "starter" 9 Sample.two_chosen
      = (db', fx, Ok response)
    /\ Z.of_nat (length (filter (fun c => PlayerChoice.round_id c =? 1)
                                (player_choices db')))
       >= Z.of_nat (length (connected_players db' 1))
    /\ Z.of_nat (length (connected_players db' 1)) >= 2
    /\ phase_of_round db' 1 = Some GameStatus.CARD_SELECTION
    /\ phase_of_round db' 1 <> Some GameStatus.VOTING
    /\ fx = [Publish 1 player_choice_submitted].
Proof.
  eexists _, _, _. split; [reflexivity|]. vm_compute. repeat split; discriminate.
Qed.

End Selection.

(** ** Votes *)

Section Votes.
Import GameService.

Lemma participant_status_eqb_ACTIVE (s : ParticipantStatus.t) :
  ParticipantStatus.eqb s ParticipantStatus.ACTIVE = true
  <-> s = ParticipantStatus.ACTIVE.
Proof. destruct s; simpl; split; congruence. Qed.

Lemma is_active_participant_spec (room_id user_id : Z) (ps : list RoomParticipant.t) :
  existsb (is_active_participant room_id user_id) ps = true
  <-> exists p, In p ps
                /\ RoomParticipant.room_id p = room_id
                /\ RoomParticipant.user_id p = user_id
                /\ RoomParticipant.status p = ParticipantStatus.ACTIVE.
Proof.
  rewrite existsb_exists. unfold is_active_participant.
  split; intros (p & Hin & H); exists p; (split; [exact Hin|]).
  - rewrite !andb_true_iff, !Z.eqb_eq, participant_status_eqb_ACTIVE in H. tauto.
  - rewrite !andb_true_iff, !Z.eqb_eq, participant_status_eqb_ACTIVE. tauto.
Qed.

Lemma prior_vote_spec (round_id user_id : Z) (vs : list Vote.t) :
  existsb (fun v => (Vote.round_id v =? round_id) && (Vote.voter_id v =? user_id)) vs
    = false
  <-> forall v, In v vs -> ~ (Vote.round_id v = round_id /\ Vote.voter_id v = user_id).
Proof.
  rewrite <- not_true_iff_false, existsb_exists. split.
  - intros H v Hin [H1 H2]. apply H. exists v. split; [exact Hin|].
    now rewrite andb_true_iff, !Z.eqb_eq.
  - intros H (v & Hin & Hv). rewrite andb_true_iff, !Z.eqb_eq in Hv.
    exact (H v Hin Hv).
Qed.

Lemma find_choice_by_id (choice_id : Z) (cs : list PlayerChoice.t) (c c' : PlayerChoice.t) :
  NoDup (map PlayerChoice.id cs) ->
  find (fun c => PlayerChoice.id c =? choice_id) cs = Some c ->
  In c' cs -> PlayerChoice.id c' = choice_id -> c' = c.
Proof.
  induction cs as [|x cs IH]; simpl; [discriminate|].
  intros Hnd Hfind Hin Hid. inversion Hnd as [|? ? Hnotin Hnd']; subst.
  destruct (PlayerChoice.id x =? PlayerChoice.id c') eqn:E.
  - injection Hfind as <-. destruct Hin as [->|Hin]; [reflexivity|].
    apply Z.eqb_eq in E. exfalso. apply Hnotin. rewrite E. now apply in_map.
  - destruct Hin as [->|Hin]; [now rewrite Z.eqb_refl in E|]. now apply IH.
Qed.

Lemma check_all_players_voted_run (game_id round_id : Z) (db : DB) (game : Game.t) :
  find (fun g => Game.id g =? game_id) (games db) = Some game ->
  exists fx, _check_all_players_voted game_id round_id db = (db, fx, Ok tt).
Proof.
  intros Hgame.
  cbv [_check_all_players_voted bind _get_game_or_404 get ret emit].
  rewrite Hgame. cbn beta iota zeta.
  destruct (_ && _); eexists; reflexivity.
Qed.

Ltac rejected contra :=
  eexists _, _, _; split; [reflexivity|];
  cbn [votes player_choices set_room_participants];
  split; [split; [intros [? [=]] | intros Hacc; exfalso; contra Hacc]|];
  split; [intros ? [=]|];
  split; [intros ? [= <-]; split; [tauto | reflexivity]|];
  split; [unfold no_self_votes; cbn [votes player_choices set_room_participants]; trivial
         | unfold one_vote_per_voter; cbn [votes player_choices set_room_participants]; trivial].

(** [submit_vote] on a round that exists, with its game and a voting
    deadline. *)
Lemma submit_vote_in_round (env : Env) (now round_id user_id choice_id : Z)
    (db : DB) (game_round : GameRound.t) (game : Game.t) (deadline : Z) :
  find (fun r => GameRound.id r =? round_id) (game_rounds db) = Some game_round ->
  find (fun g => Game.id g =? GameRound.game_id game_round) (games db) = Some game ->
  GameRound.voting_deadline game_round = Some deadline ->
  NoDup (map PlayerChoice.id (player_choices db)) ->
  exists db' fx res,
    submit_vote env now round_id user_id choice_id db = (db', fx, res)
    /\ ((exists vote, res = Ok vote)
        <-> vote_accepted db now round_id user_id choice_id game deadline)
    /\ (forall vote, res = Ok vote ->
          vote = Vote.mk (next_id (map Vote.id (votes db)))
                         round_id user_id choice_id now
          /\ votes db' = votes db ++ [vote])
    /\ (forall e, res = Raise e ->
          (e = ValidationError \/ e = PermissionError) /\ votes db' = votes db)
    /\ (no_self_votes db -> no_self_votes db')
    /\ (one_vote_per_voter db -> one_vote_per_voter db').
Proof.
  intros Hround Hgame Hdeadline Hpk.
  cbv [submit_vote bind _get_round_or_404 _get_game_or_404 get raise ret
       raise_when raise_when_past _validate_player_in_game lift put
       PlayerManager.update_player_activity publish_game_event emit].
  rewrite Hround. cbn beta iota zeta. rewrite Hgame. cbn beta iota zeta.
  rewrite Hdeadline. cbn beta iota zeta.
  destruct (GameStatus.eqb (Game.status game) GameStatus.VOTING) eqn:E1; cbn [negb];
    [|rejected ltac:(fun H => destruct H as (H & _); apply status_eqb_VOTING in H; congruence)].
  destruct (now >? deadline) eqn:E2;
    [rejected ltac:(fun H => destruct H as (_ & H & _); apply Z.gtb_lt in E2; lia)|].
  destruct (existsb (is_active_participant _ _) _) eqn:E3; cbn [negb];
    [|rejected ltac:(fun H => destruct H as (_ & _ & H & _);
                      apply is_active_participant_spec in H; congruence)].
  cbn [votes player_choices set_room_participants].
  destruct (existsb _ (votes db)) eqn:E4;
    [rejected ltac:(fun H => destruct H as (_ & _ & _ & H & _);
                     apply prior_vote_spec in H; congruence)|].
  destruct (find _ (player_choices db)) as [choice|] eqn:E5;
    [|rejected ltac:(fun H => destruct H as (_ & _ & _ & _ & (c & H & _)); congruence)].
  destruct (PlayerChoice.round_id choice =? round_id) eqn:E6; cbn [negb];
    [|rejected ltac:(fun H => destruct H as (_ & _ & _ & _ & (c & H & H' & _));
                      rewrite E5 in H; injection H as <-; apply Z.eqb_neq in E6; congruence)].
  destruct (PlayerChoice.user_id choice =? user_id) eqn:E7;
    [rejected ltac:(fun H => destruct H as (_ & _ & _ & _ & (c & H & _ & H'));
                     rewrite E5 in H; injection H as <-; apply Z.eqb_eq in E7; congruence)|].
  assert (Hfresh : forall v, In v (votes db) ->
            ~ (Vote.round_id v = round_id /\ Vote.voter_id v = user_id))
    by now apply prior_vote_spec.
  apply Z.eqb_eq in E6. apply Z.eqb_neq in E7.
  destruct (redis_client env); cbn beta iota zeta;
    match goal with
    | |- context [_check_all_players_voted ?g ?r ?d] =>
        destruct (check_all_players_voted_run g r d game Hgame) as [fxc Hc]
    end; rewrite Hc;
    (eexists _, _, _; split; [reflexivity|]);
    cbn [votes player_choices set_votes set_room_participants];
    (split; [split; [intros _|intros _; eexists; reflexivity]|]);
    try (split; [now apply status_eqb_VOTING|];
         split; [rewrite Z.gtb_ltb, Z.ltb_ge in E2; exact E2|];
         split; [now apply is_active_participant_spec|];
         split; [exact Hfresh|];
         exists choice; repeat split; assumption);
    (split; [intros vote [= <-]; split; reflexivity|]);
    (split; [intros e [=]|]);
    (split;
     [ unfold no_self_votes;
       cbn [votes player_choices set_votes set_room_participants];
       intros Hinv v c Hv Hin Hid; apply in_app_or in Hv;
       destruct Hv as [Hv|[<-|[]]]; [now apply (Hinv v c)|];
       cbn [Vote.choice_id Vote.voter_id] in *;
       now rewrite (find_choice_by_id choice_id _ choice c Hpk E5 Hin Hid)
     | unfold one_vote_per_voter;
       cbn [votes player_choices set_votes set_room_participants];
       intros Hinv; rewrite map_app;
       apply (Permutation_NoDup (Permutation_cons_append _ _));
       constructor; [|exact Hinv];
       rewrite in_map_iff; intros (v & Hv & Hin);
       apply (Hfresh v Hin); cbn in Hv; injection Hv as -> ->; split; reflexivity ]).
Qed.

(** C6, as the source has it.  With choice ids a primary key:
    [submit_vote] stores a vote if and only if the round and its game
    exist, the game is in [voting], the round has a voting deadline and the
    time is not past it, the voter is an active participant of the room,
    the voter has no vote in the round yet, and the chosen choice exists,
    belongs to the round and to another user.  The stored vote is appended
    to the votes table.  Otherwise the votes table is unchanged and the
    call raises an error: a not-found error when the round or its game does
    not exist, and for a round with a voting deadline a validation or
    permission error; on a round without a deadline the comparison is a
    TypeError once the game is in [voting].  Either way no vote references
    the voter's own choice and there is at most one vote per (round,
    voter), when that held before. *)
Theorem submit_vote_accepts_iff (env : Env) (now round_id user_id choice_id : Z)
    (db : DB) :
  NoDup (map PlayerChoice.id (player_choices db)) ->
  exists db' fx res,
    submit_vote env now round_id user_id choice_id db = (db', fx, res)
    /\ ((exists vote, res = Ok vote)
        <-> vote_accepted_in db now round_id user_id choice_id)
    /\ (forall vote, res = Ok vote ->
          vote = Vote.mk (next_id (map Vote.id (votes db)))
                         round_id user_id choice_id now
          /\ votes db' = votes db ++ [vote])
    /\ (forall e, res = Raise e ->
          vote_refusal db round_id e /\ votes db' = votes db)
    /\ (no_self_votes db -> no_self_votes db')
    /\ (one_vote_per_voter db -> one_vote_per_voter db').
Proof.
  intros Hpk. unfold vote_accepted_in, vote_refusal.
  destruct (find (fun r => GameRound.id r =? round_id) (game_rounds db))
    as [game_round|] eqn:Hround.
  2: { exists db, [], (Raise NotFoundError).
       split.
       { cbv [submit_vote bind _get_round_or_404 get raise].
         now rewrite Hround. }
       split; [split; [intros [? [=]] | intros (? & ? & ? & [=] & _)]|].
       split; [intros ? [=]|].
       split; [intros e [= <-]; split; reflexivity|].
       split; trivial. }
  destruct (find (fun g => Game.id g =? GameRound.game_id game_round) (games db))
    as [game|] eqn:Hgame.
  2: { exists db, [], (Raise NotFoundError).
       split.
       { cbv [submit_vote bind _get_round_or_404 _get_game_or_404 get raise ret].
         rewrite Hround. cbn beta iota zeta. now rewrite Hgame. }
       split.
       { split; [intros [? [=]]|].
         intros (r & g & d & [= <-] & Hg & _). congruence. }
       split; [intros ? [=]|].
       split; [intros e [= <-]; split; reflexivity|].
       split; trivial. }
  destruct (GameRound.voting_deadline game_round) as [deadline|] eqn:Hdeadline.
  - destruct (submit_vote_in_round env now round_id user_id choice_id db
                game_round game deadline Hround Hgame Hdeadline Hpk)
      as (db' & fx & res & Hrun & Hiff & Hok & Herr & Hself & Hone).
    exists db', fx, res. split; [exact Hrun|].
    split; [|split; [exact Hok | split; [exact Herr | split; assumption]]].
    rewrite Hiff. split.
    + intros Hacc. exists game_round, game, deadline. repeat split; try assumption;
        apply Hacc.
    + intros (r & g & d & [= <-] & Hg & Hd & Hacc).
      rewrite Hgame in Hg. injection Hg as <-.
      rewrite Hdeadline in Hd. injection Hd as <-. exact Hacc.
  - assert (Hrun : exists e,
              submit_vote env now round_id user_id choice_id db = (db, [], Raise e)
              /\ (if GameStatus.eqb (Game.status game) GameStatus.VOTING
                  then e = TypeError else e = ValidationError)).
    { cbv [submit_vote bind _get_round_or_404 _get_game_or_404 get raise ret
           raise_when raise_when_past].
      rewrite Hround. cbn beta iota zeta. rewrite Hgame. cbn beta iota zeta.
      rewrite Hdeadline.
      destruct (GameStatus.eqb (Game.status game) GameStatus.VOTING);
        cbn [negb]; cbn beta iota zeta; eexists; split; reflexivity. }
    destruct Hrun as (e & Hrun & Hkind).
    exists db, [], (Raise e). split; [exact Hrun|].
    split.
    { split; [intros [? [=]]|].
      intros (r & g & d & [= <-] & _ & Hd & _). congruence. }
    split; [intros ? [=]|].
    split; [intros e' [= <-]; split; [exact Hkind | reflexivity]|].
    split; trivial.
Qed.

(** Bob votes for Alice's card at time 240, before the deadline 680. *)
Lemma submit_vote_accepts_iff_witness :
  exists db' fx vote,
    submit_vote Sample.env 240 1 2 1 Sample.voting = (db', fx, Ok vote)
    /\ votes db' = votes Sample.voting ++ [vote]
    /\ no_self_votes db'.
Proof.
  assert (Hpk : NoDup (map PlayerChoice.id (player_choices Sample.voting))).
  { simpl. repeat constructor; simpl; intuition discriminate. }
  destruct (submit_vote_accepts_iff Sample.env 240 1 2 1 Sample.voting Hpk)
    as (db' & fx & res & Hrun & _ & Hok & _ & Hself & _).
  vm_compute in Hrun. injection Hrun as <- <- <-.
  eexists _, _, _. split; [reflexivity|].
  split; [exact (proj2 (Hok _ eq_refl))|].
  apply Hself. intros v c [].
Defined.

(** C6 as stated fails: a vote for a round that does not exist is refused
    with a not-found error, which is neither a validation nor a permission
    error.  No vote is recorded. *)
Lemma vote_in_unknown_round_counterexample :
  find (fun r => GameRound.id r =? 99) (game_rounds Sample.voting) = None
  /\ exists e,
       submit_vote Sample.env 240 99 2 1 Sample.voting
       = (Sample.voting, [], Raise e)
       /\ e <> ValidationError /\ e <> PermissionError.
Proof.
  split; [reflexivity|]. exists NotFoundError.
  split; [reflexivity|]. split; discriminate.
Qed.

End Votes.

(** ** Joining a room *)

Section Joining.
Import RoomService.

Lemma room_status_eqb_WAITING (s : RoomStatus.t) :
  RoomStatus.eqb s RoomStatus.WAITING = true <-> s = RoomStatus.WAITING.
Proof. destruct s; simpl; split; congruence. Qed.




Lemma generate_room_code_chars (draw : nat -> nat) :
  code_chars (generate_room_code draw) = true
  /\ String.length (generate_room_code draw) = 6%nat.
Proof.
  unfold code_chars, generate_room_code.
  rewrite list_ascii_of_string_of_list_ascii. split.
  - apply forallb_forall. intros c Hin. apply in_map_iff in Hin as (k & <- & _).
    assert (Hall : forallb is_code_char code_alphabet = true) by reflexivity.
    rewrite forallb_forall in Hall. apply Hall. apply nth_In.
    apply Nat.mod_upper_bound. discriminate.
  - reflexivity.
Qed.

Lemma get_room_details_public (room_id : Z) (user_id : option Z) (db : DB)
    (room : Room.t) :
  find (fun r => Room.id r =? room_id) (rooms db) = Some room ->
  Room.is_public room = true ->
  exists response, get_room_details room_id user_id db = (db, [], Ok response).
Proof.
  intros Hroom Hpub.
  cbv [get_room_details bind _get_room_or_404 get raise ret raise_when].
  rewrite Hroom. cbn beta iota zeta. rewrite Hpub. cbn [negb andb].
  eexists. reflexivity.
Qed.

Lemma join_room_internal_run (now room_id user_id : Z) (db : DB) (room : Room.t) :
  find (fun r => Room.id r =? room_id) (rooms db) = Some room ->
  RoomStatus.eqb (Room.status room) RoomStatus.WAITING = true ->
  existsb (GameService.is_active_participant room_id user_id)
          (room_participants db) = false ->
  (_get_active_players_count db room_id >=? Room.max_players room) = false ->
  _join_room_internal now room_id user_id db
  = get_room_details room_id (Some user_id)
      (set_room_participants db
         (room_participants db ++ [new_participant db now room_id user_id])).
Proof.
  intros Hroom Hst Hact Hcap.
  cbv [_join_room_internal bind _get_room_or_404 get raise ret raise_when put].
  rewrite Hroom. cbn beta iota zeta. rewrite Hst. cbn [negb]. cbn beta iota zeta.
  rewrite Hact. cbn beta iota zeta. rewrite Hcap. cbn beta iota zeta.
  destruct (get_room_details _ _ _) as [[db2 fx2] r2]. reflexivity.
Qed.

(** C9, as the source has it.  For a user with a complete profile and an
    existing room: [join_room] refuses a private room with a permission
    error; it succeeds exactly when the room is public, waiting, not yet
    joined by the user and below capacity, and then appends one active
    participant record and changes nothing else; a join by a user who is
    already an active participant is rejected with a validation error; every
    rejection leaves the database as it was. *)
Theorem join_room_guards (now room_id user_id : Z) (db : DB)
    (user : User.t) (room : Room.t) :
  find (fun u => User.id u =? user_id) (users db) = Some user ->
  User.is_profile_complete user = true ->
  find (fun r => Room.id r =? room_id) (rooms db) = Some room ->
  (Room.is_public room = false ->
   join_room now room_id user_id db = (db, [], Raise PermissionError))
  /\
  (Room.is_public room = true ->
   Room.status room = RoomStatus.WAITING ->
   existsb (GameService.is_active_participant room_id user_id)
           (room_participants db) = true ->
   join_room now room_id user_id db = (db, [], Raise ValidationError))
  /\
  (exists db' fx res,
     join_room now room_id user_id db = (db', fx, res)
     /\ ((exists response, res = Ok response) <-> joinable db room_id user_id room)
     /\ (forall response, res = Ok response ->
           db' = set_room_participants db
                   (room_participants db ++ [new_participant db now room_id user_id]))
     /\ (forall e, res = Raise e -> db' = db)).
Proof.
  intros Huser Hprofile Hroom.
  cbv [join_room require_complete_profile
       bind _get_room_or_404 get raise ret raise_when put].
  rewrite Huser. cbn beta iota zeta. rewrite Hprofile. cbn [negb].
  cbn beta iota zeta. rewrite Hroom. cbn beta iota zeta.
  unfold joinable.
  destruct (Room.is_public room) eqn:Epub; cbn [negb].
  2:{ split; [reflexivity|]. split; [discriminate|].
      eexists _, _, _. split; [reflexivity|].
      split; [split; [intros [? [=]] | intros (H & _); discriminate]|].
      split; [intros ? [=] | reflexivity]. }
  split; [discriminate|].
  destruct (RoomStatus.eqb (Room.status room) RoomStatus.WAITING) eqn:Est; cbn [negb].
  2:{ split; [intros _ H; apply room_status_eqb_WAITING in H; congruence|].
      eexists _, _, _. split; [reflexivity|].
      split; [split; [intros [? [=]]
                     | intros (_ & H & _); apply room_status_eqb_WAITING in H; congruence]|].
      split; [intros ? [=] | reflexivity]. }
  destruct (existsb _ (room_participants db)) eqn:Eact.
  { split; [reflexivity|].
    eexists _, _, _. split; [reflexivity|].
    split; [split; [intros [? [=]] | intros (_ & _ & H & _); discriminate]|].
    split; [intros ? [=] | reflexivity]. }
  split; [discriminate|].
  destruct (_get_active_players_count db room_id >=? Room.max_players room) eqn:Ecap.
  { eexists _, _, _. split; [reflexivity|].
    split; [split; [intros [? [=]]
                   | intros (_ & _ & _ & H); apply Z.geb_le in Ecap; lia]|].
    split; [intros ? [=] | reflexivity]. }
  rewrite (join_room_internal_run now room_id user_id db room Hroom Est Eact Ecap).
  destruct (get_room_details_public room_id (Some user_id)
              (set_room_participants db
                 (room_participants db ++ [new_participant db now room_id user_id]))
              room Hroom Epub) as [response Hdetails].
  rewrite Hdetails.
  eexists _, _, _. split; [reflexivity|].
  split; [split; [intros _ | intros _; eexists; reflexivity]|].
  { apply room_status_eqb_WAITING in Est. rewrite Z.geb_leb, Z.leb_gt in Ecap.
    repeat split; assumption. }
  split; [intros ? _; reflexivity | intros ? [=]].
Qed.


(** Dave joins the sample lobby. *)
Lemma join_room_guards_witness :
  exists db' fx response,
    join_room 5 1 4 Sample.lobby = (db', fx, Ok response)
    /\ db' = set_room_participants Sample.lobby
               (room_participants Sample.lobby ++ [new_participant Sample.lobby 5 1 4]).
Proof.
  destruct (join_room_guards 5 1 4 Sample.lobby Sample.dave _
              eq_refl eq_refl eq_refl)
    as (_ & _ & db' & fx & res & Hrun & _ & Hok & _).
  vm_compute in Hrun. injection Hrun as <- <- <-.
  eexists _, _, _. split; [reflexivity|]. exact (Hok _ eq_refl).
Defined.

(** C9 as stated fails: Bob is an active participant of the sample lobby,
    a public waiting room with a free seat, and his repeated join does not
    succeed: it raises a validation error. *)
Lemma repeated_join_counterexample :
  existsb (GameService.is_active_participant 1 2) (room_participants Sample.lobby)
    = true
  /\ join_room 5 1 2 Sample.lobby = (Sample.lobby, [], Raise ValidationError)
  /\ ~ (exists db' fx response,
          join_room 5 1 2 Sample.lobby = (db', fx, Ok response)).
Proof.
  split; [reflexivity|]. split; [reflexivity|].
  intros (db' & fx & response & H). vm_compute in H. discriminate H.
Qed.




End Joining.

(** ** Starting a round *)

Section Rounds.
Import GameService.

Lemma find_save_game (game_id : Z) (gs : list Game.t) (g g' : Game.t) :
  find (fun x => Game.id x =? game_id) gs = Some g ->
  Game.id g' = game_id ->
  find (fun x => Game.id x =? game_id)
       (map (fun x => if Game.id x =? Game.id g' then g' else x) gs) = Some g'.
Proof.
  intros Hfind Hid. rewrite Hid. revert Hfind.
  induction gs as [|x gs IH]; simpl; [discriminate|].
  destruct (Game.id x =? game_id) eqn:E.
  - intros _. now rewrite Hid, Z.eqb_refl.
  - rewrite E. exact IH.
Qed.

Lemma find_game_id (game_id : Z) (gs : list Game.t) (g : Game.t) :
  find (fun x => Game.id x =? game_id) gs = Some g -> Game.id g = game_id.
Proof. intros H. apply find_some in H as [_ H]. now apply Z.eqb_eq. Qed.

(** What [start_round] does when it creates a round: the round number and
    [current_round] are the old [current_round] plus one, the duration is
    [round_duration] of the old [current_round], the selection deadline is
    [started_at + duration] and the voting deadline 180 seconds later. *)
Lemma start_round_creates_round (env : Env) (now game_id : Z)
    (situation_text : option string) (db : DB) (game : Game.t) (room : Room.t) :
  find (fun g => Game.id g =? game_id) (games db) = Some game ->
  find (fun r => Room.id r =? Game.room_id game) (rooms db) = Some room ->
  Game.status game = GameStatus.STARTING
  \/ Game.status game = GameStatus.ROUND_RESULTS ->
  3 <= Z.of_nat (length (PlayerManager.get_active_players
                          (fst (PlayerManager.cleanup_inactive_players
                                  db (Game.room_id game)))
                          (Game.room_id game))) ->
  exists db' fx game_round,
    start_round env now game_id situation_text db
      = (db', fx, Ok (RoundStarted game_round (round_duration (Game.current_round game))))
    /\ GameRound.round_number game_round = Game.current_round game + 1
    /\ GameRound.duration_seconds game_round = round_duration (Game.current_round game)
    /\ GameRound.started_at game_round = Some now
    /\ GameRound.selection_deadline game_round
       = Some (now + GameRound.duration_seconds game_round)
    /\ GameRound.voting_deadline game_round
       = Some (now + GameRound.duration_seconds game_round + VOTING_TIMEOUT)
    /\ game_rounds db' = game_rounds db ++ [game_round]
    /\ find (fun g => Game.id g =? game_id) (games db')
       = Some (Game.mk (Game.id game) (Game.room_id game) GameStatus.CARD_SELECTION
                       (Game.current_round game + 1) (Game.winner_id game)
                       (Game.created_at game) (Game.finished_at game)).
Proof.
  intros Hgame Hroom Hstatus Hplayers.
  cbv [start_round bind _get_game_or_404 get raise ret raise_when lift put
       save_game publish_game_event emit].
  rewrite Hgame. cbn beta iota zeta.
  replace (negb _) with false by (destruct Hstatus as [-> | ->]; reflexivity).
  cbn beta iota zeta.
  destruct (PlayerManager.cleanup_inactive_players db (Game.room_id game))
    as [db1 excluded] eqn:Hclean.
  cbn [fst] in Hplayers.
  assert (Hsame : games db1 = games db /\ game_rounds db1 = game_rounds db
                  /\ rooms db1 = rooms db).
  { clear Hplayers. revert Hclean.
    unfold PlayerManager.cleanup_inactive_players.
    destruct (map _ _); intros [= <- _]; repeat split; reflexivity. }
  destruct Hsame as (Hgames & Hrounds & Hrooms).
  cbn beta iota zeta.
  replace (_ <? 3) with false by (symmetry; apply Z.ltb_ge; exact Hplayers).
  cbn beta iota zeta. rewrite Hrooms, Hroom.
  destruct situation_text as [text|]; destruct (redis_client env);
    cbn beta iota zeta;
    (eexists _, _, _; split; [reflexivity|]);
    cbn [GameRound.round_number GameRound.duration_seconds GameRound.started_at
         GameRound.selection_deadline GameRound.voting_deadline
         game_rounds games set_games set_game_rounds];
    rewrite Hrounds, Hgames;
    (repeat split; try (f_equal; lia));
    (apply (find_save_game game_id (games db) game);
     [exact Hgame | exact (find_game_id _ _ _ Hgame)]).
Qed.

(** The durations the source computes, by the value of [current_round]
    before the round is started. *)
Lemma round_duration_table :
  map round_duration [0; 1; 2; 3; 4; 5; 6; 7]
  = [305; 300; 295; 290; 285; 280; 30; 30].
Proof. reflexivity. Qed.

(** C1 at the first round of a game.  [start_game] leaves [current_round]
    at 1, and the round that [start_round] then creates has number 2 and a
    selection duration of 300 seconds, where the schedule has 45 seconds
    for round 2 (and 50 for a first round).  The two deadlines are
    [started_at + duration] and 180 seconds later. *)
Theorem first_round_duration_is_300 :
  exists db' fx game_round,
    start_round Sample.env 200 1 None Sample.game_created
      = (db', fx, Ok (RoundStarted game_round 300))
    /\ GameRound.round_number game_round = 2
    /\ GameRound.duration_seconds game_round = 300
    /\ selection_schedule (GameRound.round_number game_round) = Some 45
    /\ selection_schedule 1 = Some 50
    /\ GameRound.started_at game_round = Some 200
    /\ GameRound.selection_deadline game_round = Some (200 + 300)
    /\ GameRound.voting_deadline game_round = Some (200 + 300 + 180).
Proof. eexists _, _, _. split; [reflexivity|]. repeat split. Qed.

(** C2 at the first round of a game.  The game that [start_game] creates
    has [current_round = 1]; the first [start_round] creates a round whose
    number is 2 and sets [current_round] to 2. *)
Theorem first_round_number_is_2 :
  exists db1 fx1 started db2 fx2 game_round remaining,
    RoomService.start_game 100 1 1 Sample.lobby = (db1, fx1, Ok started)
    /\ map Game.current_round (games db1) = [1]
    /\ start_round Sample.env 200 (RoomService.sg_game_id started) None db1
       = (db2, fx2, Ok (RoundStarted game_round remaining))
    /\ GameRound.round_number game_round = 2
    /\ map GameRound.round_number (game_rounds db2) = [2]
    /\ map Game.current_round (games db2) = [2].
Proof.
  eexists _, _, _, _, _, _, _. split; [reflexivity|]. split; [reflexivity|].
  split; [reflexivity|]. repeat split.
Qed.

(** [start_round] has no bound on the round number: from a game that shows
    the results of round 7 it creates round 8. *)
Lemma start_round_after_round_seven :
  exists db' fx game_round remaining,
    start_round Sample.env 900 1 None Sample.seventh_results
      = (db', fx, Ok (RoundStarted game_round remaining))
    /\ GameRound.round_number game_round = 8
    /\ map Game.current_round (games db') = [8].
Proof. eexists _, _, _, _. split; [reflexivity|]. split; reflexivity. Qed.

End Rounds.

(** ** Round results *)

Section Results.
Import GameService.

Lemma ordered_desc_top_is_max {A : Type} (key : A -> Z) (grouped result : list A)
    (top : A) :
  ordered_desc key grouped result -> hd_error result = Some top ->
  forall row, In row grouped -> key row <= key top.
Proof.
  intros [Hperm Hsorted] Hhd row Hin.
  destruct result as [|x rest]; [discriminate|]. injection Hhd as ->.
  apply (Permutation_in _ Hperm) in Hin. destruct Hin as [->|Hin]; [lia|].
  apply StronglySorted_inv in Hsorted as [_ Hall].
  rewrite Forall_forall in Hall. specialize (Hall row Hin). lia.
Qed.

Lemma find_of_filter {A : Type} (f : A -> bool) (l : list A) (x : A) (rest : list A) :
  filter f l = x :: rest -> find f l = Some x.
Proof.
  induction l as [|y l IH]; simpl; [discriminate|].
  destruct (f y); [now intros [= ->] | exact IH].
Qed.






Lemma award_round_points_run (user_id : Z) (db : DB) :
  _award_round_points user_id db
  = (set_users db (with_rating_added 1 user_id (users db)), [], Ok tt).
Proof.
  cbv [_award_round_points try_except bind get put ret with_rating_added].
  destruct (find _ (users db)); [reflexivity|]. now destruct db.
Qed.






(** The rating is a float, and its sums are rounded: a rating of 2^53
    stays as it is when 1.0 is added for a round, and grows by 4 when 5.0 is
    added for the game. *)
Lemma rating_sums_are_rounded :
  let rich := User.mk 1 None None None (float_of_Z (2 ^ 53)) in
  let db := set_users Sample.lobby [rich] in
  map User.rating (users (Sample.state_after (_award_round_points 1) db))
  = [float_of_Z (2 ^ 53)]
  /\ map User.rating (users (Sample.state_after (_award_game_victory_points 1) db))
     = [float_of_Z (2 ^ 53 + 4)].
Proof. split; vm_compute; reflexivity. Qed.

End Results.

(** ** End of the game *)

Section EndOfGame.
Import GameService.

Lemma build_leaderboard_from (rows : list PlayerStat)
    (leaderboard : list LeaderboardEntry) (winner_id : option Z) :
  let result :=
    fold_left
      (fun acc row =>
         let '(leaderboard, winner_id) := acc in
         (leaderboard ++
            [mkLeaderboardEntry (ps_user_id row) (ps_nickname row) (ps_round_wins row)
                                (Z.of_nat (length leaderboard) + 1)],
          match winner_id with
          | None => Some (ps_user_id row)
          | Some w => Some w
          end))
      rows (leaderboard, winner_id) in
  map le_round_wins (fst result)
    = map le_round_wins leaderboard ++ map ps_round_wins rows
  /\ snd result = match winner_id with
                  | Some w => Some w
                  | None => option_map ps_user_id (hd_error rows)
                  end.
Proof.
  revert leaderboard winner_id.
  induction rows as [|row rows IH]; intros leaderboard winner_id; simpl.
  - rewrite app_nil_r. now destruct winner_id.
  - destruct (IH (leaderboard ++
                    [mkLeaderboardEntry (ps_user_id row) (ps_nickname row)
                       (ps_round_wins row) (Z.of_nat (length leaderboard) + 1)])
                 (match winner_id with
                  | None => Some (ps_user_id row)
                  | Some w => Some w
                  end)) as [IH1 IH2].
    split.
    + rewrite IH1, map_app, <- app_assoc. reflexivity.
    + rewrite IH2. now destruct winner_id.
Qed.

Lemma build_leaderboard_spec (ranking : list PlayerStat) :
  snd (build_leaderboard ranking) = option_map ps_user_id (hd_error ranking)
  /\ winner_is_rewarded (snd (build_leaderboard ranking)) (fst (build_leaderboard ranking))
     = top_is_rewarded ranking.
Proof.
  destruct (build_leaderboard_from ranking [] None) as [H1 H2].
  fold (build_leaderboard ranking) in H1, H2. simpl in H1, H2.
  split; [exact H2|].
  rewrite H2. destruct ranking as [|top rest]; [reflexivity|].
  simpl. destruct (fst (build_leaderboard (top :: rest))) as [|first more];
    [discriminate H1|].
  simpl in H1. injection H1 as -> _. reflexivity.
Qed.

Lemma award_game_victory_points_run (user_id : Z) (db : DB) :
  _award_game_victory_points user_id db
  = (set_users db (with_rating_added 5 user_id (users db)), [], Ok tt).
Proof.
  cbv [_award_game_victory_points try_except bind get put ret with_rating_added].
  destruct (find _ (users db)); [reflexivity|]. now destruct db.
Qed.

Lemma available_standard_cards_spec (env : Env) (db : DB) (user_id n : Z) :
  In n (get_available_standard_cards_for_user env db user_id)
  <-> (exists catalogue, azure_standard_cards env = Some catalogue /\ In n catalogue)
      /\ ~ owns_standard db user_id n.
Proof.
  unfold get_available_standard_cards_for_user, owns_standard.
  destruct (azure_standard_cards env) as [catalogue|].
  - rewrite filter_In, negb_true_iff, <- not_true_iff_false, existsb_exists.
    split.
    + intros [Hin Hnot]. split; [now exists catalogue|].
      intros (c & Hc & Hu & Ht & Hn). apply Hnot. exists n. split; [|apply Z.eqb_refl].
      apply in_map_iff. exists c. split; [exact Hn|].
      apply filter_In. split; [exact Hc|].
      now rewrite Hu, Ht, Z.eqb_refl, String.eqb_refl.
    + intros [(catalogue' & [= <-] & Hin) Hnot]. split; [exact Hin|].
      intros (m & Hm & Heq). apply Z.eqb_eq in Heq. subst m.
      apply in_map_iff in Hm as (c & Hn & Hc). apply filter_In in Hc as [Hc Hsel].
      apply andb_true_iff in Hsel as [Hu Ht].
      apply Z.eqb_eq in Hu. apply String.eqb_eq in Ht.
      apply Hnot. now exists c.
  - simpl. split; [intros [] | intros [(catalogue & [=] & _) _]].
Qed.

Lemma random_choice_in (env : Env) (seq : list Z) :
  seq <> [] -> In (random_choice env seq) seq.
Proof.
  intros Hne. unfold random_choice. apply nth_In.
  apply Nat.mod_upper_bound. now destruct seq.
Qed.

Lemma award_winner_card_run (env : Env) (now user_id : Z) (db : DB) :
  exists db',
    _award_winner_card_async env now user_id db = (db', [], Ok tt)
    /\ match get_available_standard_cards_for_user env db user_id with
       | [] => db' = db
       | _ :: _ =>
           exists n,
             In n (get_available_standard_cards_for_user env db user_id)
             /\ db' = set_user_cards db
                        (user_cards db ++
                         [UserCard.mk (next_id (map UserCard.id (user_cards db)))
                                      user_id "standard" n now])
       end.
Proof.
  cbv [_award_winner_card_async try_except bind get put ret].
  destruct (get_available_standard_cards_for_user env db user_id) as [|n rest] eqn:E.
  - eexists. split; reflexivity.
  - eexists. split; [reflexivity|]. eexists. split; [|reflexivity].
    apply random_choice_in. discriminate.
Qed.

Lemma rooms_finished_after_save (room_id : Z) (rs : list Room.t) :
  let rs' :=
    match find (fun r => Room.id r =? room_id) rs with
    | Some room =>
        map (fun x => if Room.id x =? Room.id (Room.set_status room RoomStatus.FINISHED)
                      then Room.set_status room RoomStatus.FINISHED else x) rs
    | None => rs
    end in
  forall r, In r rs' -> Room.id r = room_id -> Room.status r = RoomStatus.FINISHED.
Proof.
  destruct (find _ rs) as [room|] eqn:Hfind; cbn zeta; intros r Hin Hid.
  - apply in_map_iff in Hin as (x & Hx & _). cbn [Room.id Room.set_status] in Hx.
    apply find_some in Hfind as [_ Hroom]. apply Z.eqb_eq in Hroom.
    destruct (Room.id x =? Room.id room) eqn:E; subst r; [reflexivity|].
    apply Z.eqb_neq in E. congruence.
  - apply (find_none _ _ Hfind) in Hin. apply Z.eqb_neq in Hin. contradiction.
Qed.

(** C3, as the source has it.  [end_game] ranks the users who made a
    choice in the game by the votes their choices received over all its
    rounds (the [round_wins] column).  The user of the first row of that
    ranking is stored as the game's winner, whatever the count; the game
    becomes [finished] and so does its room.  Exactly when that count is
    positive (and the user id is not 0) the rating of the winner has 5.0
    added to it, as a float, and the card-award task is created for them;
    that task adds one standard card of the catalogue that the user does
    not own, when there is one. *)
Theorem end_game_winner_and_rewards (env : Env) (now game_id : Z) (db : DB)
    (game : Game.t) :
  find (fun g => Game.id g =? game_id) (games db) = Some game ->
  let ranking := order_player_stats env (player_stats_groups db game_id) in
  let winner := option_map ps_user_id (hd_error ranking) in
  exists db' fx result,
    end_game env now game_id db = (db', fx, Ok result)
    /\ eg_winner_id result = winner
    /\ find (fun g => Game.id g =? game_id) (games db')
       = Some (Game.mk (Game.id game) (Game.room_id game) GameStatus.FINISHED
                       (Game.current_round game) winner (Game.created_at game)
                       (Some now))
    /\ (forall room, In room (rooms db') -> Room.id room = Game.room_id game ->
                     Room.status room = RoomStatus.FINISHED)
    /\ (top_is_rewarded ranking = false ->
        users db' = users db /\ forall t, ~ In (CreateTask t) fx)
    /\ (top_is_rewarded ranking = true ->
        exists top, hd_error ranking = Some top
          /\ 0 < ps_round_wins top
          /\ users db' = with_rating_added 5 (ps_user_id top) (users db)
          /\ In (CreateTask (AwardWinnerCardAsync (ps_user_id top))) fx)
    /\ (ordered_desc ps_round_wins (player_stats_groups db game_id) ranking ->
        forall top, hd_error ranking = Some top ->
        forall row, In row (player_stats_groups db game_id) ->
                    ps_round_wins row <= ps_round_wins top)
    /\ (forall later user_id db0,
        exists db1,
          _award_winner_card_async env later user_id db0 = (db1, [], Ok tt)
          /\ ((get_available_standard_cards_for_user env db0 user_id = []
               /\ db1 = db0)
              \/ exists catalogue n,
                   azure_standard_cards env = Some catalogue
                   /\ In n catalogue
                   /\ ~ owns_standard db0 user_id n
                   /\ db1 = set_user_cards db0
                              (user_cards db0 ++
                               [UserCard.mk (next_id (map UserCard.id (user_cards db0)))
                                            user_id "standard" n later]))).
Proof.
  intros Hgame ranking winner.
  assert (Hcard : forall later user_id db0,
            exists db1,
              _award_winner_card_async env later user_id db0 = (db1, [], Ok tt)
              /\ ((get_available_standard_cards_for_user env db0 user_id = []
                   /\ db1 = db0)
                  \/ exists catalogue n,
                       azure_standard_cards env = Some catalogue
                       /\ In n catalogue
                       /\ ~ owns_standard db0 user_id n
                       /\ db1 = set_user_cards db0
                                  (user_cards db0 ++
                                   [UserCard.mk (next_id (map UserCard.id (user_cards db0)))
                                                user_id "standard" n later]))).
  { intros later user_id db0.
    destruct (award_winner_card_run env later user_id db0) as (db1 & Hrun & Hres).
    exists db1. split; [exact Hrun|].
    destruct (get_available_standard_cards_for_user env db0 user_id) eqn:Eav.
    - left. split; [reflexivity | exact Hres].
    - right. destruct Hres as (n & Hin & ->). rewrite <- Eav in Hin.
      apply available_standard_cards_spec in Hin as [(catalogue & Hcat & Hin) Hnot].
      exists catalogue, n. repeat split; assumption. }
  cbv [end_game bind _get_game_or_404 get ret save_game save_room
       publish_game_event emit put].
  rewrite Hgame. cbn beta iota zeta. fold ranking.
  destruct (build_leaderboard_spec ranking) as [Hwinner Hreward].
  destruct (build_leaderboard ranking) as [leaderboard winner_id].
  cbn [fst snd] in Hwinner, Hreward. subst winner_id. fold winner in Hreward |- *.
  rewrite Hreward.
  pose proof (rooms_finished_after_save (Game.room_id game) (rooms db)) as Hrooms.
  cbn zeta in Hrooms.
  assert (Hfound : find (fun x => Game.id x =? game_id)
                     (map (fun x => if Game.id x =? Game.id game
                                    then Game.mk (Game.id game) (Game.room_id game)
                                           GameStatus.FINISHED (Game.current_round game)
                                           winner (Game.created_at game) (Some now)
                                    else x) (games db))
                   = Some (Game.mk (Game.id game) (Game.room_id game)
                             GameStatus.FINISHED (Game.current_round game)
                             winner (Game.created_at game) (Some now))).
  { apply (find_save_game game_id (games db) game
             (Game.mk (Game.id game) (Game.room_id game) GameStatus.FINISHED
                      (Game.current_round game) winner (Game.created_at game)
                      (Some now)) Hgame).
    exact (find_game_id _ _ _ Hgame). }
  assert (Hmax : ordered_desc ps_round_wins (player_stats_groups db game_id) ranking ->
                 forall top, hd_error ranking = Some top ->
                 forall row, In row (player_stats_groups db game_id) ->
                             ps_round_wins row <= ps_round_wins top).
  { intros Hord top Htop. now apply (ordered_desc_top_is_max _ _ ranking). }
  destruct (top_is_rewarded ranking) eqn:Etop.
  - assert (Htop : exists top, hd_error ranking = Some top
                               /\ 0 < ps_round_wins top).
    { unfold top_is_rewarded in Etop. destruct ranking as [|top rest]; [discriminate|].
      exists top. split; [reflexivity|].
      apply andb_true_iff in Etop as [_ H]. now apply Z.gtb_lt in H. }
    destruct Htop as (top & Htop & Hwins).
    assert (Hw : winner = Some (ps_user_id top)) by (unfold winner; now rewrite Htop).
    rewrite Hw in *.
    destruct (find _ (rooms db)) as [room|]; cbn beta iota zeta;
      destruct (redis_client env); cbn beta iota zeta;
      rewrite award_game_victory_points_run;
      (eexists _, _, _; split; [reflexivity|]);
      cbn [eg_winner_id games rooms users set_games set_rooms set_users];
      (split; [reflexivity|]); (split; [exact Hfound|]);
      (split; [exact Hrooms|]); (split; [discriminate|]);
      (split; [|split; [exact Hmax | exact Hcard]]); intros _; exists top;
      (split; [exact Htop|]); (split; [exact Hwins|]);
      (split; [reflexivity|]); simpl; tauto.
  - destruct (find _ (rooms db)) as [room|]; cbn beta iota zeta;
      destruct (redis_client env); cbn beta iota zeta;
      (eexists _, _, _; split; [reflexivity|]);
      cbn [eg_winner_id games rooms users set_games set_rooms set_users];
      (split; [reflexivity|]); (split; [exact Hfound|]);
      (split; [exact Hrooms|]);
      (split; [|split; [discriminate | split; [exact Hmax | exact Hcard]]]);
      intros _; (split; [reflexivity|]); intros t; simpl;
      intuition discriminate.
Qed.


(** After Bob and Carol voted for Alice's card: Alice is the winner, 5.0
    is added to her rating, and the task that awards her a card is
    created. *)
Lemma end_game_winner_and_rewards_witness :
  exists db' fx result,
    end_game Sample.env 300 1 Sample.two_voted = (db', fx, Ok result)
    /\ eg_winner_id result = Some 1
    /\ users db' = with_rating_added 5 1 (users Sample.two_voted)
    /\ In (CreateTask (AwardWinnerCardAsync 1)) fx.
Proof.
  destruct (end_game_winner_and_rewards Sample.env 300 1 Sample.two_voted _ eq_refl)
    as (db' & fx & result & Hrun & Hwinner & _ & _ & _ & Hreward & _).
  destruct (Hreward eq_refl) as (top & Htop & _ & Husers & Htask).
  vm_compute in Htop. injection Htop as <-.
  exists db', fx, result.
  split; [exact Hrun|]. split; [exact Hwinner|]. split; [exact Husers | exact Htask].
Defined.

(** C3 as stated fails: in a game where no vote was cast nobody won a
    round, and [end_game] still stores the first user of the ranking,
    Alice, as the winner of the game; she gets no points and no card. *)
Lemma winner_without_a_win_counterexample :
  votes Sample.voting = []
  /\ exists db' fx result,
       end_game Sample.env 300 1 Sample.voting = (db', fx, Ok result)
       /\ map le_round_wins (eg_leaderboard result) = [0; 0; 0]
       /\ eg_winner_id result = Some 1
       /\ map Game.winner_id (games db') = [Some 1]
       /\ users db' = users Sample.voting
       /\ fx = [Publish 1 game_ended].
Proof.
  split; [reflexivity|]. eexists _, _, _. split; [reflexivity|]. repeat split.
Qed.

End EndOfGame.

(** ** Presence tracking *)

Section PresenceTracking.
Import PlayerManager.

Lemma presence_le_refl p : presence_le p p.
Proof. unfold presence_le. repeat split; lia. Qed.

Lemma presence_le_trans p q r : presence_le p q -> presence_le q r -> presence_le p r.
Proof. unfold presence_le. intros (?&?&?&?&?) (?&?&?&?&?). repeat split; try congruence; lia. Qed.

Lemma Forall2_presence_refl l : Forall2 presence_le l l.
Proof. induction l; constructor; auto using presence_le_refl. Qed.

Lemma Forall2_presence_trans l1 l2 l3 :
  Forall2 presence_le l1 l2 -> Forall2 presence_le l2 l3 -> Forall2 presence_le l1 l3.
Proof.
  intros H. revert l3. induction H; intros l3 H3; inversion H3; subst; constructor.
  - eapply presence_le_trans; eauto.
  - auto.
Qed.

Lemma Forall2_presence_map (sel : RoomParticipant.t -> bool)
    (f : RoomParticipant.t -> RoomParticipant.t) l :
  (forall p, presence_le p (f p)) ->
  Forall2 presence_le l (map (fun p => if sel p then f p else p) l).
Proof.
  intros Hf. induction l; simpl; constructor; auto.
  destruct (sel a); auto using presence_le_refl.
Qed.

Lemma check_players_timeout_fold (now : Z)
    (rows : list (RoomParticipant.t * option string)) (db : DB)
    (acc : list TimeoutInfo) :
  let result :=
    fold_left
      (fun acc row =>
         let '(db, timeout_players) := acc in
         let '(participant, nickname) := row in
         (set_room_participants db
            (update_by_id (RoomParticipant.id participant) set_timeout
                          (room_participants db)),
          timeout_players ++
          [mkTimeoutInfo (RoomParticipant.user_id participant) nickname
             (RoomParticipant.last_activity participant)
             (now - RoomParticipant.last_activity participant)]))
      rows (db, acc) in
  fst result
  = set_room_participants db
      (map (fun p => if existsb (fun row => RoomParticipant.id p
                                            =? RoomParticipant.id (fst row)) rows
                     then set_timeout p else p)
           (room_participants db))
  /\ map ti_user_id (snd result)
     = map ti_user_id acc ++ map (fun row => RoomParticipant.user_id (fst row)) rows.
Proof.
  revert db acc. induction rows as [|[participant nickname] rows IH]; intros db acc; simpl.
  - split; [|now rewrite app_nil_r]. rewrite map_id. now destruct db.
  - destruct (IH (set_room_participants db
                    (update_by_id (RoomParticipant.id participant) set_timeout
                                  (room_participants db)))
                 (acc ++ [mkTimeoutInfo (RoomParticipant.user_id participant) nickname
                            (RoomParticipant.last_activity participant)
                            (now - RoomParticipant.last_activity participant)]))
      as [IH1 IH2].
    split.
    + rewrite IH1. destruct db; unfold set_room_participants; cbn. f_equal.
      unfold update_by_id.
      rewrite map_map. apply map_ext. intros p.
      destruct (RoomParticipant.id p =? RoomParticipant.id participant) eqn:E; cbn.
      * now destruct (existsb _ rows).
      * reflexivity.
    + rewrite IH2, map_app, <- app_assoc. reflexivity.
Qed.

Lemma stale_row_spec (db : DB) (now room_id : Z) (p : RoomParticipant.t)
    (nickname : option string) :
  In (p, nickname) (stale_participants db now room_id) ->
  In p (room_participants db)
  /\ RoomParticipant.room_id p = room_id
  /\ RoomParticipant.connection_status p = ConnectionStatus.CONNECTED.
Proof.
  unfold stale_participants. intros H. apply in_flat_map in H as (q & Hq & H).
  apply in_map_iff in H as (u & [= <- _] & _).
  apply filter_In in Hq as [Hin Hsel].
  rewrite !andb_true_iff in Hsel. destruct Hsel as [[[Hr _] Hc] _].
  apply Z.eqb_eq in Hr. split; [exact Hin|]. split; [exact Hr|].
  destruct (RoomParticipant.connection_status q); simpl in Hc; congruence.
Qed.

Lemma filter_stale_after_timeout (threshold room_id : Z)
    (sel : RoomParticipant.t -> bool) (l : list RoomParticipant.t) :
  filter
    (fun p => (RoomParticipant.room_id p =? room_id)
              && ParticipantStatus.eqb (RoomParticipant.status p)
                                       ParticipantStatus.ACTIVE
              && ConnectionStatus.eqb (RoomParticipant.connection_status p)
                                      ConnectionStatus.CONNECTED
              && (RoomParticipant.last_activity p <? threshold))
    (map (fun p => if sel p then set_timeout p else p) l)
  = filter
      (fun p => negb (sel p)
                && ((RoomParticipant.room_id p =? room_id)
                    && ParticipantStatus.eqb (RoomParticipant.status p)
                                             ParticipantStatus.ACTIVE
                    && ConnectionStatus.eqb (RoomParticipant.connection_status p)
                                            ConnectionStatus.CONNECTED
                    && (RoomParticipant.last_activity p <? threshold)))
      l.
Proof.
  induction l as [|p l IH]; [reflexivity|]. simpl.
  destruct (sel p); simpl.
  - rewrite andb_false_r. simpl. exact IH.
  - destruct (_ && _); simpl; now rewrite IH.
Qed.

(** X1.  [check_players_timeout] leaves no active, connected participant
    of the room whose last activity is older than the timeout: a second
    scan finds nobody.  It reports exactly the users of the stale rows it
    selected, changes no membership status, and every row it changed has
    the connection status [TIMEOUT]. *)
Theorem timeout_scan_clears_stale (db : DB) (now room_id : Z) :
  let db' := fst (check_players_timeout db now room_id) in
  let reported := snd (check_players_timeout db now room_id) in
  stale_participants db' now room_id = []
  /\ map ti_user_id reported
     = map (fun row => RoomParticipant.user_id (fst row))
           (stale_participants db now room_id)
  /\ map RoomParticipant.status (room_participants db')
     = map RoomParticipant.status (room_participants db)
  /\ (forall p', In p' (room_participants db') ->
                 In p' (room_participants db)
                 \/ RoomParticipant.connection_status p' = ConnectionStatus.TIMEOUT).
Proof.
  unfold check_players_timeout.
  destruct (check_players_timeout_fold now (stale_participants db now room_id) db [])
    as [Hdb Hrep].
  cbn zeta in Hdb, Hrep |- *. rewrite Hdb, Hrep.
  cbn [room_participants set_room_participants users].
  set (sel := fun p => existsb (fun row : RoomParticipant.t * option string =>
                                  RoomParticipant.id p =? RoomParticipant.id (fst row))
                               (stale_participants db now room_id)).
  split; [|split; [reflexivity|split]].
  - unfold stale_participants at 1.
    cbn [room_participants set_room_participants users].
    rewrite (filter_stale_after_timeout (now - TIMEOUT_SECONDS) room_id sel).
    match goal with |- flat_map ?f ?l = [] => assert (Hall : Forall (fun p => f p = []) l) end.
    { apply Forall_forall. intros p Hp. apply filter_In in Hp as [Hin Hp].
      apply andb_true_iff in Hp as [Hsel Hp].
      destruct (filter (fun u => User.id u =? RoomParticipant.user_id p) (users db))
        as [|u us] eqn:Eu; [reflexivity|].
      exfalso. apply negb_true_iff in Hsel. apply not_true_iff_false in Hsel.
      apply Hsel. unfold sel. apply existsb_exists.
      exists (p, User.nickname u). split; [|apply Z.eqb_refl].
      unfold stale_participants. apply in_flat_map. exists p. split.
      + apply filter_In. split; assumption.
      + rewrite Eu. now left. }
    induction Hall as [|p l Hp _ IH]; [reflexivity|].
    simpl. now rewrite Hp, IH.
  - rewrite map_map. apply map_ext. intros p. destruct (existsb _ _); reflexivity.
  - intros p' Hin. apply in_map_iff in Hin as (p & <- & Hin).
    destruct (existsb _ _); [right; reflexivity | left; exact Hin].
Qed.

Lemma cleanup_run (db : DB) (room_id : Z) :
  let excluded_users :=
    map RoomParticipant.user_id
        (filter (fun p => (RoomParticipant.room_id p =? room_id) && over_limit p)
                (room_participants db)) in
  cleanup_inactive_players db room_id
  = (set_room_participants db
       (map (cleanup_row room_id excluded_users) (room_participants db)),
     excluded_users).
Proof.
  cbn zeta. unfold cleanup_inactive_players, over_limit.
  destruct (map _ _) as [|u us] eqn:E.
  - f_equal. unfold cleanup_row. cbn [existsb].
    rewrite (map_ext _ (fun p => p)); [rewrite map_id; now destruct db|].
    intros p. now rewrite andb_false_r.
  - reflexivity.
Qed.

Lemma cleanup_row_fixes (room_id : Z) (ex : list Z) (l : list RoomParticipant.t) :
  map RoomParticipant.user_id
      (filter (fun p => (RoomParticipant.room_id p =? room_id) && over_limit p)
              (map (cleanup_row room_id ex) l))
  = map RoomParticipant.user_id
        (filter (fun p => (RoomParticipant.room_id p =? room_id) && over_limit p) l).
Proof.
  induction l as [|p l IH]; [reflexivity|]. simpl.
  assert (H : forall q, (RoomParticipant.room_id (cleanup_row room_id ex q) =? room_id)
                          && over_limit (cleanup_row room_id ex q)
                        = (RoomParticipant.room_id q =? room_id) && over_limit q
                        /\ RoomParticipant.user_id (cleanup_row room_id ex q)
                           = RoomParticipant.user_id q).
  { intros q. unfold cleanup_row. destruct (_ && existsb _ _); split; reflexivity. }
  destruct (H p) as [H1 H2]. rewrite H1.
  destruct (_ && over_limit p); simpl; now rewrite ?H2, IH.
Qed.

Lemma cleanup_row_twice (room_id : Z) (ex : list Z) (p : RoomParticipant.t) :
  cleanup_row room_id ex (cleanup_row room_id ex p) = cleanup_row room_id ex p.
Proof.
  unfold cleanup_row.
  destruct ((RoomParticipant.room_id p =? room_id)
            && existsb (Z.eqb (RoomParticipant.user_id p)) ex) eqn:E.
  - cbn [RoomParticipant.room_id RoomParticipant.user_id RoomService.set_left].
    now rewrite E.
  - now rewrite E.
Qed.

(** X2.  [cleanup_inactive_players] returns the users of the rows of the
    room whose disconnect count is at least 3 or whose missed actions are
    at least 2.  Afterwards every row of the room that is over a limit, or
    belongs to a returned user, has the membership [LEFT]; the rows of
    other rooms are untouched; and running it again changes nothing and
    returns the same users. *)
Theorem cleanup_excludes_and_settles (db : DB) (room_id : Z) :
  let db' := fst (cleanup_inactive_players db room_id) in
  let excluded := snd (cleanup_inactive_players db room_id) in
  (forall u, In u excluded
             <-> exists p, In p (room_participants db)
                           /\ RoomParticipant.room_id p = room_id
                           /\ over_limit p = true
                           /\ RoomParticipant.user_id p = u)
  /\ (forall p', In p' (room_participants db') ->
                 RoomParticipant.room_id p' = room_id ->
                 over_limit p' = true \/ In (RoomParticipant.user_id p') excluded ->
                 RoomParticipant.status p' = ParticipantStatus.LEFT)
  /\ (forall p', In p' (room_participants db') ->
                 RoomParticipant.room_id p' <> room_id ->
                 In p' (room_participants db))
  /\ cleanup_inactive_players db' room_id = (db', excluded).
Proof.
  rewrite cleanup_run. cbn zeta. cbn [fst snd].
  set (ex := map RoomParticipant.user_id
               (filter (fun p => (RoomParticipant.room_id p =? room_id) && over_limit p)
                       (room_participants db))).
  assert (Hex : forall u, In u ex
                  <-> exists p, In p (room_participants db)
                                /\ RoomParticipant.room_id p = room_id
                                /\ over_limit p = true
                                /\ RoomParticipant.user_id p = u).
  { intros u. unfold ex. rewrite in_map_iff. split.
    - intros (p & Hu & Hp). apply filter_In in Hp as [Hin Hp].
      apply andb_true_iff in Hp as [Hr Ho]. apply Z.eqb_eq in Hr. now exists p.
    - intros (p & Hin & Hr & Ho & Hu). exists p. split; [exact Hu|].
      apply filter_In. split; [exact Hin|]. now rewrite Hr, Z.eqb_refl, Ho. }
  split; [exact Hex|].
  cbn [room_participants set_room_participants].
  split; [|split].
  - intros p' Hin Hroom Hover. apply in_map_iff in Hin as (p & <- & Hin).
    assert (Hp : RoomParticipant.room_id p = room_id
                 /\ (over_limit p = true \/ In (RoomParticipant.user_id p) ex)).
    { revert Hroom Hover. unfold cleanup_row. destruct (_ && existsb _ _); cbn; tauto. }
    destruct Hp as [Hr Hp].
    assert (Hin_ex : In (RoomParticipant.user_id p) ex).
    { destruct Hp as [Ho|Hi]; [|exact Hi]. apply Hex. now exists p. }
    unfold cleanup_row. rewrite Hr, Z.eqb_refl. cbn [andb].
    replace (existsb _ ex) with true; [reflexivity|].
    symmetry. apply existsb_exists. exists (RoomParticipant.user_id p).
    split; [exact Hin_ex | apply Z.eqb_refl].
  - intros p' Hin Hroom. apply in_map_iff in Hin as (p & <- & Hin).
    revert Hroom. unfold cleanup_row.
    destruct (RoomParticipant.room_id p =? room_id) eqn:E; cbn [andb]; [|auto].
    destruct (existsb _ ex); cbn; intros H; apply Z.eqb_eq in E; contradiction.
  - rewrite cleanup_run. cbn zeta. cbn [room_participants set_room_participants].
    rewrite cleanup_row_fixes. fold ex. f_equal.
    destruct db; unfold set_room_participants; cbn. f_equal.
    rewrite map_map. apply map_ext. intros p. apply cleanup_row_twice.
Qed.

Lemma active_players_depend_on (db db' : DB) (room_id : Z) :
  users db' = users db ->
  Forall2 (fun p q => RoomParticipant.room_id q = RoomParticipant.room_id p
                      /\ RoomParticipant.user_id q = RoomParticipant.user_id p
                      /\ RoomParticipant.status q = RoomParticipant.status p)
          (room_participants db) (room_participants db') ->
  map pi_user_id (get_active_players db' room_id)
  = map pi_user_id (get_active_players db room_id).
Proof.
  intros Hu H. unfold get_active_players. rewrite Hu.
  induction H as [|p q l l' (Hr & Hus & Hs) _ IH]; [reflexivity|].
  simpl. rewrite Hr, Hs.
  destruct (_ && _); simpl; [|exact IH].
  rewrite !map_app, IH, Hus. f_equal. rewrite !map_map. reflexivity.
Qed.

(** X3.  [update_player_activity] returns whether the user has a row in
    the room.  Afterwards those rows are connected, with activity and ping
    time [now]; the other rows are as before; no membership status has
    changed; and the active players of every room are the same users as
    before. *)
Theorem touch_keeps_membership (db : DB) (now user_id room_id : Z) :
  let db' := fst (update_player_activity db now user_id room_id) in
  snd (update_player_activity db now user_id room_id)
    = existsb (is_participant user_id room_id) (room_participants db)
  /\ (forall p', In p' (room_participants db') ->
                 is_participant user_id room_id p' = true ->
                 RoomParticipant.connection_status p' = ConnectionStatus.CONNECTED
                 /\ RoomParticipant.last_activity p' = now
                 /\ RoomParticipant.last_ping p' = Some now)
  /\ (forall p', In p' (room_participants db') ->
                 is_participant user_id room_id p' = false ->
                 In p' (room_participants db))
  /\ map RoomParticipant.status (room_participants db')
     = map RoomParticipant.status (room_participants db)
  /\ (forall any_room,
        map pi_user_id (get_active_players db' any_room)
        = map pi_user_id (get_active_players db any_room)).
Proof.
  cbn zeta. unfold update_player_activity. cbn [fst snd].
  split; [reflexivity|]. split; [|split; [|split]].
  - cbn [room_participants set_room_participants].
    intros p' Hin Hp. apply in_map_iff in Hin as (p & <- & _).
    destruct (is_participant user_id room_id p) eqn:E; [cbn; auto|].
    congruence.
  - cbn [room_participants set_room_participants].
    intros p' Hin Hp. apply in_map_iff in Hin as (p & <- & Hin).
    destruct (is_participant user_id room_id p) eqn:E; [|exact Hin].
    unfold is_participant in Hp, E. cbn in Hp. congruence.
  - cbn [room_participants set_room_participants].
    rewrite map_map. apply map_ext. intros p.
    now destruct (is_participant user_id room_id p).
  - intros any_room. apply active_players_depend_on; [reflexivity|].
    cbn [room_participants set_room_participants].
    induction (room_participants db) as [|p l IH]; constructor; [|exact IH].
    destruct (is_participant user_id room_id p); cbn; auto.
Qed.

Lemma Forall2_presence_map_in (sel : RoomParticipant.t -> bool)
    (f : RoomParticipant.t -> RoomParticipant.t) l :
  (forall p, In p l -> sel p = true -> presence_le p (f p)) ->
  Forall2 presence_le l (map (fun p => if sel p then f p else p) l).
Proof.
  induction l as [|a l IH]; intros Hf; simpl; constructor.
  - destruct (sel a) eqn:E; [apply Hf; [now left | exact E] | apply presence_le_refl].
  - apply IH. intros p Hin. apply Hf. now right.
Qed.

Lemma participant_by_id (l : list RoomParticipant.t) (p q : RoomParticipant.t) :
  NoDup (map RoomParticipant.id l) -> In p l -> In q l ->
  RoomParticipant.id p = RoomParticipant.id q -> p = q.
Proof.
  induction l as [|a l IH]; [intros _ []|].
  simpl. intros Hnd Hp Hq Hid. inversion Hnd as [|? ? Hnotin Hnd']; subst.
  destruct Hp as [->|Hp], Hq as [->|Hq]; auto.
  - exfalso. apply Hnotin. rewrite Hid. now apply in_map.
  - exfalso. apply Hnotin. rewrite <- Hid. now apply in_map.
Qed.

(** X4.  With participant ids a primary key, no writer of the player
    manager ([update_player_activity], [mark_player_disconnected],
    [handle_missed_action], [check_players_timeout],
    [cleanup_inactive_players]) removes, adds or reorders rows, changes the
    id, room or user of a row, or lowers a disconnect or missed-action
    counter. *)
Theorem presence_counters_monotone (db : DB) (now user_id room_id : Z) :
  NoDup (map RoomParticipant.id (room_participants db)) ->
  Forall2 presence_le (room_participants db)
          (room_participants (fst (update_player_activity db now user_id room_id)))
  /\ (forall db' info,
        mark_player_disconnected db now user_id room_id = Ok (db', info) ->
        Forall2 presence_le (room_participants db) (room_participants db'))
  /\ Forall2 presence_le (room_participants db)
             (room_participants (fst (handle_missed_action db now user_id room_id)))
  /\ Forall2 presence_le (room_participants db)
             (room_participants (fst (check_players_timeout db now room_id)))
  /\ Forall2 presence_le (room_participants db)
             (room_participants (fst (cleanup_inactive_players db room_id))).
Proof.
  intros Hpk.
  assert (Hsame : forall participant p,
            find (is_participant user_id room_id) (room_participants db)
              = Some participant ->
            In p (room_participants db) ->
            (RoomParticipant.id p =? RoomParticipant.id participant) = true ->
            p = participant).
  { intros participant p Hfind Hin Hid. apply find_some in Hfind as [Hpart _].
    apply Z.eqb_eq in Hid.
    exact (participant_by_id _ p participant Hpk Hin Hpart Hid). }
  split; [|split; [|split; [|split]]].
  - cbn. apply Forall2_presence_map. intros p. unfold presence_le. cbn.
    repeat split; try reflexivity; lia.
  - unfold mark_player_disconnected. intros db' info.
    destruct (find _ _) as [participant|] eqn:Hfind; [|discriminate].
    intros [= <- _]. cbn [room_participants set_room_participants].
    apply (Forall2_presence_map_in
             (fun p => RoomParticipant.id p =? RoomParticipant.id participant)).
    intros p Hin Hid. rewrite (Hsame participant p eq_refl Hin Hid).
    unfold presence_le. cbn. repeat split; try reflexivity; lia.
  - unfold handle_missed_action.
    destruct (find _ _) as [participant|] eqn:Hfind; cbn [fst];
      [|apply Forall2_presence_refl].
    cbn [room_participants set_room_participants].
    apply (Forall2_presence_map_in
             (fun p => RoomParticipant.id p =? RoomParticipant.id participant)).
    intros p Hin Hid. rewrite (Hsame participant p eq_refl Hin Hid).
    unfold presence_le. cbn. repeat split; try reflexivity; lia.
  - unfold check_players_timeout.
    destruct (check_players_timeout_fold now (stale_participants db now room_id) db [])
      as [Hdb _].
    cbn zeta in Hdb. rewrite Hdb. cbn [room_participants set_room_participants].
    apply Forall2_presence_map. intros p. unfold presence_le. cbn.
    repeat split; try reflexivity; lia.
  - rewrite cleanup_run. cbn zeta. cbn [fst room_participants set_room_participants].
    unfold cleanup_row. apply Forall2_presence_map.
    intros p. unfold presence_le. cbn. repeat split; try reflexivity; lia.
Qed.

(** In the sample room where Bob has dropped twice, he drops once more. *)
Lemma presence_counters_monotone_witness :
  exists db' info,
    mark_player_disconnected Sample.flaky_lobby 10 2 1 = Ok (db', info)
    /\ Forall2 presence_le (room_participants Sample.flaky_lobby)
               (room_participants db').
Proof.
  assert (Hpk : NoDup (map RoomParticipant.id (room_participants Sample.flaky_lobby))).
  { simpl. repeat constructor; simpl; intuition discriminate. }
  destruct (presence_counters_monotone Sample.flaky_lobby 10 2 1 Hpk)
    as (_ & Hdrop & _).
  eexists _, _. split; [reflexivity|]. apply (Hdrop _ _ eq_refl).
Defined.

Lemma active_player_is_connected_flag (db : DB) (room_id : Z) (p : PlayerInfo) :
  In p (get_active_players db room_id) ->
  pi_is_connected p
  = ConnectionStatus.eqb (pi_connection_status p) ConnectionStatus.CONNECTED.
Proof.
  unfold get_active_players. intros H. apply in_flat_map in H as (q & _ & H).
  apply in_map_iff in H as (u & <- & _). reflexivity.
Qed.

Lemma partition_by_connection (l : list PlayerInfo) :
  Permutation
    (filter (fun p => ConnectionStatus.eqb (pi_connection_status p)
                                           ConnectionStatus.CONNECTED) l
     ++ filter (fun p => ConnectionStatus.eqb (pi_connection_status p)
                                              ConnectionStatus.TIMEOUT) l
     ++ filter (fun p => ConnectionStatus.eqb (pi_connection_status p)
                                              ConnectionStatus.DISCONNECTED) l)
    l.
Proof.
  induction l as [|p l IH]; [constructor|]. simpl.
  destruct (pi_connection_status p); simpl.
  - now constructor.
  - rewrite app_assoc. apply Permutation_sym, Permutation_cons_app.
    rewrite <- app_assoc. now symmetry.
  - apply Permutation_sym, Permutation_cons_app. now symmetry.
Qed.

(** X5.  [get_players_for_action]: the connected, timed-out and
    disconnected counts add up to the number of active players; the players
    to wait for together with those that can be skipped are the active
    players; everyone to wait for is connected and nobody who can be
    skipped is. *)
Theorem players_for_action_partition (db : DB) (room_id : Z) :
  let stats := get_players_for_action db room_id in
  ap_connected stats + ap_timeout stats + ap_disconnected stats
    = ap_total_active stats
  /\ Permutation (ap_should_wait_for stats ++ ap_can_skip stats)
                 (get_active_players db room_id)
  /\ Forall (fun p => pi_is_connected p = true) (ap_should_wait_for stats)
  /\ Forall (fun p => pi_is_connected p = false) (ap_can_skip stats).
Proof.
  cbn zeta. unfold get_players_for_action.
  cbn [ap_connected ap_timeout ap_disconnected ap_total_active
       ap_should_wait_for ap_can_skip].
  set (l := get_active_players db room_id).
  assert (Hflag : filter pi_is_connected l
                  = filter (fun p => ConnectionStatus.eqb (pi_connection_status p)
                                                          ConnectionStatus.CONNECTED) l).
  { apply filter_ext_in. intros p Hin.
    exact (active_player_is_connected_flag db room_id p Hin). }
  pose proof (partition_by_connection l) as Hperm.
  split; [|split; [|split]].
  - apply Permutation_length in Hperm. rewrite !length_app in Hperm.
    rewrite Hflag. lia.
  - rewrite Hflag. exact Hperm.
  - apply Forall_forall. intros p Hp. now apply filter_In in Hp.
  - apply Forall_forall. intros p Hp. apply in_app_or in Hp.
    assert (Hin : In p l /\ pi_connection_status p <> ConnectionStatus.CONNECTED).
    { destruct Hp as [Hp|Hp]; apply filter_In in Hp as [Hin Hs]; split; auto;
        destruct (pi_connection_status p); simpl in Hs; congruence. }
    destruct Hin as [Hin Hs].
    rewrite (active_player_is_connected_flag db room_id p Hin).
    destruct (pi_connection_status p); simpl; congruence.
Qed.

Lemma only_row_of_user (user_id room_id : Z) (l : list RoomParticipant.t)
    (p q : RoomParticipant.t) :
  filter (is_participant user_id room_id) l = [p] ->
  In q l -> is_participant user_id room_id q = true -> q = p.
Proof.
  intros Hsingle Hin Hq.
  assert (H : In q (filter (is_participant user_id room_id) l))
    by (apply filter_In; now split).
  rewrite Hsingle in H. destruct H as [->|[]]. reflexivity.
Qed.

Lemma active_implies_participant (user_id room_id : Z) (q : RoomParticipant.t) :
  GameService.is_active_participant room_id user_id q = true ->
  is_participant user_id room_id q = true.
Proof.
  unfold GameService.is_active_participant, is_participant.
  rewrite !andb_true_iff. tauto.
Qed.

(** X26.  For a user with a single participation row in the room:
    [mark_player_disconnected] succeeds and leaves the user with a
    membership other than [ACTIVE], disconnected or left.  A later
    [update_player_activity] of the user reports True but does not bring
    the membership back: [_validate_player_in_game] raises a permission
    error, and the user is not among the active players of the room. *)
Theorem disconnected_player_is_locked_out (db : DB) (now later user_id room_id : Z)
    (p : RoomParticipant.t) :
  filter (is_participant user_id room_id) (room_participants db) = [p] ->
  exists db' info,
    mark_player_disconnected db now user_id room_id = Ok (db', info)
    /\ di_status info <> ParticipantStatus.ACTIVE
    /\ existsb (GameService.is_active_participant room_id user_id)
               (room_participants db') = false
    /\ let db'' := fst (update_player_activity db' later user_id room_id) in
       snd (update_player_activity db' later user_id room_id) = true
       /\ existsb (GameService.is_active_participant room_id user_id)
                  (room_participants db'') = false
       /\ GameService._validate_player_in_game room_id user_id db''
          = (db'', [], Raise PermissionError)
       /\ Forall (fun player => pi_user_id player <> user_id)
                 (get_active_players db'' room_id).
Proof.
  intros Hsingle.
  pose proof (find_of_filter _ _ _ _ Hsingle) as Hfind.
  pose proof (find_some _ _ Hfind) as [Hin Hp].
  unfold mark_player_disconnected. rewrite Hfind. cbn zeta.
  set (new_status := if RoomParticipant.disconnect_count p + 1 >=? MAX_DISCONNECT_COUNT
                     then ParticipantStatus.LEFT else ParticipantStatus.DISCONNECTED).
  assert (Hnew : new_status <> ParticipantStatus.ACTIVE).
  { unfold new_status. destruct (_ >=? _); discriminate. }
  eexists _, _. split; [reflexivity|]. cbn [di_status].
  split; [exact Hnew|].
  cbn [room_participants set_room_participants].
  match goal with
  | |- context [update_by_id ?i ?f ?l] =>
      set (values := f); set (l' := update_by_id i values l)
  end.
  assert (Hout : forall q', In q' l' ->
                   GameService.is_active_participant room_id user_id q' = false).
  { intros q' Hq'. unfold l', update_by_id in Hq'.
    apply in_map_iff in Hq' as (q & <- & Hq).
    destruct (RoomParticipant.id q =? RoomParticipant.id p) eqn:E.
    - unfold GameService.is_active_participant, values. cbn.
      destruct new_status; [contradiction| |]; apply andb_false_r.
    - apply not_true_iff_false. intros Hactive.
      apply active_implies_participant in Hactive.
      rewrite (only_row_of_user _ _ _ _ _ Hsingle Hq Hactive), Z.eqb_refl in E.
      discriminate. }
  assert (Hnone : existsb (GameService.is_active_participant room_id user_id) l'
                  = false).
  { apply not_true_iff_false. intros H. apply existsb_exists in H as (q' & Hq' & H).
    now rewrite (Hout q' Hq') in H. }
  split; [exact Hnone|].
  cbn zeta. unfold update_player_activity. cbn [fst snd room_participants
                                                 set_room_participants].
  assert (Hnone' : existsb (GameService.is_active_participant room_id user_id)
                     (map (fun q => if is_participant user_id room_id q
                                    then RoomParticipant.mk (RoomParticipant.id q)
                                           (RoomParticipant.room_id q)
                                           (RoomParticipant.user_id q)
                                           (RoomParticipant.joined_at q)
                                           (RoomParticipant.status q)
                                           ConnectionStatus.CONNECTED later (Some later)
                                           (RoomParticipant.disconnect_count q)
                                           (RoomParticipant.missed_actions q)
                                    else q) l')
                   = false).
  { apply not_true_iff_false. intros H. apply existsb_exists in H as (q' & Hq' & H).
    apply in_map_iff in Hq' as (q & <- & Hq).
    pose proof (Hout q Hq) as Hq_out.
    destruct (is_participant user_id room_id q); [|congruence].
    unfold GameService.is_active_participant in *. cbn in H. congruence. }
  split.
  { apply existsb_exists. exists (values p). split.
    - unfold l', update_by_id. apply in_map_iff. exists p.
      now rewrite Z.eqb_refl.
    - exact Hp. }
  split; [exact Hnone'|].
  split.
  { cbv [GameService._validate_player_in_game bind get raise_when raise ret].
    cbn [room_participants set_room_participants]. now rewrite Hnone'. }
  unfold get_active_players. cbn [room_participants set_room_participants users].
  apply Forall_forall. intros player Hplayer.
  apply in_flat_map in Hplayer as (q' & Hq' & Hplayer).
  apply in_map_iff in Hplayer as (u & <- & _). cbn [pi_user_id].
  apply filter_In in Hq' as [Hq' Hactive]. intros Huser.
  apply not_true_iff_false in Hnone'. apply Hnone'.
  apply existsb_exists. exists q'. split; [exact Hq'|].
  unfold GameService.is_active_participant.
  apply andb_true_iff in Hactive as [Hr Hs].
  now rewrite Hr, Hs, Huser, Z.eqb_refl.
Qed.

(** Bob drops out of the sample room. *)
Lemma disconnected_player_is_locked_out_witness :
  exists db' info,
    mark_player_disconnected Sample.lobby 10 2 1 = Ok (db', info)
    /\ GameService._validate_player_in_game 1 2
         (fst (update_player_activity db' 20 2 1))
       = (fst (update_player_activity db' 20 2 1), [], Raise PermissionError).
Proof.
  destruct (disconnected_player_is_locked_out Sample.lobby 10 20 2 1 _ eq_refl)
    as (db' & info & Hrun & _ & _ & _ & _ & Hrefused & _).
  exists db', info. split; [exact Hrun | exact Hrefused].
Defined.

End PresenceTracking.

(** ** The flow of a game *)

Section GameFlow.
Import GameService.

Lemma next_id_above (ids : list Z) (i : Z) : In i ids -> i < next_id ids.
Proof.
  intros Hin. unfold next_id.
  assert (H : i <= fold_right Z.max 0 ids); [|lia].
  induction ids as [|x ids IH]; [destruct Hin|].
  cbn [fold_right]. destruct Hin as [->|Hin]; [lia|]. specialize (IH Hin). lia.
Qed.

Lemma next_id_fresh (ids : list Z) : ~ In (next_id ids) ids.
Proof. intros H. apply next_id_above in H. lia. Qed.

Lemma find_round_id (round_id : Z) (rs : list GameRound.t) (r : GameRound.t) :
  find (fun x => GameRound.id x =? round_id) rs = Some r -> GameRound.id r = round_id.
Proof. intros H. apply find_some in H as [_ H]. now apply Z.eqb_eq. Qed.

Lemma phase_after_save (db db' : DB) (round_id : Z) (game_round : GameRound.t)
    (game game' : Game.t) :
  find (fun r => GameRound.id r =? round_id) (game_rounds db) = Some game_round ->
  find (fun g => Game.id g =? GameRound.game_id game_round) (games db) = Some game ->
  game_rounds db' = game_rounds db ->
  games db' = map (fun g => if Game.id g =? Game.id game' then game' else g) (games db) ->
  Game.id game' = Game.id game ->
  phase_of_round db' round_id = Some (Game.status game').
Proof.
  intros Hround Hgame Hrounds Hgames Hid. unfold phase_of_round.
  rewrite Hrounds, Hround, Hgames.
  rewrite (find_save_game _ (games db) game game' Hgame); [reflexivity|].
  rewrite Hid. exact (find_game_id _ _ _ Hgame).
Qed.

Lemma prior_choice_spec (round_id user_id : Z) (cs : list PlayerChoice.t) :
  existsb (fun c => (PlayerChoice.round_id c =? round_id)
                    && (PlayerChoice.user_id c =? user_id)) cs = false
  <-> forall c, In c cs ->
        ~ (PlayerChoice.round_id c = round_id /\ PlayerChoice.user_id c = user_id).
Proof.
  rewrite <- not_true_iff_false, existsb_exists. split.
  - intros H c Hin [H1 H2]. apply H. exists c. split; [exact Hin|].
    now rewrite andb_true_iff, !Z.eqb_eq.
  - intros H (c & Hin & Hc). rewrite andb_true_iff, !Z.eqb_eq in Hc.
    exact (H c Hin Hc).
Qed.

Lemma owns_card_spec (user_id : Z) (card_type : string) (card_number : Z)
    (cards : list UserCard.t) :
  existsb (fun c => (UserCard.user_id c =? user_id)
                    && String.eqb (UserCard.card_type c) card_type
                    && (UserCard.card_number c =? card_number)) cards = true
  <-> exists card, In card cards
                   /\ UserCard.user_id card = user_id
                   /\ UserCard.card_type card = card_type
                   /\ UserCard.card_number card = card_number.
Proof.
  rewrite existsb_exists. split; intros (c & Hin & H); exists c; (split; [exact Hin|]).
  - rewrite !andb_true_iff, !Z.eqb_eq, String.eqb_eq in H. tauto.
  - rewrite !andb_true_iff, !Z.eqb_eq, String.eqb_eq. tauto.
Qed.

(** X6.  For a round and its game: [start_voting] succeeds if and only if
    the game is in [card_selection], the round has at least 3 choices and,
    when a bus client is present, the round has a voting deadline.  In
    another phase, or with fewer than 3 choices, it raises a validation
    error and changes nothing.  When the phase and the count are right the
    game is in [voting] afterwards, also when the missing deadline makes
    the publication fail, and only the games table has changed.  On success
    exactly one task is created, the voting timer of the round, and the
    result carries the number of choices and the voting deadline. *)
Theorem start_voting_accepts_iff (env : Env) (round_id : Z) (db : DB)
    (game_round : GameRound.t) (game : Game.t) :
  find (fun r => GameRound.id r =? round_id) (game_rounds db) = Some game_round ->
  find (fun g => Game.id g =? GameRound.game_id game_round) (games db) = Some game ->
  let choices :=
    filter (fun c => PlayerChoice.round_id c =? round_id) (player_choices db) in
  exists db' fx res,
    start_voting env round_id db = (db', fx, res)
    /\ ((exists started, res = Ok started)
        <-> Game.status game = GameStatus.CARD_SELECTION
            /\ (3 <= length choices)%nat
            /\ (redis_client env = true ->
                GameRound.voting_deadline game_round <> None))
    /\ (Game.status game <> GameStatus.CARD_SELECTION \/ (length choices < 3)%nat ->
        db' = db /\ fx = [] /\ res = Raise ValidationError)
    /\ (Game.status game = GameStatus.CARD_SELECTION -> (3 <= length choices)%nat ->
        phase_of_round db' round_id = Some GameStatus.VOTING
        /\ db' = set_games db (games db'))
    /\ (forall started, res = Ok started ->
        tasks_of fx = [VotingTimeout round_id]
        /\ sv_total_choices started = Z.of_nat (length choices)
        /\ sv_voting_deadline started = GameRound.voting_deadline game_round).
Proof.
  intros Hround Hgame choices.
  cbv [start_voting bind _get_round_or_404 _get_game_or_404 get raise ret
       raise_when save_game put publish_game_event emit].
  rewrite Hround. cbn beta iota zeta. rewrite Hgame. cbn beta iota zeta.
  subst choices.
  destruct (GameStatus.eqb (Game.status game) GameStatus.CARD_SELECTION) eqn:E1;
    cbn [negb].
  2:{ eexists _, _, _. split; [reflexivity|].
      assert (Game.status game <> GameStatus.CARD_SELECTION).
      { intros H. apply status_eqb_CARD_SELECTION in H. congruence. }
      split; [split; [intros [? [=]] | tauto]|].
      split; [auto|]. split; [tauto|]. intros ? [=]. }
  apply status_eqb_CARD_SELECTION in E1.
  destruct (Z.of_nat _ <? 3) eqn:E2.
  { apply Z.ltb_lt in E2. eexists _, _, _. split; [reflexivity|].
    split; [split; [intros [? [=]] | lia]|].
    split; [auto|]. split; [lia|]. intros ? [=]. }
  apply Z.ltb_ge in E2.
  assert (Hphase : forall db',
            game_rounds db' = game_rounds db ->
            games db' = map (fun g => if Game.id g =? Game.id (Game.set_status game GameStatus.VOTING)
                                      then Game.set_status game GameStatus.VOTING else g)
                            (games db) ->
            phase_of_round db' round_id = Some GameStatus.VOTING).
  { intros db' H1 H2.
    exact (phase_after_save db db' round_id game_round game
             (Game.set_status game GameStatus.VOTING) Hround Hgame H1 H2 eq_refl). }
  destruct (redis_client env) eqn:Eredis; cbn beta iota zeta.
  - destruct (GameRound.voting_deadline game_round) as [d|] eqn:Ed; cbn beta iota zeta.
    + eexists _, _, _. split; [reflexivity|].
      split; [split; [intros _; repeat split; [exact E1 | lia | discriminate]
                     | intros _; eexists; reflexivity]|].
      split; [intros [H|H]; [contradiction | lia]|].
      split; [intros _ _; split; [apply Hphase; reflexivity | reflexivity]|].
      intros started [= <-]. repeat split.
    + eexists _, _, _. split; [reflexivity|].
      split; [split; [intros [? [=]] | intros (_ & _ & H); now specialize (H eq_refl)]|].
      split; [intros [H|H]; [contradiction | lia]|].
      split; [intros _ _; split; [apply Hphase; reflexivity | reflexivity]|].
      intros ? [=].
  - eexists _, _, _. split; [reflexivity|].
    split; [split; [intros _; repeat split; [exact E1 | lia | discriminate]
                   | intros _; eexists; reflexivity]|].
    split; [intros [H|H]; [contradiction | lia]|].
    split; [intros _ _; split; [apply Hphase; reflexivity | reflexivity]|].
    intros started [= <-]. repeat split.
Qed.

(** The voting of the first sample round is started once all three
    players have chosen. *)
Lemma start_voting_accepts_iff_witness :
  exists db' fx started,
    start_voting Sample.env 1 Sample.all_chosen = (db', fx, Ok started)
    /\ phase_of_round db' 1 = Some GameStatus.VOTING
    /\ tasks_of fx = [VotingTimeout 1].
Proof.
  destruct (start_voting_accepts_iff Sample.env 1 Sample.all_chosen _ _
              eq_refl eq_refl)
    as (db' & fx & res & Hrun & Hiff & _ & Hphase & Hok).
  destruct (proj2 Hiff) as [started ->].
  { split; [reflexivity|]. split; [vm_compute; lia | discriminate]. }
  exists db', fx, started. split; [exact Hrun|].
  split; [apply Hphase; [reflexivity | vm_compute; lia]|].
  exact (proj1 (Hok started eq_refl)).
Defined.

Ltac choice_rejected contra :=
  eexists _, _, _; split; [reflexivity|];
  cbn [player_choices set_room_participants];
  split; [split; [intros [? [=]] | intros Hacc; exfalso; contra Hacc]|];
  split; [intros ? [=]|];
  split; [intros ? [= <-]; split; [tauto | reflexivity]|];
  split; [unfold one_choice_per_player; cbn [player_choices set_room_participants];
          trivial
         | trivial].

(** X7.  For a round and its game, with the selection deadline of the
    round set: [submit_card_choice] stores a choice if and only if the game
    is in [card_selection], the time is not past the deadline, the player
    is an active participant of the room, has no choice in the round yet,
    and owns the card.  The stored choice is appended with a fresh id and
    no votes; otherwise a validation or permission error is raised and the
    choices table is unchanged.  Either way there is at most one choice per
    (round, user), and choice ids are unique, when that held before. *)
Theorem submit_card_choice_accepts_iff (env : Env) (now round_id user_id : Z)
    (card_type : string) (card_number : Z) (db : DB)
    (game_round : GameRound.t) (game : Game.t) (deadline : Z) :
  find (fun r => GameRound.id r =? round_id) (game_rounds db) = Some game_round ->
  find (fun g => Game.id g =? GameRound.game_id game_round) (games db) = Some game ->
  GameRound.selection_deadline game_round = Some deadline ->
  exists db' fx res,
    submit_card_choice env now round_id user_id card_type card_number db
      = (db', fx, res)
    /\ ((exists response, res = Ok response)
        <-> choice_accepted db now round_id user_id card_type card_number
                            game deadline)
    /\ (forall response, res = Ok response ->
          player_choices db'
          = player_choices db
            ++ [PlayerChoice.mk (next_id (map PlayerChoice.id (player_choices db)))
                                round_id user_id card_type card_number now]
          /\ pc_id response = next_id (map PlayerChoice.id (player_choices db))
          /\ pc_vote_count response = 0)
    /\ (forall e, res = Raise e ->
          (e = ValidationError \/ e = PermissionError)
          /\ player_choices db' = player_choices db)
    /\ (one_choice_per_player db -> one_choice_per_player db')
    /\ (NoDup (map PlayerChoice.id (player_choices db)) ->
        NoDup (map PlayerChoice.id (player_choices db'))).
Proof.
  intros Hround Hgame Hdeadline.
  cbv [submit_card_choice bind _get_round_or_404 _get_game_or_404 get raise ret
       raise_when raise_when_past _validate_player_in_game lift put
       PlayerManager.update_player_activity publish_game_event emit].
  rewrite Hround. cbn beta iota zeta. rewrite Hgame. cbn beta iota zeta.
  rewrite Hdeadline. cbn beta iota zeta.
  destruct (GameStatus.eqb (Game.status game) GameStatus.CARD_SELECTION) eqn:E1;
    cbn [negb];
    [|choice_rejected ltac:(fun H => destruct H as (H & _);
                             apply status_eqb_CARD_SELECTION in H; congruence)].
  destruct (now >? deadline) eqn:E2;
    [choice_rejected ltac:(fun H => destruct H as (_ & H & _); apply Z.gtb_lt in E2; lia)|].
  destruct (existsb (is_active_participant _ _) _) eqn:E3; cbn [negb];
    [|choice_rejected ltac:(fun H => destruct H as (_ & _ & H & _);
                             apply is_active_participant_spec in H; congruence)].
  cbn [player_choices user_cards set_room_participants].
  destruct (existsb _ (player_choices db)) eqn:E4;
    [choice_rejected ltac:(fun H => destruct H as (_ & _ & _ & H & _);
                            apply prior_choice_spec in H; congruence)|].
  destruct (existsb _ (user_cards db)) eqn:E5; cbn [negb];
    [|choice_rejected ltac:(fun H => destruct H as (_ & _ & _ & _ & H);
                             apply owns_card_spec in H; congruence)].
  assert (Hfresh : forall c, In c (player_choices db) ->
            ~ (PlayerChoice.round_id c = round_id /\ PlayerChoice.user_id c = user_id))
    by now apply prior_choice_spec.
  destruct (redis_client env); cbn beta iota zeta;
    (eexists _, _, _; split; [reflexivity|]);
    cbn [player_choices set_player_choices set_room_participants];
    (split; [split; [intros _|intros _; eexists; reflexivity]|]);
    try (split; [now apply status_eqb_CARD_SELECTION|];
         split; [rewrite Z.gtb_ltb, Z.ltb_ge in E2; exact E2|];
         split; [now apply is_active_participant_spec|];
         split; [exact Hfresh|];
         now apply owns_card_spec);
    (split; [intros response [= <-]; repeat split|]);
    (split; [intros e [=]|]);
    (split;
     [ unfold one_choice_per_player;
       cbn [player_choices set_player_choices set_room_participants];
       intros Hinv; rewrite map_app;
       apply (Permutation_NoDup (Permutation_cons_append _ _));
       constructor; [|exact Hinv];
       rewrite in_map_iff; intros (c & Hc & Hin);
       apply (Hfresh c Hin); cbn in Hc; injection Hc as -> ->; split; reflexivity
     | intros Hinv; rewrite map_app;
       apply (Permutation_NoDup (Permutation_cons_append _ _));
       constructor; [apply next_id_fresh | exact Hinv] ]).
Qed.

(** Carol picks her starter card 9 at time 230, before the deadline 500. *)
Lemma submit_card_choice_accepts_iff_witness :
  exists db' fx response,
    submit_card_choice Sample.env 230 1 3 "starter" 9 Sample.two_chosen
      = (db', fx, Ok response)
    /\ pc_id response = 3
    /\ one_choice_per_player db'.
Proof.
  destruct (submit_card_choice_accepts_iff Sample.env 230 1 3 "starter" 9
              Sample.two_chosen _ _ 500 eq_refl eq_refl eq_refl)
    as (db' & fx & res & Hrun & _ & Hok & _ & Hone & _).
  vm_compute in Hrun. injection Hrun as <- <- <-.
  eexists _, _, _. split; [reflexivity|].
  split; [exact (proj1 (proj2 (Hok _ eq_refl)))|].
  apply Hone. unfold one_choice_per_player. simpl.
  repeat constructor; simpl; intuition discriminate.
Defined.

Lemma end_game_run (env : Env) (now game_id : Z) (db : DB) (game : Game.t) :
  find (fun g => Game.id g =? game_id) (games db) = Some game ->
  exists db' fx result winner,
    end_game env now game_id db = (db', fx, Ok result)
    /\ games db'
       = map (fun g => if Game.id g =? Game.id game
                       then Game.mk (Game.id game) (Game.room_id game)
                              GameStatus.FINISHED (Game.current_round game) winner
                              (Game.created_at game) (Some now)
                       else g)
             (games db)
    /\ find (fun g => Game.id g =? game_id) (games db')
       = Some (Game.mk (Game.id game) (Game.room_id game) GameStatus.FINISHED
                       (Game.current_round game) winner (Game.created_at game)
                       (Some now))
    /\ game_rounds db' = game_rounds db
    /\ player_choices db' = player_choices db
    /\ votes db' = votes db
    /\ room_participants db' = room_participants db
    /\ user_cards db' = user_cards db
    /\ (let ranking := order_player_stats env (player_stats_groups db game_id) in
        winner = option_map ps_user_id (hd_error ranking)
        /\ eg_winner_id result = winner
        /\ users db'
           = match hd_error ranking with
             | Some top =>
                 if top_is_rewarded ranking
                 then with_rating_added 5 (ps_user_id top) (users db)
                 else users db
             | None => users db
             end
        /\ tasks_of fx
           = match hd_error ranking with
             | Some top =>
                 if top_is_rewarded ranking
                 then [AwardWinnerCardAsync (ps_user_id top)]
                 else []
             | None => []
             end).
Proof.
  intros Hgame.
  cbv [end_game bind _get_game_or_404 get ret save_game save_room
       publish_game_event emit put].
  rewrite Hgame. cbn beta iota zeta.
  set (ranking := order_player_stats env (player_stats_groups db game_id)).
  destruct (build_leaderboard_spec ranking) as [Hwinner Hreward].
  destruct (build_leaderboard ranking) as [leaderboard winner_id].
  cbn [fst snd] in Hwinner, Hreward. subst winner_id. rewrite Hreward.
  assert (Hfound : find (fun x => Game.id x =? game_id)
                     (map (fun x => if Game.id x =? Game.id game
                                    then Game.mk (Game.id game) (Game.room_id game)
                                           GameStatus.FINISHED (Game.current_round game)
                                           (option_map ps_user_id (hd_error ranking))
                                           (Game.created_at game) (Some now)
                                    else x) (games db))
                   = Some (Game.mk (Game.id game) (Game.room_id game)
                             GameStatus.FINISHED (Game.current_round game)
                             (option_map ps_user_id (hd_error ranking))
                             (Game.created_at game) (Some now))).
  { apply (find_save_game game_id (games db) game
             (Game.mk (Game.id game) (Game.room_id game) GameStatus.FINISHED
                      (Game.current_round game)
                      (option_map ps_user_id (hd_error ranking))
                      (Game.created_at game) (Some now)) Hgame).
    exact (find_game_id _ _ _ Hgame). }
  destruct (top_is_rewarded ranking) eqn:Etop;
    destruct (hd_error ranking) as [top|] eqn:Etophd; cbn [option_map] in *;
    try (destruct ranking; discriminate);
    destruct (find _ (rooms db)) as [room|]; cbn beta iota zeta;
    destruct (redis_client env); cbn beta iota zeta;
    rewrite ?award_game_victory_points_run;
    (eexists _, _, _, _; split; [reflexivity|]);
    cbn [games game_rounds player_choices votes room_participants user_cards users
         set_games set_rooms set_users eg_winner_id tasks_of flat_map app];
    (split; [reflexivity|]); (split; [exact Hfound|]); repeat split.
Qed.

Lemma with_rating_added_same_people (points user_id : Z) (us : list User.t) :
  Forall2 (fun u u' => User.id u' = User.id u /\ User.nickname u' = User.nickname u)
          us (with_rating_added points user_id us).
Proof.
  unfold with_rating_added. destruct (find _ us) as [user|].
  - induction us as [|u us IH]; simpl; constructor; [|exact IH].
    destruct (User.id u =? user_id); split; reflexivity.
  - induction us; constructor; auto.
Qed.

Lemma player_stats_groups_same_people (db db' : DB) (game_id : Z) :
  Forall2 (fun u u' => User.id u' = User.id u /\ User.nickname u' = User.nickname u)
          (users db) (users db') ->
  player_choices db' = player_choices db ->
  game_rounds db' = game_rounds db ->
  votes db' = votes db ->
  player_stats_groups db' game_id = player_stats_groups db game_id.
Proof.
  intros Hpeople Hchoices Hrounds Hvotes.
  unfold player_stats_groups, choices_in_game, count_votes_for.
  rewrite Hchoices, Hrounds, Hvotes.
  induction Hpeople as [|u u' us us' [Hid Hnick] _ IH]; [reflexivity|].
  cbn [flat_map]. rewrite IH. f_equal. now rewrite Hid, Hnick.
Qed.

(** X25.  [end_game] does not look at the status of the game: applied
    again to a game it has finished, it succeeds again, names the same
    winner and creates the same tasks, and when the top player of the
    ranking is rewarded, the rating of that player has 5.0 added to it, as
    a float, a second time, and a second card-award task is created.  The
    game is [finished], with the later finishing time. *)
Theorem end_game_rewards_again (env : Env) (now later game_id : Z) (db : DB)
    (game : Game.t) :
  find (fun g => Game.id g =? game_id) (games db) = Some game ->
  let ranking := order_player_stats env (player_stats_groups db game_id) in
  exists db1 fx1 first db2 fx2 second,
    end_game env now game_id db = (db1, fx1, Ok first)
    /\ end_game env later game_id db1 = (db2, fx2, Ok second)
    /\ eg_winner_id second = eg_winner_id first
    /\ tasks_of fx2 = tasks_of fx1
    /\ (forall top, hd_error ranking = Some top -> top_is_rewarded ranking = true ->
          tasks_of fx1 = [AwardWinnerCardAsync (ps_user_id top)]
          /\ users db1 = with_rating_added 5 (ps_user_id top) (users db)
          /\ users db2 = with_rating_added 5 (ps_user_id top) (users db1))
    /\ exists finished,
         find (fun g => Game.id g =? game_id) (games db2) = Some finished
         /\ Game.status finished = GameStatus.FINISHED
         /\ Game.finished_at finished = Some later.
Proof.
  intros Hgame ranking.
  destruct (end_game_run env now game_id db game Hgame)
    as (db1 & fx1 & first & winner1 & Hrun1 & _ & Hfound1 & Hrounds1 & Hchoices1
        & Hvotes1 & _ & _ & Hwinner1 & Hresult1 & Husers1 & Htasks1).
  destruct (end_game_run env later game_id db1 _ Hfound1)
    as (db2 & fx2 & second & winner2 & Hrun2 & _ & Hfound2 & _ & _ & _ & _ & _
        & Hwinner2 & Hresult2 & Husers2 & Htasks2).
  cbn zeta in Hwinner1, Hresult1, Husers1, Htasks1, Hwinner2, Hresult2, Husers2,
              Htasks2.
  fold ranking in Hwinner1, Husers1, Htasks1.
  assert (Hpeople : Forall2 (fun u u' => User.id u' = User.id u
                                         /\ User.nickname u' = User.nickname u)
                            (users db) (users db1)).
  { assert (Hrefl : forall us : list User.t,
              Forall2 (fun u u' => User.id u' = User.id u
                                   /\ User.nickname u' = User.nickname u) us us).
    { induction us; constructor; auto. }
    rewrite Husers1.
    destruct (hd_error ranking) as [top|]; [|apply Hrefl].
    destruct (top_is_rewarded ranking);
      [apply with_rating_added_same_people | apply Hrefl]. }
  rewrite (player_stats_groups_same_people db db1 game_id Hpeople Hchoices1
             Hrounds1 Hvotes1) in Hwinner2, Husers2, Htasks2.
  fold ranking in Hwinner2, Husers2, Htasks2.
  exists db1, fx1, first, db2, fx2, second.
  split; [exact Hrun1|]. split; [exact Hrun2|].
  split; [congruence|]. split; [congruence|].
  split.
  - intros top Htop Hrewarded. rewrite Htop, Hrewarded in Husers1, Htasks1, Husers2.
    repeat split; assumption.
  - eexists. split; [exact Hfound2|]. split; reflexivity.
Qed.

(** After Bob's and Carol's votes for Alice's card the sample game is ended
    twice: the rating of Alice is 10.0. *)
Lemma end_game_rewards_again_witness :
  exists db1 fx1 first db2 fx2 second,
    end_game Sample.env 300 1 Sample.two_voted = (db1, fx1, Ok first)
    /\ end_game Sample.env 400 1 db1 = (db2, fx2, Ok second)
    /\ map User.rating (users Sample.two_voted) = map float_of_Z [0; 0; 0; 0]
    /\ map User.rating (users db2) = map float_of_Z [10; 0; 0; 0].
Proof.
  destruct (end_game_rewards_again Sample.env 300 400 1 Sample.two_voted _ eq_refl)
    as (db1 & fx1 & first & db2 & fx2 & second & Hrun1 & Hrun2 & _).
  exists db1, fx1, first, db2, fx2, second.
  split; [exact Hrun1|]. split; [exact Hrun2|]. split; [reflexivity|].
  revert Hrun1 Hrun2. vm_compute. intros [= <- _ _] [= <- _ _]. reflexivity.
Defined.

Lemma find_appended_round (rs : list GameRound.t) (r : GameRound.t) :
  ~ In (GameRound.id r) (map GameRound.id rs) ->
  find (fun x => GameRound.id x =? GameRound.id r) (rs ++ [r]) = Some r.
Proof.
  induction rs as [|x rs IH]; simpl; intros Hnot.
  - now rewrite Z.eqb_refl.
  - destruct (GameRound.id x =? GameRound.id r) eqn:E.
    + apply Z.eqb_eq in E. exfalso. apply Hnot. now left.
    + apply IH. intros H. apply Hnot. now right.
Qed.

Lemma start_round_run (env : Env) (now game_id : Z)
    (situation_text : option string) (db : DB) (game : Game.t) :
  find (fun g => Game.id g =? game_id) (games db) = Some game ->
  let players :=
    PlayerManager.get_active_players
      (fst (PlayerManager.cleanup_inactive_players db (Game.room_id game)))
      (Game.room_id game) in
  exists db' fx res,
    start_round env now game_id situation_text db = (db', fx, res)
    /\ (Game.status game <> GameStatus.STARTING ->
        Game.status game <> GameStatus.ROUND_RESULTS ->
        db' = db /\ fx = [] /\ res = Raise ValidationError)
    /\ (forall game_round remaining,
          res = Ok (RoundStarted game_round remaining) ->
          (Game.status game = GameStatus.STARTING
           \/ Game.status game = GameStatus.ROUND_RESULTS)
          /\ (3 <= length players)%nat
          /\ game_rounds db' = game_rounds db ++ [game_round]
          /\ ~ In (GameRound.id game_round) (map GameRound.id (game_rounds db))
          /\ GameRound.game_id game_round = game_id
          /\ GameRound.round_number game_round = Game.current_round game + 1
          /\ GameRound.selection_deadline game_round = Some (now + remaining)
          /\ GameRound.voting_deadline game_round
             = Some (now + (remaining + VOTING_TIMEOUT))
          /\ phase_of_round db' (GameRound.id game_round)
             = Some GameStatus.CARD_SELECTION
          /\ tasks_of fx = [SelectionTimeout (GameRound.id game_round)])
    /\ (forall result,
          res = Ok (GameEnded result) ->
          (length players < 3)%nat
          /\ game_rounds db' = game_rounds db
          /\ exists game',
               find (fun g => Game.id g =? game_id) (games db') = Some game'
               /\ Game.status game' = GameStatus.FINISHED)
    /\ (forall e, res = Raise e ->
          game_rounds db' = game_rounds db /\ games db' = games db)
    /\ (forall game_round remaining,
          res = Ok (RoundStarted game_round remaining) ->
          exists game',
            find (fun g => Game.id g =? game_id) (games db') = Some game'
            /\ Game.status game' = GameStatus.CARD_SELECTION)
    /\ player_choices db' = player_choices db
    /\ votes db' = votes db.
Proof.
  intros Hgame players.
  unfold start_round.
  cbv [bind _get_game_or_404 get raise ret raise_when lift].
  rewrite Hgame. cbn beta iota zeta.
  destruct (GameStatus.eqb (Game.status game) GameStatus.STARTING
            || GameStatus.eqb (Game.status game) GameStatus.ROUND_RESULTS) eqn:E1;
    cbn [negb].
  2:{ eexists _, _, _. split; [reflexivity|].
      split; [auto|]. split; [intros ? ? [=]|]. split; [intros ? [=]|].
      split; [intros e _; split; reflexivity|].
      split; [intros ? ? [=]|]. split; reflexivity. }
  assert (Hstatus : Game.status game = GameStatus.STARTING
                    \/ Game.status game = GameStatus.ROUND_RESULTS).
  { apply orb_true_iff in E1.
    destruct (Game.status game); simpl in E1; intuition discriminate. }
  destruct (PlayerManager.cleanup_inactive_players db (Game.room_id game))
    as [db1 excluded] eqn:Ecleanup.
  cbn [fst] in players. cbn beta iota zeta.
  assert (Hdb1 : db1 = set_room_participants db (room_participants db1)).
  { pose proof (f_equal fst Ecleanup) as H. cbn [fst] in H. rewrite <- H.
    unfold PlayerManager.cleanup_inactive_players.
    destruct (map _ _); [now destruct db | reflexivity]. }
  assert (Hgames1 : games db1 = games db) by now rewrite Hdb1.
  assert (Hrounds1 : game_rounds db1 = game_rounds db) by now rewrite Hdb1.
  assert (Hchoices1 : player_choices db1 = player_choices db) by now rewrite Hdb1.
  assert (Hvotes1 : votes db1 = votes db) by now rewrite Hdb1.
  fold players.
  destruct (Z.of_nat (length players) <? 3) eqn:E2.
  - apply Z.ltb_lt in E2.
    assert (Hgame1 : find (fun g => Game.id g =? game_id) (games db1) = Some game)
      by now rewrite Hgames1.
    destruct (end_game_run env now game_id db1 game Hgame1)
      as (db' & fx & result & winner & Hrun & _ & Hfound & Hrounds & Hchoices
          & Hvotes & _).
    rewrite Hrun. eexists _, _, _. split; [reflexivity|].
    split; [intros H1 H2; destruct Hstatus; contradiction|].
    split; [intros ? ? [=]|].
    split; [|split; [intros ? [=]
                    |split; [intros ? ? [=] | split; congruence]]].
    intros ? [= <-]. split; [lia|]. split; [congruence|].
    eexists. split; [exact Hfound | reflexivity].
  - apply Z.ltb_ge in E2.
    assert (Hfresh : ~ In (next_id (map GameRound.id (game_rounds db)))
                          (map GameRound.id (game_rounds db)))
      by apply next_id_fresh.
    pose proof (find_save_game game_id (games db) game
                  (Game.mk (Game.id game) (Game.room_id game)
                           GameStatus.CARD_SELECTION (Game.current_round game + 1)
                           (Game.winner_id game) (Game.created_at game)
                           (Game.finished_at game)) Hgame
                  (find_game_id _ _ _ Hgame)) as Hfound.
    cbn [Game.id] in Hfound.
    assert (Hphase : forall db' situation,
              let game_round :=
                GameRound.mk (next_id (map GameRound.id (game_rounds db)))
                  game_id (Game.current_round game + 1) situation
                  (round_duration (Game.current_round game)) now (Some now) None
                  (Some (now + round_duration (Game.current_round game)))
                  (Some (now + (round_duration (Game.current_round game)
                                + VOTING_TIMEOUT)))
                  false in
              game_rounds db' = game_rounds db ++ [game_round] ->
              games db'
              = map (fun g => if Game.id g =? Game.id game
                              then Game.mk (Game.id game) (Game.room_id game)
                                     GameStatus.CARD_SELECTION
                                     (Game.current_round game + 1)
                                     (Game.winner_id game) (Game.created_at game)
                                     (Game.finished_at game)
                              else g)
                    (games db) ->
              phase_of_round db' (GameRound.id game_round)
              = Some GameStatus.CARD_SELECTION).
    { intros db' situation game_round Hr Hg. unfold phase_of_round.
      rewrite Hr, (find_appended_round _ game_round Hfresh), Hg.
      cbn [GameRound.game_id game_round]. now rewrite Hfound. }
    cbv [bind get ret raise put emit save_game publish_game_event].
    destruct situation_text as [text|]; cbn beta iota zeta.
    + destruct (redis_client env); cbn beta iota zeta;
        (eexists _, _, _; split; [reflexivity|]);
        (split; [intros H1 H2; destruct Hstatus; contradiction|]);
        cbn [game_rounds games player_choices votes set_game_rounds set_games
             Game.id];
        rewrite ?Hrounds1, ?Hgames1;
        (split; [|split; [intros ? [=]
                         |split; [intros ? [=]
                                 |split; [intros ? ? _; eexists;
                                          split; [exact Hfound | reflexivity]
                                         |split; assumption]]]]);
        intros game_round remaining [= <- <-];
        cbn [GameRound.id GameRound.game_id GameRound.round_number
             GameRound.selection_deadline GameRound.voting_deadline];
        (split; [exact Hstatus|]); (split; [lia|]); (split; [reflexivity|]);
        (split; [exact Hfresh|]);
        (split; [reflexivity|]); (split; [reflexivity|]); (split; [reflexivity|]);
        (split; [reflexivity|]);
        (split; [|reflexivity]);
        apply (Hphase _ (SituationText text));
        cbn [game_rounds games set_game_rounds set_games];
        now rewrite ?Hrounds1, ?Hgames1.
    + destruct (find _ (rooms db1)) as [room|]; cbn beta iota zeta.
      * destruct (redis_client env); cbn beta iota zeta;
          (eexists _, _, _; split; [reflexivity|]);
          (split; [intros H1 H2; destruct Hstatus; contradiction|]);
          cbn [game_rounds games player_choices votes set_game_rounds set_games
               Game.id];
          rewrite ?Hrounds1, ?Hgames1;
          (split; [|split; [intros ? [=]
                           |split; [intros ? [=]
                                   |split; [intros ? ? _; eexists;
                                            split; [exact Hfound | reflexivity]
                                           |split; assumption]]]]);
          intros game_round remaining [= <- <-];
          cbn [GameRound.id GameRound.game_id GameRound.round_number
               GameRound.selection_deadline GameRound.voting_deadline];
          (split; [exact Hstatus|]); (split; [lia|]); (split; [reflexivity|]);
          (split; [exact Hfresh|]);
          (split; [reflexivity|]); (split; [reflexivity|]); (split; [reflexivity|]);
          (split; [reflexivity|]);
          (split; [|reflexivity]);
          apply (Hphase _ (SituationPlaceholder (Game.current_round game + 1)));
          cbn [game_rounds games set_game_rounds set_games];
          now rewrite ?Hrounds1, ?Hgames1.
      * eexists _, _, _. split; [reflexivity|].
        split; [intros H1 H2; destruct Hstatus; contradiction|].
        split; [intros ? ? [=]|]. split; [intros ? [=]|].
        split; [intros e _; split; assumption|].
        split; [intros ? ? [=]|]. split; assumption.
Qed.

(** X8.  Whenever [start_round] returns a result, the game existed and
    was in [starting] or [round_results].  If the result is a started
    round, at least 3 players were active after the cleanup of the inactive
    ones; the round is appended with a fresh id, belongs to the game, has
    the number after the game's current round, and its deadlines are
    [remaining] and [remaining + 180] seconds from now; the game is in
    [card_selection]; and the one task created is the selection timer of
    that round.  If the result is the end of the game, fewer than 3 players
    were active, no round was added and the game is [finished]. *)
Theorem start_round_outcomes (env : Env) (now game_id : Z)
    (situation_text : option string) (db db' : DB) (fx : list Effect)
    (started : StartRoundResult) :
  start_round env now game_id situation_text db = (db', fx, Ok started) ->
  exists game,
    find (fun g => Game.id g =? game_id) (games db) = Some game
    /\ (Game.status game = GameStatus.STARTING
        \/ Game.status game = GameStatus.ROUND_RESULTS)
    /\ let players :=
         PlayerManager.get_active_players
           (fst (PlayerManager.cleanup_inactive_players db (Game.room_id game)))
           (Game.room_id game) in
       match started with
       | RoundStarted game_round remaining =>
           (3 <= length players)%nat
           /\ game_rounds db' = game_rounds db ++ [game_round]
           /\ ~ In (GameRound.id game_round) (map GameRound.id (game_rounds db))
           /\ GameRound.game_id game_round = game_id
           /\ GameRound.round_number game_round = Game.current_round game + 1
           /\ GameRound.selection_deadline game_round = Some (now + remaining)
           /\ GameRound.voting_deadline game_round
              = Some (now + (remaining + VOTING_TIMEOUT))
           /\ phase_of_round db' (GameRound.id game_round)
              = Some GameStatus.CARD_SELECTION
           /\ tasks_of fx = [SelectionTimeout (GameRound.id game_round)]
       | GameEnded result =>
           (length players < 3)%nat
           /\ game_rounds db' = game_rounds db
           /\ exists game',
                find (fun g => Game.id g =? game_id) (games db') = Some game'
                /\ Game.status game' = GameStatus.FINISHED
       end.
Proof.
  intros Hrun.
  destruct (find (fun g => Game.id g =? game_id) (games db)) as [game|] eqn:Hgame.
  - destruct (start_round_run env now game_id situation_text db game Hgame)
      as (db1 & fx1 & res & Hrun1 & Hbad & Hstarted & Hended & _ & _ & _ & _).
    rewrite Hrun1 in Hrun. injection Hrun as -> -> ->.
    exists game. split; [reflexivity|].
    destruct started as [game_round remaining|result].
    + destruct (Hstarted _ _ eq_refl) as (Hstatus & H). split; [exact Hstatus|].
      cbn zeta. exact H.
    + destruct (Hended _ eq_refl) as (H1 & H2 & H3).
      split; [|cbn zeta; repeat split; assumption].
      destruct (Game.status game) eqn:Es; auto;
        destruct Hbad as (_ & _ & [=]); discriminate.
  - exfalso. revert Hrun. unfold start_round.
    cbv [bind _get_game_or_404 get raise]. rewrite Hgame. discriminate.
Qed.

(** The first round of the sample game is started at time 200. *)
Lemma start_round_outcomes_witness :
  exists db' fx game_round remaining,
    start_round Sample.env 200 1 None Sample.game_created
      = (db', fx, Ok (RoundStarted game_round remaining))
    /\ phase_of_round db' (GameRound.id game_round) = Some GameStatus.CARD_SELECTION
    /\ tasks_of fx = [SelectionTimeout (GameRound.id game_round)].
Proof.
  eexists _, _, _, _. split; [reflexivity|].
  destruct (start_round_outcomes Sample.env 200 1 None Sample.game_created
              _ _ _ eq_refl)
    as (game & _ & _ & _ & _ & _ & _ & _ & _ & _ & Hphase & Htasks).
  split; assumption.
Defined.

(** X9.  Whenever [submit_vote] stores a vote, the games and the rounds
    are unchanged (the vote itself does not change the phase), and the task
    that calculates the results of the round is created if and only if,
    counting the new vote, the votes of the round are at least as many as
    the connected active players of the room and these are at least 2.  No
    other task is created. *)
Theorem vote_completes_round (env : Env) (now round_id user_id choice_id : Z)
    (db db' : DB) (fx : list Effect) (vote : Vote.t) :
  submit_vote env now round_id user_id choice_id db = (db', fx, Ok vote) ->
  exists game_round game,
    find (fun r => GameRound.id r =? round_id) (game_rounds db) = Some game_round
    /\ find (fun g => Game.id g =? GameRound.game_id game_round) (games db)
       = Some game
    /\ games db' = games db
    /\ game_rounds db' = game_rounds db
    /\ (let voters := connected_players db' (Game.room_id game) in
        let cast := filter (fun v => Vote.round_id v =? round_id) (votes db') in
        (In (CalculateResultsAsync round_id) (tasks_of fx)
         <-> (length voters <= length cast)%nat /\ (1 < length voters)%nat)
        /\ (forall t, In t (tasks_of fx) -> t = CalculateResultsAsync round_id)).
Proof.
  cbv [submit_vote bind _get_round_or_404 _get_game_or_404 get raise ret
       raise_when raise_when_past _validate_player_in_game lift put
       _check_all_players_voted
       PlayerManager.update_player_activity publish_game_event emit].
  destruct (find _ (game_rounds db)) as [game_round|] eqn:Hround;
    cbn beta iota zeta; [|intros [=]].
  destruct (find _ (games db)) as [game|] eqn:Hgame;
    cbn beta iota zeta; [|intros [=]].
  destruct (GameStatus.eqb (Game.status game) GameStatus.VOTING); cbn [negb];
    [|intros [=]].
  destruct (GameRound.voting_deadline game_round) as [deadline|];
    cbn beta iota zeta; [|intros [=]].
  destruct (now >? deadline); [intros [=]|].
  destruct (existsb (is_active_participant _ _) _); cbn [negb]; [|intros [=]].
  cbn [votes player_choices games set_room_participants].
  destruct (existsb _ (votes db)); [intros [=]|].
  destruct (find _ (player_choices db)) as [choice|]; [|intros [=]].
  destruct (PlayerChoice.round_id choice =? round_id); cbn [negb]; [|intros [=]].
  destruct (PlayerChoice.user_id choice =? user_id); [intros [=]|].
  assert (Hcond : forall cast voters : nat,
            (Z.of_nat cast >=? Z.of_nat voters) && (Z.of_nat voters >? 1) = true
            <-> (voters <= cast)%nat /\ (1 < voters)%nat).
  { intros cast voters. rewrite andb_true_iff, Z.geb_le, Z.gtb_ltb, Z.ltb_lt. lia. }
  destruct (redis_client env); cbn beta iota zeta;
    cbn [games set_votes set_room_participants]; rewrite Hgame;
    cbn beta iota zeta;
    match goal with
    | |- context [(Z.of_nat ?cast >=? Z.of_nat ?voters) && _] =>
        specialize (Hcond cast voters);
        destruct ((Z.of_nat cast >=? Z.of_nat voters) && (Z.of_nat voters >? 1))
    end;
    cbn beta iota zeta;
    intros [= <- <- <-]; exists game_round, game;
    (split; [reflexivity|]); (split; [exact Hgame|]);
    (split; [reflexivity|]); (split; [reflexivity|]);
    cbn [tasks_of flat_map app In];
    (split; [|intros t; intuition (discriminate || auto)]);
    first [ split; [intros _; exact (proj1 Hcond eq_refl) | intros _; auto]
          | split; [intros H; exfalso; intuition discriminate
                   | intros H; apply (proj2 Hcond) in H; discriminate] ].
Qed.

(** The third voter of the sample round completes it. *)
Lemma vote_completes_round_witness :
  exists db' fx vote,
    submit_vote Sample.env 260 1 1 2 Sample.two_voted = (db', fx, Ok vote)
    /\ In (CalculateResultsAsync 1) (tasks_of fx).
Proof.
  eexists _, _, _. split; [reflexivity|].
  destruct (vote_completes_round Sample.env 260 1 1 2 Sample.two_voted
              _ _ _ eq_refl)
    as (game_round & game & Hround & Hgame & _ & _ & Htask & _).
  vm_compute in Hround. injection Hround as <-.
  vm_compute in Hgame. injection Hgame as <-.
  apply Htask. vm_compute. split; lia.
Defined.

Lemma find_map_game (game_id : Z) (status : GameStatus.t) (gs : list Game.t)
    (g : Game.t) :
  find (fun x => Game.id x =? game_id) gs = Some g ->
  find (fun x => Game.id x =? game_id)
       (map (fun x => if Game.id x =? game_id then Game.set_status x status else x) gs)
  = Some (Game.set_status g status).
Proof.
  induction gs as [|x gs IH]; simpl; [discriminate|].
  destruct (Game.id x =? game_id) eqn:E.
  - intros [= ->]. cbn [Game.id Game.set_status]. now rewrite E.
  - rewrite E. exact IH.
Qed.

Lemma find_map_round (round_id : Z) (f : GameRound.t -> GameRound.t)
    (rs : list GameRound.t) (r : GameRound.t) :
  (forall x, GameRound.id (f x) = GameRound.id x) ->
  find (fun x => GameRound.id x =? round_id) rs = Some r ->
  find (fun x => GameRound.id x =? round_id)
       (map (fun x => if GameRound.id x =? round_id then f x else x) rs)
  = Some (f r).
Proof.
  intros Hid. induction rs as [|x rs IH]; simpl; [discriminate|].
  destruct (GameRound.id x =? round_id) eqn:E.
  - intros [= ->]. now rewrite Hid, E.
  - rewrite E. exact IH.
Qed.

Lemma find_in_prefix {A : Type} (f : A -> bool) (l extra : list A) (x : A) :
  find f l = Some x -> find f (l ++ extra) = Some x.
Proof.
  induction l as [|y l IH]; simpl; [discriminate|].
  destruct (f y); auto.
Qed.

Lemma aggregate_round_run (env : Env) (now round_id : Z) (db : DB)
    (game_round : GameRound.t) (game : Game.t) :
  find (fun r => GameRound.id r =? round_id) (game_rounds db) = Some game_round ->
  find (fun g => Game.id g =? GameRound.game_id game_round) (games db) = Some game ->
  exists db1 fx response,
    aggregate_round env now round_id db = (db1, fx, Ok (game, game_round, response))
    /\ games db1
       = map (fun g => if Game.id g =? Game.id game
                       then Game.set_status g GameStatus.ROUND_RESULTS else g)
             (games db)
    /\ game_rounds db1
       = map (fun r => if GameRound.id r =? round_id
                       then GameRound.set_finished_at r (Some now) else r)
             (game_rounds db)
    /\ player_choices db1 = player_choices db
    /\ votes db1 = votes db
    /\ room_participants db1 = room_participants db
    /\ rr_round_id response = round_id
    /\ rr_round_number response = GameRound.round_number game_round
    /\ tasks_of fx = [].
Proof.
  intros Hround Hgame.
  cbv [aggregate_round bind _get_round_or_404 _get_game_or_404 get ret put
       publish_game_event emit].
  rewrite Hround. cbn beta iota zeta. rewrite Hgame. cbn beta iota zeta.
  destruct (tally _ _) as [[choices_data winner_choice] max_votes].
  cbn beta iota zeta.
  destruct winner_choice as [w|]; [destruct (max_votes >? 0)|];
    rewrite ?award_round_points_run;
    destruct (redis_client env); cbn beta iota zeta;
    (eexists _, _, _; split; [reflexivity|]);
    cbn [games game_rounds player_choices votes room_participants
         set_games set_game_rounds set_users];
    repeat split.
Qed.

Lemma schedule_next_round_run (env : Env) (now game_id current_round : Z)
    (db : DB) (game : Game.t) :
  find (fun g => Game.id g =? game_id) (games db) = Some game ->
  Game.status game = GameStatus.ROUND_RESULTS ->
  exists db' fx game' extra,
    _schedule_next_round env now game_id current_round db = (db', fx, Ok tt)
    /\ find (fun g => Game.id g =? game_id) (games db') = Some game'
    /\ (Game.status game' = GameStatus.CARD_SELECTION
        \/ Game.status game' = GameStatus.FINISHED)
    /\ (7 <= current_round -> Game.status game' = GameStatus.FINISHED)
    /\ game_rounds db' = game_rounds db ++ extra
    /\ player_choices db' = player_choices db
    /\ votes db' = votes db.
Proof.
  intros Hgame Hstatus.
  unfold _schedule_next_round.
  cbv [try_except bind _get_game_or_404 get ret].
  rewrite Hgame. cbn beta iota zeta.
  destruct (current_round >=? 7) eqn:E.
  - destruct (end_game_run env (now + RESULTS_DISPLAY_TIME) game_id db game Hgame)
      as (db' & fx & result & winner & Hrun & _ & Hfound & Hrounds & Hchoices
          & Hvotes & _).
    rewrite Hrun. eexists _, _, _, []. split; [reflexivity|].
    split; [exact Hfound|]. split; [right; reflexivity|].
    split; [reflexivity|]. split; [now rewrite app_nil_r|]. split; assumption.
  - assert (Hlt : current_round < 7) by (rewrite Z.geb_leb, Z.leb_gt in E; lia).
    destruct (start_round_run env (now + RESULTS_DISPLAY_TIME) game_id None db game
                Hgame)
      as (db1 & fx1 & res & Hrun & _ & Hstarted & Hended & Hraise & Hgame'
          & Hchoices & Hvotes).
    rewrite Hrun.
    destruct res as [[game_round remaining|result]|e].
    + destruct (Hstarted _ _ eq_refl) as (_ & _ & Hrounds & _).
      destruct (Hgame' _ _ eq_refl) as (game' & Hfound & Hcs).
      eexists _, _, game', [game_round]. split; [reflexivity|].
      split; [exact Hfound|]. split; [left; exact Hcs|].
      split; [lia|]. split; [exact Hrounds|]. split; assumption.
    + destruct (Hended _ eq_refl) as (_ & Hrounds & game' & Hfound & Hfin).
      eexists _, _, game', []. split; [reflexivity|].
      split; [exact Hfound|]. split; [right; exact Hfin|].
      split; [lia|]. split; [now rewrite app_nil_r|]. split; assumption.
    + destruct (Hraise _ eq_refl) as (Hrounds & Hgames).
      assert (Hgame1 : find (fun g => Game.id g =? game_id) (games db1) = Some game)
        by now rewrite Hgames.
      destruct (end_game_run env (now + RESULTS_DISPLAY_TIME) game_id db1 game Hgame1)
        as (db' & fx & result & winner & Hrun2 & _ & Hfound & Hrounds2 & Hchoices2
            & Hvotes2 & _).
      rewrite Hrun2. eexists _, _, _, []. split; [reflexivity|].
      split; [exact Hfound|]. split; [right; reflexivity|].
      split; [lia|]. split; [rewrite app_nil_r; congruence|].
      split; congruence.
Qed.

Lemma calculate_round_results_run (env : Env) (now round_id : Z) (db : DB)
    (game_round : GameRound.t) (game : Game.t) :
  find (fun r => GameRound.id r =? round_id) (game_rounds db) = Some game_round ->
  find (fun g => Game.id g =? GameRound.game_id game_round) (games db) = Some game ->
  exists db' fx response game',
    calculate_round_results env now round_id db = (db', fx, Ok response)
    /\ find (fun g => Game.id g =? GameRound.game_id game_round) (games db')
       = Some game'
    /\ (Game.status game' = GameStatus.CARD_SELECTION
        \/ Game.status game' = GameStatus.FINISHED)
    /\ (7 <= GameRound.round_number game_round ->
        Game.status game' = GameStatus.FINISHED)
    /\ find (fun r => GameRound.id r =? round_id) (game_rounds db')
       = Some (GameRound.set_finished_at game_round (Some now))
    /\ player_choices db' = player_choices db
    /\ votes db' = votes db
    /\ rr_round_id response = round_id
    /\ rr_round_number response = GameRound.round_number game_round.
Proof.
  intros Hround Hgame.
  destruct (aggregate_round_run env now round_id db game_round game Hround Hgame)
    as (db1 & fx1 & response & Hrun1 & Hgames1 & Hrounds1 & Hchoices1 & Hvotes1
        & _ & Hid & Hnumber & _).
  pose proof (find_game_id _ _ _ Hgame) as Hgid.
  assert (Hgame1 : find (fun g => Game.id g =? Game.id game) (games db1)
                   = Some (Game.set_status game GameStatus.ROUND_RESULTS)).
  { rewrite Hgames1. apply find_map_game. now rewrite Hgid. }
  destruct (schedule_next_round_run env now (Game.id game)
              (GameRound.round_number game_round) db1 _ Hgame1 eq_refl)
    as (db' & fx & game' & extra & Hrun & Hfound & Hphase & Hlast & Hrounds
        & Hchoices & Hvotes).
  unfold calculate_round_results. cbv [bind ret]. rewrite Hrun1.
  cbn beta iota zeta. rewrite Hrun.
  eexists _, _, _, game'. split; [reflexivity|].
  split; [now rewrite <- Hgid|]. split; [exact Hphase|]. split; [exact Hlast|].
  split.
  { rewrite Hrounds. apply find_in_prefix. rewrite Hrounds1.
    apply (find_map_round round_id
             (fun r => GameRound.set_finished_at r (Some now))); [reflexivity|].
    exact Hround. }
  repeat split; congruence.
Qed.

(** X10.  Whenever [calculate_round_results] returns a result, the round
    existed, the response carries its number, the round is marked finished
    at [now], and the game is afterwards either in [card_selection] (the
    next round was started) or [finished]; it is [finished] when the
    number of the round is 7 or more.  Choices and votes are unchanged. *)
Theorem round_results_advance_or_finish (env : Env) (now round_id : Z)
    (db db' : DB) (fx : list Effect) (response : RoundResultResponse) :
  calculate_round_results env now round_id db = (db', fx, Ok response) ->
  exists game_round game',
    find (fun r => GameRound.id r =? round_id) (game_rounds db) = Some game_round
    /\ rr_round_number response = GameRound.round_number game_round
    /\ find (fun g => Game.id g =? GameRound.game_id game_round) (games db')
       = Some game'
    /\ (Game.status game' = GameStatus.CARD_SELECTION
        \/ Game.status game' = GameStatus.FINISHED)
    /\ (7 <= GameRound.round_number game_round ->
        Game.status game' = GameStatus.FINISHED)
    /\ find (fun r => GameRound.id r =? round_id) (game_rounds db')
       = Some (GameRound.set_finished_at game_round (Some now))
    /\ player_choices db' = player_choices db
    /\ votes db' = votes db.
Proof.
  intros Hrun.
  destruct (find (fun r => GameRound.id r =? round_id) (game_rounds db))
    as [game_round|] eqn:Hround.
  2:{ exfalso. revert Hrun.
      cbv [calculate_round_results aggregate_round bind _get_round_or_404 get raise].
      rewrite Hround. discriminate. }
  destruct (find (fun g => Game.id g =? GameRound.game_id game_round) (games db))
    as [game|] eqn:Hgame.
  2:{ exfalso. revert Hrun.
      cbv [calculate_round_results aggregate_round bind _get_round_or_404
           _get_game_or_404 get raise ret].
      rewrite Hround. cbn beta iota zeta. rewrite Hgame. discriminate. }
  destruct (calculate_round_results_run env now round_id db game_round game
              Hround Hgame)
    as (db1 & fx1 & response1 & game' & Hrun1 & Hfound & Hphase & Hlast & Hfin
        & Hchoices & Hvotes & _ & Hnumber).
  rewrite Hrun1 in Hrun. injection Hrun as -> -> ->.
  exists game_round, game'. repeat split; assumption.
Qed.

(** The results of the first sample round are calculated at time 300: the
    game goes on with the next card selection. *)
Lemma round_results_advance_or_finish_witness :
  exists db' fx response game',
    calculate_round_results Sample.env 300 1 Sample.two_voted = (db', fx, Ok response)
    /\ find (fun g => Game.id g =? 1) (games db') = Some game'
    /\ Game.status game' = GameStatus.CARD_SELECTION.
Proof.
  eexists _, _, _, _. split; [reflexivity|].
  destruct (round_results_advance_or_finish Sample.env 300 1 Sample.two_voted
              _ _ _ eq_refl)
    as (game_round & game' & Hround & _ & Hfound & _).
  vm_compute in Hround. injection Hround as <-.
  vm_compute in Hfound. injection Hfound as <-.
  vm_compute. split; reflexivity.
Defined.

Lemma handle_missed_action_tables (db : DB) (now user_id room_id : Z) :
  exists ps,
    fst (PlayerManager.handle_missed_action db now user_id room_id)
    = set_room_participants db ps.
Proof.
  unfold PlayerManager.handle_missed_action.
  destruct (find _ _); cbn [fst]; [eexists; reflexivity|].
  exists (room_participants db). now destruct db.
Qed.

Lemma for_each_participants {A : Type} (l : list A) (body : A -> M unit) :
  (forall x db, exists ps, body x db = (set_room_participants db ps, [], Ok tt)) ->
  forall db, exists ps,
    for_each l body db = (set_room_participants db ps, [], Ok tt).
Proof.
  intros Hbody. induction l as [|x l IH]; intros db; cbn [for_each].
  - exists (room_participants db). unfold ret. now destruct db.
  - unfold bind. destruct (Hbody x db) as [ps1 H1]. rewrite H1.
    destruct (IH (set_room_participants db ps1)) as [ps2 H2]. rewrite H2.
    exists ps2. reflexivity.
Qed.

Lemma find_save_round (round_id : Z) (rs : list GameRound.t) (r r' : GameRound.t) :
  find (fun x => GameRound.id x =? round_id) rs = Some r ->
  GameRound.id r' = round_id ->
  find (fun x => GameRound.id x =? round_id)
       (map (fun x => if GameRound.id x =? GameRound.id r' then r' else x) rs)
  = Some r'.
Proof.
  intros Hfind Hid. rewrite Hid. revert Hfind.
  induction rs as [|x rs IH]; simpl; [discriminate|].
  destruct (GameRound.id x =? round_id) eqn:E.
  - intros _. now rewrite Hid, Z.eqb_refl.
  - rewrite E. exact IH.
Qed.

Ltac run_missed_actions_loop :=
  match goal with
  | |- context [for_each ?l ?body ?d] =>
      let Hbody := fresh "Hbody" in
      assert (Hbody : forall x db0, exists ps,
                 body x db0 = (set_room_participants db0 ps, [], Ok tt));
      [ intros x db0; cbv beta;
        destruct (negb _);
        [ match goal with
          | |- context [PlayerManager.handle_missed_action ?a ?b ?c ?e] =>
              let ps := fresh "ps" in
              let H := fresh "H" in
              destruct (handle_missed_action_tables a b c e) as [ps H];
              destruct (PlayerManager.handle_missed_action a b c e);
              cbn [fst] in H; subst; exists ps; reflexivity
          end
        | exists (room_participants db0); now destruct db0 ]
      | let ps := fresh "ps" in
        let Hloop := fresh "Hloop" in
        destruct (for_each_participants l body Hbody d) as [ps Hloop];
        rewrite Hloop; clear Hbody Hloop ]
  end.

(** X11.  When the selection timer of a round fires while its game is in
    [card_selection], and the round has a selection deadline, the handler
    returns normally.  With at least 3 choices in the round the game is in
    [voting] afterwards, and the voting timer is created unless a bus
    client is present and the round lacks a voting deadline; with fewer
    than 3 choices the game is [finished].  The handler stores no choice
    and adds no round and no vote. *)
Theorem live_selection_timer_outcome (env : Env) (now round_id : Z) (db : DB)
    (game_round : GameRound.t) (game : Game.t) :
  find (fun r => GameRound.id r =? round_id) (game_rounds db) = Some game_round ->
  find (fun g => Game.id g =? GameRound.game_id game_round) (games db) = Some game ->
  Game.status game = GameStatus.CARD_SELECTION ->
  GameRound.selection_deadline game_round <> None ->
  let choices :=
    filter (fun c => PlayerChoice.round_id c =? round_id) (player_choices db) in
  exists db' fx game',
    _handle_selection_timeout env now round_id db = (db', fx, Ok tt)
    /\ find (fun g => Game.id g =? GameRound.game_id game_round) (games db')
       = Some game'
    /\ ((3 <= length choices)%nat ->
        Game.status game' = GameStatus.VOTING
        /\ ((redis_client env = true ->
             GameRound.voting_deadline game_round <> None) ->
            tasks_of fx = [VotingTimeout round_id]))
    /\ ((length choices < 3)%nat -> Game.status game' = GameStatus.FINISHED)
    /\ player_choices db' = player_choices db
    /\ game_rounds db' = game_rounds db
    /\ votes db' = votes db.
Proof.
  intros Hround Hgame Hstatus Hdeadline choices. subst choices.
  pose proof (find_game_id _ _ _ Hgame) as Hgid.
  cbv [_handle_selection_timeout try_except bind _get_round_or_404
       _get_game_or_404 get raise ret lift start_voting raise_when save_game put
       publish_game_event emit].
  rewrite Hround. cbn beta iota zeta.
  destruct (GameRound.selection_deadline game_round) as [deadline|];
    [|contradiction].
  cbn beta iota zeta. rewrite Hgame. cbn beta iota zeta.
  rewrite Hstatus. cbn [GameStatus.eqb negb]. cbn beta iota zeta.
  run_missed_actions_loop.
  cbn [player_choices game_rounds games set_room_participants].
  destruct (Z.of_nat _ >=? 3) eqn:E.
  - rewrite Z.geb_leb, Z.leb_le in E. cbn beta iota zeta.
    cbn [player_choices game_rounds games set_room_participants].
    rewrite Hround. cbn beta iota zeta.
    cbn [player_choices game_rounds games set_room_participants].
    rewrite Hgame. cbn beta iota zeta.
    rewrite Hstatus. cbn [GameStatus.eqb negb]. cbn beta iota zeta.
    cbn [player_choices game_rounds games set_room_participants].
    destruct (Z.of_nat _ <? 3) eqn:E'; [apply Z.ltb_lt in E'; lia|].
    cbn beta iota zeta.
    cbn [player_choices game_rounds games set_room_participants].
    pose proof (find_save_game _ (games db) game
                  (Game.set_status game GameStatus.VOTING) Hgame Hgid) as Hfound.
    destruct (redis_client env); cbn beta iota zeta;
      [destruct (GameRound.voting_deadline game_round); cbn beta iota zeta|];
      (eexists _, _, _; split; [reflexivity|]);
      cbn [player_choices game_rounds games votes set_games set_room_participants];
      (split; [exact Hfound|]);
      (split; [intros _; split; [reflexivity|]
              |split; [intros H; lia | repeat split]]);
      intros H; try reflexivity.
    now specialize (H eq_refl).
  - rewrite Z.geb_leb, Z.leb_gt in E. cbn beta iota zeta.
    match goal with
    | |- context [end_game env now ?g ?d] =>
        destruct (end_game_run env now g d game Hgame)
          as (db' & fx & result & winner & Hrun & _ & Hfound & Hrounds & Hchoices
              & Hvotes & _)
    end.
    rewrite Hrun. eexists _, _, _. split; [reflexivity|].
    split; [exact Hfound|].
    split; [intros H; lia|]. split; [reflexivity|].
    split; [exact Hchoices|]. split; [exact Hrounds | exact Hvotes].
Qed.

(** The selection timer of the first sample round fires at its deadline,
    when all three players have chosen. *)
Lemma live_selection_timer_outcome_witness :
  exists db' fx game',
    _handle_selection_timeout Sample.env 500 1 Sample.all_chosen = (db', fx, Ok tt)
    /\ find (fun g => Game.id g =? 1) (games db') = Some game'
    /\ Game.status game' = GameStatus.VOTING
    /\ tasks_of fx = [VotingTimeout 1].
Proof.
  edestruct (live_selection_timer_outcome Sample.env 500 1 Sample.all_chosen)
    as (db' & fx & game' & Hrun & Hfound & Hvoting & _);
    [reflexivity | reflexivity | reflexivity | discriminate |].
  exists db', fx, game'. split; [exact Hrun|]. split; [exact Hfound|].
  destruct Hvoting as [Hstatus Htasks]; [vm_compute; lia|].
  split; [exact Hstatus|]. apply Htasks. discriminate.
Defined.

(** X12.  When the voting timer of a round fires while its game is in
    [voting], and the round has a voting deadline, the handler returns
    normally; the round is marked auto-advanced and finished at [now]; the
    game is afterwards in [card_selection] or [finished], and [finished]
    when the number of the round is 7 or more.  Choices and votes are
    unchanged: no vote is made up for the absent players. *)
Theorem live_voting_timer_outcome (env : Env) (now round_id : Z) (db : DB)
    (game_round : GameRound.t) (game : Game.t) :
  find (fun r => GameRound.id r =? round_id) (game_rounds db) = Some game_round ->
  find (fun g => Game.id g =? GameRound.game_id game_round) (games db) = Some game ->
  Game.status game = GameStatus.VOTING ->
  GameRound.voting_deadline game_round <> None ->
  exists db' fx game',
    _handle_voting_timeout env now round_id db = (db', fx, Ok tt)
    /\ find (fun g => Game.id g =? GameRound.game_id game_round) (games db')
       = Some game'
    /\ (Game.status game' = GameStatus.CARD_SELECTION
        \/ Game.status game' = GameStatus.FINISHED)
    /\ (7 <= GameRound.round_number game_round ->
        Game.status game' = GameStatus.FINISHED)
    /\ find (fun r => GameRound.id r =? round_id) (game_rounds db')
       = Some (GameRound.set_finished_at
                 (GameRound.set_auto_advanced game_round true) (Some now))
    /\ player_choices db' = player_choices db
    /\ votes db' = votes db.
Proof.
  intros Hround Hgame Hstatus Hdeadline.
  pose proof (find_round_id _ _ _ Hround) as Hrid.
  cbv [_handle_voting_timeout try_except bind _get_round_or_404
       _get_game_or_404 get raise ret lift save_round put
       _calculate_results_async].
  rewrite Hround. cbn beta iota zeta.
  destruct (GameRound.voting_deadline game_round) as [deadline|];
    [|contradiction].
  cbn beta iota zeta. rewrite Hgame. cbn beta iota zeta.
  rewrite Hstatus. cbn [GameStatus.eqb negb]. cbn beta iota zeta.
  run_missed_actions_loop.
  cbn [game_rounds set_room_participants].
  match goal with
  | |- context [calculate_round_results env now round_id ?d] =>
      destruct (calculate_round_results_run env now round_id d
                  (GameRound.set_auto_advanced game_round true) game)
        as (db' & fx & response & game' & Hrun & Hfound & Hphase & Hlast & Hfin
            & Hchoices & Hvotes & _)
  end.
  { cbn [game_rounds set_game_rounds].
    exact (find_save_round round_id (game_rounds db) game_round
             (GameRound.set_auto_advanced game_round true) Hround Hrid). }
  { exact Hgame. }
  rewrite Hrun. eexists _, _, game'. split; [reflexivity|].
  split; [exact Hfound|]. split; [exact Hphase|]. split; [exact Hlast|].
  split; [exact Hfin|]. split; [exact Hchoices | exact Hvotes].
Qed.

(** The voting timer of the first sample round fires at its deadline,
    after two of the three players have voted. *)
Lemma live_voting_timer_outcome_witness :
  exists db' fx game',
    _handle_voting_timeout Sample.env 680 1 Sample.two_voted = (db', fx, Ok tt)
    /\ find (fun g => Game.id g =? 1) (games db') = Some game'
    /\ Game.status game' = GameStatus.CARD_SELECTION.
Proof.
  edestruct (live_voting_timer_outcome Sample.env 680 1 Sample.two_voted)
    as (db' & fx & game' & Hrun & Hfound & _);
    [reflexivity | reflexivity | reflexivity | discriminate |].
  exists db', fx, game'. split; [exact Hrun|]. split; [exact Hfound|].
  revert Hrun Hfound. vm_compute. intros [= <- <-] [= <-]. reflexivity.
Defined.

Lemma Permutation_filter_compat {A : Type} (f : A -> bool) (l l' : list A) :
  Permutation l l' -> Permutation (filter f l) (filter f l').
Proof.
  induction 1 as [|x l l' _ IH|x y l|l l' l'' _ IH1 _ IH2]; simpl.
  - constructor.
  - destruct (f x); [now constructor | exact IH].
  - destruct (f x), (f y); try reflexivity. constructor.
  - now transitivity (filter f l').
Qed.

Lemma choices_joined_split (db : DB) (round_id user_id : Z) :
  filter (fun row : PlayerChoice.t * option string =>
            negb (PlayerChoice.user_id (fst row) =? user_id))
         (choices_joined db (fun c => PlayerChoice.round_id c =? round_id))
  = choices_joined db (fun c => (PlayerChoice.round_id c =? round_id)
                                && negb (PlayerChoice.user_id c =? user_id)).
Proof.
  unfold choices_joined.
  induction (player_choices db) as [|c cs IH]; [reflexivity|]. simpl.
  destruct (PlayerChoice.round_id c =? round_id); cbn [andb]; [|exact IH].
  simpl. rewrite filter_app, IH.
  destruct (negb (PlayerChoice.user_id c =? user_id)) eqn:E; simpl.
  - f_equal. induction (filter _ (users db)) as [|u us IHu]; [reflexivity|].
    simpl. rewrite E. now f_equal.
  - induction (filter _ (users db)) as [|u us IHu]; [reflexivity|].
    simpl. rewrite E. exact IHu.
Qed.

(** X13.  With an ordering that only permutes the rows:
    [get_choices_for_voting] raises a not-found error when the round does
    not exist, and otherwise returns, without changing anything, the
    responses of [get_all_choices_for_round] with the caller's own choices
    left out, up to order; none of them is a choice of the caller.  Every
    response of [get_all_choices_for_round] belongs to the round, comes
    from a stored choice and carries the number of votes on it. *)
Theorem choices_for_voting_exclude_own
    (by_submitted_at : list (PlayerChoice.t * option string)
                       -> list (PlayerChoice.t * option string))
    (round_id user_id : Z) (db : DB) :
  (forall rows, Permutation rows (by_submitted_at rows)) ->
  (find (fun r => GameRound.id r =? round_id) (game_rounds db) = None ->
   get_choices_for_voting by_submitted_at round_id user_id db
   = (db, [], Raise NotFoundError))
  /\ exists everyone,
       get_all_choices_for_round by_submitted_at round_id db = (db, [], Ok everyone)
       /\ Forall (fun r => pc_round_id r = round_id
                           /\ pc_vote_count r = count_votes_for db (pc_id r)
                           /\ exists c, In c (player_choices db)
                                        /\ PlayerChoice.id c = pc_id r
                                        /\ PlayerChoice.user_id c = pc_user_id r)
                everyone
       /\ (find (fun r => GameRound.id r =? round_id) (game_rounds db) <> None ->
           exists shown,
             get_choices_for_voting by_submitted_at round_id user_id db
             = (db, [], Ok shown)
             /\ Forall (fun r => pc_user_id r <> user_id) shown
             /\ Permutation shown
                  (filter (fun r => negb (pc_user_id r =? user_id)) everyone)).
Proof.
  intros Horder.
  split.
  { intros Hround. cbv [get_choices_for_voting bind _get_round_or_404 get raise].
    now rewrite Hround. }
  cbv [get_all_choices_for_round get_choices_for_voting bind _get_round_or_404
       get raise ret].
  eexists. split; [reflexivity|].
  set (cw := fun row : PlayerChoice.t * option string =>
               choice_with_votes db (fst row) (snd row)).
  assert (Hall : forall keep,
            Permutation (map cw (choices_joined db keep))
                        (map cw (by_submitted_at (choices_joined db keep)))).
  { intros keep. apply Permutation_map, Horder. }
  split.
  { eapply Permutation_Forall; [apply Hall|].
    apply Forall_forall. intros r Hr. apply in_map_iff in Hr as ([c nick] & <- & Hin).
    unfold choices_joined in Hin. apply in_flat_map in Hin as (c' & Hc' & Hin).
    apply in_map_iff in Hin as (u & [= <- <-] & _).
    apply filter_In in Hc' as [Hc' Hr]. apply Z.eqb_eq in Hr.
    cbn. split; [exact Hr|]. split; [reflexivity|]. now exists c'. }
  intros Hround.
  destruct (find _ (game_rounds db)) as [game_round|]; [|contradiction].
  cbn beta iota zeta. eexists. split; [reflexivity|].
  assert (Hshown : Permutation
            (map cw (by_submitted_at
               (choices_joined db
                  (fun c => (PlayerChoice.round_id c =? round_id)
                            && negb (PlayerChoice.user_id c =? user_id)))))
            (filter (fun r => negb (pc_user_id r =? user_id))
               (map cw (by_submitted_at
                  (choices_joined db (fun c => PlayerChoice.round_id c =? round_id)))))).
  { rewrite <- Hall.
    transitivity (filter (fun r => negb (pc_user_id r =? user_id))
                    (map cw (choices_joined db
                               (fun c => PlayerChoice.round_id c =? round_id)))).
    - rewrite <- choices_joined_split.
      induction (choices_joined db _) as [|row rows IH]; [reflexivity|].
      simpl. destruct (negb _); simpl; [now constructor | exact IH].
    - apply Permutation_filter_compat, Hall. }
  split; [|exact Hshown].
  eapply Permutation_Forall; [symmetry; exact Hshown|].
  apply Forall_forall. intros r Hr. apply filter_In in Hr as [_ Hr].
  apply negb_true_iff, Z.eqb_neq in Hr. exact Hr.
Qed.

(** Alice is shown the choices of Bob and Carol. *)
Lemma choices_for_voting_exclude_own_witness :
  exists shown,
    get_choices_for_voting (fun rows => rows) 1 1 Sample.all_chosen
    = (Sample.all_chosen, [], Ok shown)
    /\ map pc_user_id shown = [2; 3].
Proof.
  destruct (choices_for_voting_exclude_own (fun rows => rows) 1 1 Sample.all_chosen
              (fun rows => Permutation_refl rows))
    as (_ & everyone & _ & _ & Hshown).
  destruct Hshown as (shown & Hrun & _); [discriminate|].
  exists shown. split; [exact Hrun|].
  revert Hrun. vm_compute. intros [= <-]. reflexivity.
Defined.

Lemma random_sample_spec {A : Type} (draw : nat -> nat) (k : nat)
    (population : list A) :
  (k <= length population)%nat ->
  length (random_sample draw k population) = k
  /\ exists rest, Permutation (random_sample draw k population ++ rest) population.
Proof.
  revert population. induction k as [|k IH]; intros population Hk.
  - split; [reflexivity|]. exists population. reflexivity.
  - cbn [random_sample].
    set (i := Nat.modulo (draw k) (length population)).
    assert (Hi : (i < length population)%nat).
    { apply Nat.mod_upper_bound. lia. }
    destruct (nth_error population i) as [x|] eqn:Ex.
    2:{ apply nth_error_None in Ex. lia. }
    destruct (nth_error_split population i Ex) as (l1 & l2 & Hsplit & Hlen).
    assert (Hfirst : firstn i population = l1).
    { rewrite Hsplit, <- Hlen, firstn_app, Nat.sub_diag, firstn_all. simpl.
      apply app_nil_r. }
    assert (Hskip : skipn (S i) population = l2).
    { rewrite Hsplit, <- Hlen.
      replace (l1 ++ x :: l2) with ((l1 ++ [x]) ++ l2) by now rewrite <- app_assoc.
      replace (S (length l1)) with (length (l1 ++ [x]))
        by (rewrite length_app; simpl; lia).
      now rewrite skipn_app, skipn_all, Nat.sub_diag. }
    rewrite Hfirst, Hskip.
    destruct (IH (l1 ++ l2)) as [Hlength (rest & Hperm)].
    { rewrite Hsplit in Hk. rewrite length_app in Hk |- *. simpl in Hk. lia. }
    split; [simpl; now rewrite Hlength|].
    exists rest. rewrite Hsplit. simpl.
    now apply Permutation_cons_app.
Qed.

Lemma Ok_inj {A : Type} (a b : A) : Ok a = Ok b -> a = b.
Proof. now intros [=]. Qed.

(** X14.  [get_round_cards_for_user] changes nothing.  When it returns
    cards they are 3, taken from 3 different rows of the cards of the user,
    and the user is an active participant of the room of the round's game.
    A user with fewer than 3 cards gets an error. *)
Theorem round_cards_are_three_of_own (draw : nat -> nat) (round_id user_id : Z)
    (db : DB) :
  let own := filter (fun c => UserCard.user_id c =? user_id) (user_cards db) in
  exists res,
    get_round_cards_for_user draw round_id user_id db = (db, [], res)
    /\ (forall cards, res = Ok cards ->
          length cards = 3%nat
          /\ (exists selected rest,
                cards = map (fun card => mkRoundCard (UserCard.card_type card)
                                                     (UserCard.card_number card))
                            selected
                /\ Permutation (selected ++ rest) own)
          /\ exists game_round game,
               find (fun r => GameRound.id r =? round_id) (game_rounds db)
               = Some game_round
               /\ find (fun g => Game.id g =? GameRound.game_id game_round) (games db)
                  = Some game
               /\ existsb (is_active_participant (Game.room_id game) user_id)
                          (room_participants db) = true)
    /\ ((length own < 3)%nat -> exists e, res = Raise e).
Proof.
  intros own. subst own.
  cbv [get_round_cards_for_user bind _get_round_or_404 _get_game_or_404
       _validate_player_in_game get raise ret raise_when].
  destruct (find _ (game_rounds db)) as [game_round|] eqn:Hround; cbn beta iota zeta.
  2:{ eexists. split; [reflexivity|]. split; [intros ? [=] | eauto]. }
  destruct (find _ (games db)) as [game|] eqn:Hgame; cbn beta iota zeta.
  2:{ eexists. split; [reflexivity|]. split; [intros ? [=] | eauto]. }
  destruct (existsb _ (room_participants db)) eqn:Eactive; cbn [negb];
    cbn beta iota zeta.
  2:{ eexists. split; [reflexivity|]. split; [intros ? [=] | eauto]. }
  destruct (Z.of_nat _ <? 3) eqn:E; cbv beta iota zeta.
  { eexists. split; [reflexivity|]. split; [intros ? [=] | eauto]. }
  apply Z.ltb_ge in E.
  eexists. split; [reflexivity|]. split; [|intros H; lia].
  intros cards Hcards. apply Ok_inj in Hcards. subst cards.
  match goal with
  | |- context [random_sample draw 3 ?population] =>
      destruct (random_sample_spec draw 3 population) as [Hlength (rest & Hperm)];
      [lia|]
  end.
  split; [now rewrite length_map|].
  split; [eexists _, rest; split; [reflexivity | exact Hperm]|].
  exists game_round, game. split; [reflexivity|]. split; [exact Hgame | exact Eactive].
Qed.

Lemma in_available_standard (env : Env) (db : DB) (user_id n : Z) :
  In n (get_available_standard_cards_for_user env db user_id) ->
  ~ In (user_id, "standard"%string, n)
       (map (fun c => (UserCard.user_id c, UserCard.card_type c,
                       UserCard.card_number c))
            (user_cards db)).
Proof.
  intros Hin Hown. apply available_standard_cards_spec in Hin as [_ Hnot].
  apply Hnot. apply in_map_iff in Hown as (c & [= H1 H2 H3] & Hc).
  exists c. repeat split; assumption.
Qed.

(** X15.  [_award_winner_card_async] always returns normally, publishes
    nothing and changes the user cards only.  It appends at most one card,
    and none exactly when no standard card of the catalogue is left that
    the user does not own; an appended card is such a standard card, for
    that user.  Unique card ids stay unique, and if no user had the same
    card twice before, none has afterwards. *)
Theorem award_winner_card_keeps_cards_distinct (env : Env) (now user_id : Z)
    (db : DB) :
  exists db',
    _award_winner_card_async env now user_id db = (db', [], Ok tt)
    /\ db' = set_user_cards db (user_cards db')
    /\ (exists extra,
          user_cards db' = user_cards db ++ extra
          /\ (length extra <= 1)%nat
          /\ (extra = [] <-> get_available_standard_cards_for_user env db user_id = [])
          /\ Forall (fun c => UserCard.user_id c = user_id
                              /\ UserCard.card_type c = "standard"%string
                              /\ In (UserCard.card_number c)
                                    (get_available_standard_cards_for_user
                                       env db user_id))
                    extra)
    /\ (NoDup (map UserCard.id (user_cards db)) ->
        NoDup (map UserCard.id (user_cards db')))
    /\ (NoDup (map (fun c => (UserCard.user_id c, UserCard.card_type c,
                              UserCard.card_number c))
                   (user_cards db)) ->
        NoDup (map (fun c => (UserCard.user_id c, UserCard.card_type c,
                              UserCard.card_number c))
                   (user_cards db'))).
Proof.
  destruct (award_winner_card_run env now user_id db) as (db' & Hrun & Hres).
  exists db'. split; [exact Hrun|].
  destruct (get_available_standard_cards_for_user env db user_id) as [|m ms] eqn:Eav.
  - subst db'. split; [now destruct db|].
    split; [exists []; rewrite app_nil_r; repeat split; auto|].
    split; trivial.
  - destruct Hres as (n & Hin & ->).
    cbn [user_cards set_user_cards].
    split; [reflexivity|].
    split.
    { eexists. split; [reflexivity|]. split; [simpl; lia|].
      split; [split; discriminate|].
      constructor; [|constructor]. cbn. repeat split. exact Hin. }
    split; intros Hnd; rewrite map_app;
      apply (Permutation_NoDup (Permutation_cons_append _ _));
      (constructor; [|exact Hnd]); cbn.
    + apply next_id_fresh.
    + apply (in_available_standard env). now rewrite Eav.
Qed.

End GameFlow.

(** ** Rooms *)

Section Rooms.
Import RoomService.

Lemma find_room_id (room_id : Z) (rs : list Room.t) (r : Room.t) :
  find (fun x => Room.id x =? room_id) rs = Some r -> Room.id r = room_id.
Proof. intros H. apply find_some in H as [_ H]. now apply Z.eqb_eq. Qed.

Lemma find_save_room (room_id : Z) (rs : list Room.t) (r r' : Room.t) :
  find (fun x => Room.id x =? room_id) rs = Some r ->
  Room.id r' = room_id ->
  find (fun x => Room.id x =? room_id)
       (map (fun x => if Room.id x =? Room.id r' then r' else x) rs) = Some r'.
Proof.
  intros Hfind Hid. rewrite Hid. revert Hfind.
  induction rs as [|x rs IH]; simpl; [discriminate|].
  destruct (Room.id x =? room_id) eqn:E.
  - intros _. now rewrite Hid, Z.eqb_refl.
  - rewrite E. exact IH.
Qed.

(** X16.  For an existing room [get_room_details] changes nothing, and
    returns the details if and only if the room is public, or the caller is
    given, is not user 0 and is an active participant of the room;
    otherwise it raises a permission error.  The details carry the id,
    status and code of the room and the number of its active players, and
    [can_start_game] is set exactly when these are at least 3 and the room
    is waiting. *)
Theorem room_details_privacy (room_id : Z) (user_id : option Z) (db : DB)
    (room : Room.t) :
  find (fun r => Room.id r =? room_id) (rooms db) = Some room ->
  exists res,
    get_room_details room_id user_id db = (db, [], res)
    /\ ((exists details, res = Ok details)
        <-> Room.is_public room = true
            \/ exists u, user_id = Some u /\ u <> 0
                         /\ existsb (GameService.is_active_participant room_id u)
                                    (room_participants db) = true)
    /\ (forall e, res = Raise e -> e = PermissionError)
    /\ (forall details, res = Ok details ->
          rd_id details = Room.id room
          /\ rd_status details = Room.status room
          /\ rd_room_code details = Room.room_code room
          /\ rd_current_players details
             = Z.of_nat (length (PlayerManager.get_active_players db room_id))
          /\ (rd_can_start_game details = true
              <-> 3 <= rd_current_players details
                  /\ Room.status room = RoomStatus.WAITING)).
Proof.
  intros Hroom.
  cbv [get_room_details bind _get_room_or_404 get raise ret raise_when].
  rewrite Hroom. cbn beta iota zeta.
  assert (Hdetails : forall n : Z,
            (n >=? 3) && RoomStatus.eqb (Room.status room) RoomStatus.WAITING = true
            <-> 3 <= n /\ Room.status room = RoomStatus.WAITING).
  { intros n. rewrite andb_true_iff, Z.geb_le, room_status_eqb_WAITING. tauto. }
  destruct (Room.is_public room) eqn:Epublic; cbn [negb andb].
  - eexists. split; [reflexivity|].
    split; [split; [auto | intros _; eexists; reflexivity]|].
    split; [intros ? [=]|]. intros details [= <-]. cbn.
    do 4 (split; [reflexivity|]). apply Hdetails.
  - destruct user_id as [u|]; cbn [truthy negb].
    + destruct (u =? 0) eqn:Ezero; cbn [negb].
      * apply Z.eqb_eq in Ezero. eexists. split; [reflexivity|].
        split; [split; [intros [? [=]]
                       |intros [[=]|(u' & [= <-] & Hu & _)]; contradiction]|].
        split; [now intros ? [= <-] | intros ? [=]].
      * apply Z.eqb_neq in Ezero.
        destruct (existsb _ (room_participants db)) eqn:Eactive; cbn [negb].
        -- eexists. split; [reflexivity|].
           split; [split; [intros _; right; now exists u
                          |intros _; eexists; reflexivity]|].
           split; [intros ? [=]|]. intros details [= <-]. cbn.
           do 4 (split; [reflexivity|]). apply Hdetails.
        -- eexists. split; [reflexivity|].
           split; [split; [intros [? [=]]
                          |intros [[=]|(u' & [= <-] & _ & Hu)]; congruence]|].
           split; [now intros ? [= <-] | intros ? [=]].
    + eexists. split; [reflexivity|].
      split; [split; [intros [? [=]] | intros [[=]|(u' & [=] & _)]]|].
      split; [now intros ? [= <-] | intros ? [=]].
Qed.

(** Dave, who is not in the sample room, reads its details; the room is
    public. *)
Lemma room_details_privacy_witness :
  exists details,
    get_room_details 1 (Some 4) Sample.lobby = (Sample.lobby, [], Ok details)
    /\ rd_current_players details = 3
    /\ rd_can_start_game details = true.
Proof.
  destruct (room_details_privacy 1 (Some 4) Sample.lobby _ eq_refl)
    as (res & Hrun & _ & _ & Hok).
  revert Hrun Hok. vm_compute. intros [= <-] Hok.
  eexists. split; [reflexivity|]. split; reflexivity.
Defined.

Lemma is_active_participant_in (room_id user_id : Z) (p : RoomParticipant.t) :
  GameService.is_active_participant room_id user_id p = true ->
  is_active_in room_id p = true.
Proof.
  unfold GameService.is_active_participant, is_active_in.
  rewrite !andb_true_iff. tauto.
Qed.

Lemma count_after_leaving (room_id any_room : Z) (l : list RoomParticipant.t)
    (p : RoomParticipant.t) :
  NoDup (map RoomParticipant.id l) ->
  In p l ->
  is_active_in room_id p = true ->
  Z.of_nat (length (filter (is_active_in any_room)
                           (PlayerManager.update_by_id (RoomParticipant.id p)
                                                       set_left l)))
  = Z.of_nat (length (filter (is_active_in any_room) l))
    - (if any_room =? room_id then 1 else 0).
Proof.
  intros Hnd Hin Hactive.
  assert (Hp : is_active_in any_room p = (any_room =? room_id)).
  { unfold is_active_in in *. apply andb_true_iff in Hactive as [Hr Hs].
    apply Z.eqb_eq in Hr. rewrite Hs, andb_true_r, Hr. apply Z.eqb_sym. }
  assert (Hleft : forall q, is_active_in any_room (set_left q) = false).
  { intros q. unfold is_active_in. cbn. apply andb_false_r. }
  unfold PlayerManager.update_by_id.
  induction l as [|x l IH]; [destruct Hin|].
  inversion Hnd as [|? ? Hnotin Hnd']; subst.
  cbn [map filter].
  destruct Hin as [->|Hin].
  - rewrite Z.eqb_refl, Hleft, Hp.
    assert (Hrest : map (fun q => if RoomParticipant.id q =? RoomParticipant.id p
                                  then set_left q else q) l = l).
    { rewrite <- (map_id l) at 2. apply map_ext_in. intros q Hq.
      destruct (RoomParticipant.id q =? RoomParticipant.id p) eqn:E; [|reflexivity].
      apply Z.eqb_eq in E. exfalso. apply Hnotin. rewrite <- E. now apply in_map. }
    rewrite Hrest.
    destruct (any_room =? room_id); cbn [length]; lia.
  - destruct (RoomParticipant.id x =? RoomParticipant.id p) eqn:E.
    + apply Z.eqb_eq in E. exfalso. apply Hnotin. rewrite E. now apply in_map.
    + specialize (IH Hnd' Hin).
      destruct (is_active_in any_room x); cbn [length]; lia.
Qed.

(** X17.  For an existing room, with participant ids a primary key:
    [leave_room] raises a validation error and changes nothing when the
    user is not an active participant of the room.  Otherwise it succeeds
    and exactly one active participation of the room ends: the active count
    of the room goes down by one, the other rooms keep theirs, and the rows
    stay in place.  The room is cancelled exactly when the leaver is its
    creator and the room was waiting; otherwise the rooms are unchanged.
    The games are unchanged. *)
Theorem leave_room_outcomes (room_id user_id : Z) (db : DB) (room : Room.t) :
  find (fun r => Room.id r =? room_id) (rooms db) = Some room ->
  NoDup (map RoomParticipant.id (room_participants db)) ->
  exists db' res,
    leave_room room_id user_id db = (db', [], res)
    /\ (existsb (GameService.is_active_participant room_id user_id)
                (room_participants db) = false ->
        db' = db /\ res = Raise ValidationError)
    /\ (existsb (GameService.is_active_participant room_id user_id)
                (room_participants db) = true ->
        exists result,
          res = Ok result
          /\ lv_success result = true
          /\ lv_room_cancelled result
             = (Room.creator_id room =? user_id)
               && RoomStatus.eqb (Room.status room) RoomStatus.WAITING
          /\ _get_active_players_count db' room_id
             = _get_active_players_count db room_id - 1
          /\ (forall other, other <> room_id ->
                _get_active_players_count db' other
                = _get_active_players_count db other)
          /\ map RoomParticipant.id (room_participants db')
             = map RoomParticipant.id (room_participants db)
          /\ (lv_room_cancelled result = true ->
              find (fun r => Room.id r =? room_id) (rooms db')
              = Some (Room.set_status room RoomStatus.CANCELLED))
          /\ (lv_room_cancelled result = false -> rooms db' = rooms db)
          /\ games db' = games db).
Proof.
  intros Hroom Hpk.
  pose proof (find_room_id _ _ _ Hroom) as Hrid.
  cbv [leave_room bind _get_room_or_404 get raise ret put GameService.save_room].
  rewrite Hroom. cbn beta iota zeta.
  destruct (find _ (room_participants db)) as [participant|] eqn:Hfind.
  2:{ eexists _, _. split; [reflexivity|]. split; [auto|].
      intros Hactive. apply existsb_exists in Hactive as (p & Hin & Hp).
      now rewrite (find_none _ _ Hfind p Hin) in Hp. }
  apply find_some in Hfind as [Hin Hmember].
  pose proof (is_active_participant_in _ _ _ Hmember) as Hactive.
  assert (Hexists : existsb (GameService.is_active_participant room_id user_id)
                            (room_participants db) = true).
  { apply existsb_exists. now exists participant. }
  assert (Hcount : forall any_room,
            _get_active_players_count
              (set_room_participants db
                 (PlayerManager.update_by_id (RoomParticipant.id participant)
                                             set_left (room_participants db)))
              any_room
            = _get_active_players_count db any_room
              - (if any_room =? room_id then 1 else 0)).
  { intros any_room. unfold _get_active_players_count.
    cbn [room_participants set_room_participants].
    exact (count_after_leaving room_id any_room _ participant Hpk Hin Hactive). }
  assert (Hids : map RoomParticipant.id
                   (PlayerManager.update_by_id (RoomParticipant.id participant)
                                               set_left (room_participants db))
                 = map RoomParticipant.id (room_participants db)).
  { unfold PlayerManager.update_by_id. rewrite map_map. apply map_ext.
    intros q. now destruct (_ =? _). }
  assert (Hsame : _get_active_players_count db room_id
                  - (if room_id =? room_id then 1 else 0)
                  = _get_active_players_count db room_id - 1)
    by now rewrite Z.eqb_refl.
  assert (Hother : forall other, other <> room_id ->
            _get_active_players_count db other
            - (if other =? room_id then 1 else 0)
            = _get_active_players_count db other).
  { intros other Hne. apply Z.eqb_neq in Hne. rewrite Hne. lia. }
  destruct ((Room.creator_id room =? user_id)
            && RoomStatus.eqb (Room.status room) RoomStatus.WAITING) eqn:Ecancel;
    cbn beta iota zeta;
    (eexists _, _; split; [reflexivity|]);
    (split; [intros Hnone; congruence|]);
    intros _; eexists; (split; [reflexivity|]);
    cbn [lv_success lv_room_cancelled];
    (split; [reflexivity|]); (split; [reflexivity|]);
    (split; [unfold _get_active_players_count in *;
             cbn [room_participants set_rooms set_room_participants] in *;
             rewrite Hcount; exact Hsame|]);
    (split; [intros other Hne; unfold _get_active_players_count in *;
             cbn [room_participants set_rooms set_room_participants] in *;
             rewrite Hcount; exact (Hother other Hne)|]);
    cbn [rooms games room_participants set_rooms set_room_participants];
    (split; [exact Hids|]).
  - split; [intros _|split; [discriminate | reflexivity]].
    exact (find_save_room room_id (rooms db) room
             (Room.set_status room RoomStatus.CANCELLED) Hroom Hrid).
  - split; [discriminate|]. split; reflexivity.
Qed.

(** Bob leaves the sample room, which Alice created. *)
Lemma leave_room_outcomes_witness :
  exists db' result,
    leave_room 1 2 Sample.lobby = (db', [], Ok result)
    /\ lv_room_cancelled result = false
    /\ _get_active_players_count db' 1 = 2.
Proof.
  assert (Hpk : NoDup (map RoomParticipant.id (room_participants Sample.lobby))).
  { simpl. repeat constructor; simpl; intuition discriminate. }
  destruct (leave_room_outcomes 1 2 Sample.lobby _ eq_refl Hpk)
    as (db' & res & Hrun & _ & Hok).
  destruct (Hok eq_refl) as (result & -> & _ & Hcancel & Hcount & _).
  exists db', result. split; [exact Hrun|]. split; [exact Hcancel | exact Hcount].
Defined.

(** X18.  For an existing room: [start_game] succeeds if and only if the
    caller is the creator, the room is waiting and it has at least 3 active
    participants.  Anyone but the creator gets a permission error, and
    every failure leaves the database unchanged.  On success a game for the
    room is appended with a fresh id, in [starting] and with current round
    1; the room is [playing]; the participants are unchanged; and starting
    again fails with a validation error and changes nothing. *)
Theorem start_game_accepts_iff (now room_id user_id : Z) (db : DB) (room : Room.t) :
  find (fun r => Room.id r =? room_id) (rooms db) = Some room ->
  exists db' res,
    start_game now room_id user_id db = (db', [], res)
    /\ ((exists started, res = Ok started)
        <-> Room.creator_id room = user_id
            /\ Room.status room = RoomStatus.WAITING
            /\ 3 <= _get_active_players_count db room_id)
    /\ (Room.creator_id room <> user_id -> res = Raise PermissionError)
    /\ (forall e, res = Raise e ->
          db' = db /\ (e = PermissionError \/ e = ValidationError))
    /\ (forall started, res = Ok started ->
          sg_players_count started = _get_active_players_count db room_id
          /\ ~ In (sg_game_id started) (map Game.id (games db))
          /\ games db'
             = games db ++ [Game.mk (sg_game_id started) room_id GameStatus.STARTING
                                    1 None now None]
          /\ find (fun r => Room.id r =? room_id) (rooms db')
             = Some (Room.set_status room RoomStatus.PLAYING)
          /\ room_participants db' = room_participants db
          /\ forall later,
               start_game later room_id user_id db'
               = (db', [], Raise ValidationError)).
Proof.
  intros Hroom.
  pose proof (find_room_id _ _ _ Hroom) as Hrid.
  pose proof (find_save_room room_id (rooms db) room
                (Room.set_status room RoomStatus.PLAYING) Hroom Hrid) as Hsaved.
  cbv [start_game bind _get_room_or_404 get raise ret raise_when put
       GameService.save_room].
  rewrite Hroom. cbn beta iota zeta.
  destruct (Room.creator_id room =? user_id) eqn:E1; cbn [negb].
  2:{ apply Z.eqb_neq in E1. eexists _, _. split; [reflexivity|].
      split; [split; [intros [? [=]] | tauto]|].
      split; [reflexivity|]. split; [intros e [= <-]; auto | intros ? [=]]. }
  apply Z.eqb_eq in E1.
  destruct (RoomStatus.eqb (Room.status room) RoomStatus.WAITING) eqn:E2; cbn [negb].
  2:{ eexists _, _. split; [reflexivity|].
      split; [split; [intros [? [=]]
                     |intros (_ & H & _); apply room_status_eqb_WAITING in H;
                      congruence]|].
      split; [contradiction|]. split; [intros e [= <-]; auto | intros ? [=]]. }
  apply room_status_eqb_WAITING in E2.
  destruct (_get_active_players_count db room_id <? 3) eqn:E3.
  { apply Z.ltb_lt in E3. eexists _, _. split; [reflexivity|].
    split; [split; [intros [? [=]] | lia]|].
    split; [contradiction|]. split; [intros e [= <-]; auto | intros ? [=]]. }
  apply Z.ltb_ge in E3.
  cbn beta iota zeta. eexists _, _. split; [reflexivity|].
  split; [split; [auto | intros _; eexists; reflexivity]|].
  split; [contradiction|]. split; [intros ? [=]|].
  intros started [= <-].
  cbn [sg_players_count sg_game_id games rooms room_participants
       set_games set_rooms Game.id].
  split; [reflexivity|]. split; [apply next_id_fresh|].
  split; [reflexivity|]. split; [exact Hsaved|]. split; [reflexivity|].
  intros later.
  cbn [rooms set_games set_rooms]. rewrite Hsaved. cbn beta iota zeta.
  cbn [Room.creator_id Room.status Room.set_status].
  rewrite E1, Z.eqb_refl. reflexivity.
Qed.

(** Alice starts the game in the sample room. *)
Lemma start_game_accepts_iff_witness :
  exists db' started,
    start_game 100 1 1 Sample.lobby = (db', [], Ok started)
    /\ sg_game_id started = 1
    /\ start_game 101 1 1 db' = (db', [], Raise ValidationError).
Proof.
  destruct (start_game_accepts_iff 100 1 1 Sample.lobby _ eq_refl)
    as (db' & res & Hrun & Hiff & _ & _ & Hok).
  destruct (proj2 Hiff) as [started ->].
  { vm_compute. repeat split; discriminate. }
  exists db', started. split; [exact Hrun|].
  destruct (Hok started eq_refl) as (_ & _ & _ & _ & _ & Hagain).
  split; [|apply Hagain].
  revert Hrun. vm_compute. now intros [= _ <-].
Defined.

Lemma new_participant_is_active (db : DB) (now room_id user_id : Z) :
  GameService.is_active_participant room_id user_id
    (new_participant db now room_id user_id) = true.
Proof.
  unfold GameService.is_active_participant, new_participant. cbn.
  now rewrite !Z.eqb_refl.
Qed.

(** X19.  For a user, not user 0, with a complete profile, and a code
    that finds a waiting room which is also the room its id finds:
    [join_room_by_code] succeeds if and only if the user is not already
    active in the room and a seat is free, whether the room is public or
    private.  A failure is a validation error and changes nothing; on
    success one participation is appended and the details of that room are
    returned.  If the room is private, [join_room] on the same room raises
    a permission error: the code is the only way in. *)
Theorem join_by_code_opens_private_room (now : Z) (room_code : string)
    (user_id : Z) (db : DB) (user : User.t) (room : Room.t) :
  find (fun u => User.id u =? user_id) (users db) = Some user ->
  User.is_profile_complete user = true ->
  find (fun r => has_code (upper room_code) r
                 && RoomStatus.eqb (Room.status r) RoomStatus.WAITING)
       (rooms db) = Some room ->
  find (fun r => Room.id r =? Room.id room) (rooms db) = Some room ->
  user_id <> 0 ->
  exists db' res,
    join_room_by_code now room_code user_id db = (db', [], res)
    /\ ((exists details, res = Ok details)
        <-> existsb (GameService.is_active_participant (Room.id room) user_id)
                    (room_participants db) = false
            /\ _get_active_players_count db (Room.id room) < Room.max_players room)
    /\ (forall e, res = Raise e -> e = ValidationError /\ db' = db)
    /\ (forall details, res = Ok details ->
          room_participants db'
          = room_participants db ++ [new_participant db now (Room.id room) user_id]
          /\ rd_id details = Room.id room
          /\ rd_is_public details = Room.is_public room
          /\ rd_room_code details = Room.room_code room)
    /\ (Room.is_public room = false ->
        join_room now (Room.id room) user_id db = (db, [], Raise PermissionError)).
Proof.
  intros Huser Hcomplete Hcode Hid Hnonzero.
  assert (Hgate : Room.is_public room = false ->
                  join_room now (Room.id room) user_id db
                  = (db, [], Raise PermissionError)).
  { intros Hprivate.
    cbv [join_room bind require_complete_profile _get_room_or_404 get raise ret
         raise_when].
    rewrite Huser. cbn beta iota zeta. rewrite Hcomplete. cbn [negb].
    cbn beta iota zeta. rewrite Hid. cbn beta iota zeta.
    now rewrite Hprivate. }
  pose proof (find_some _ _ Hcode) as [_ Hwaiting].
  apply andb_true_iff in Hwaiting as [_ Hwaiting].
  cbv [join_room_by_code bind require_complete_profile get raise ret raise_when].
  rewrite Huser. cbn beta iota zeta. rewrite Hcomplete. cbn [negb].
  cbn beta iota zeta. rewrite Hcode.
  cbv [_join_room_internal bind _get_room_or_404 get raise ret raise_when put].
  rewrite Hid. cbn beta iota zeta. rewrite Hwaiting. cbn [negb].
  cbn beta iota zeta.
  destruct (existsb _ (room_participants db)) eqn:Eactive.
  { eexists _, _. split; [reflexivity|].
    split; [split; [intros [? [=]] | intros [[=] _]]|].
    split; [intros e [= <-]; auto | split; [intros ? [=] | exact Hgate]]. }
  destruct (_get_active_players_count db (Room.id room) >=? Room.max_players room)
    eqn:Efull.
  { rewrite Z.geb_le in Efull. eexists _, _. split; [reflexivity|].
    split; [split; [intros [? [=]] | lia]|].
    split; [intros e [= <-]; auto | split; [intros ? [=] | exact Hgate]]. }
  rewrite Z.geb_leb, Z.leb_gt in Efull.
  cbn beta iota zeta.
  cbv [get_room_details bind _get_room_or_404 get raise ret raise_when].
  cbn [rooms room_participants set_room_participants].
  rewrite Hid. cbn beta iota zeta.
  assert (Htruthy : truthy (Some user_id) = true).
  { cbn. apply Z.eqb_neq in Hnonzero. now rewrite Hnonzero. }
  rewrite Htruthy.
  destruct (Room.is_public room); cbn [negb andb]; cbn beta iota zeta;
    cbn [rooms room_participants set_room_participants];
    rewrite ?existsb_app; cbn [existsb];
    rewrite ?new_participant_is_active, ?orb_true_r; cbn [negb andb];
    cbn beta iota zeta;
    (eexists _, _; split; [reflexivity|]);
    (split; [split; [intros _; split; [reflexivity | exact Efull]
                    |intros _; eexists; reflexivity]|]);
    (split; [intros ? [=]|]);
    (split; [intros details [= <-]; repeat split | exact Hgate]).
Qed.

(** Dave enters the private sample room with its code, in lowercase; the
    public way in is closed to him. *)
Lemma join_by_code_opens_private_room_witness :
  exists db' details,
    join_room_by_code 5 "abc123" 4 Sample.private_lobby = (db', [], Ok details)
    /\ rd_is_public details = false
    /\ join_room 5 1 4 Sample.private_lobby
       = (Sample.private_lobby, [], Raise PermissionError).
Proof.
  destruct (join_by_code_opens_private_room 5 "abc123" 4 Sample.private_lobby
              _ _ eq_refl eq_refl eq_refl eq_refl)
    as (db' & res & Hrun & Hiff & _ & Hok & Hgate); [discriminate|].
  destruct (proj2 Hiff) as [details ->]; [vm_compute; split; reflexivity|].
  exists db', details. split; [exact Hrun|].
  split; [exact (proj1 (proj2 (proj2 (Hok details eq_refl)))) | exact (Hgate eq_refl)].
Defined.

Lemma unique_code_from_spec (draws : nat -> nat -> nat) (db : DB)
    (attempt remaining : nat) :
  match unique_code_from draws db attempt remaining with
  | Some code =>
      exists k, (k < remaining)%nat
                /\ code = generate_room_code (draws (attempt + k)%nat)
                /\ existsb (has_code code) (rooms db) = false
                /\ forall j, (j < k)%nat ->
                     existsb (has_code (generate_room_code
                                          (draws (attempt + j)%nat)))
                             (rooms db) = true
  | None =>
      forall j, (j < remaining)%nat ->
        existsb (has_code (generate_room_code (draws (attempt + j)%nat)))
                (rooms db) = true
  end.
Proof.
  revert attempt. induction remaining as [|remaining IH]; intros attempt;
    cbn [unique_code_from]; [intros j Hj; lia|].
  destruct (existsb (has_code (generate_room_code (draws attempt))) (rooms db))
    eqn:Etaken.
  - specialize (IH (S attempt)).
    destruct (unique_code_from draws db (S attempt) remaining) as [code|].
    + destruct IH as (k & Hk & Hcode & Hfree & Hbefore).
      exists (S k). split; [lia|].
      replace (attempt + S k)%nat with (S attempt + k)%nat by lia.
      split; [exact Hcode|]. split; [exact Hfree|].
      intros [|j] Hj; [now rewrite Nat.add_0_r|].
      replace (attempt + S j)%nat with (S attempt + j)%nat by lia.
      apply Hbefore. lia.
    + intros [|j] Hj; [now rewrite Nat.add_0_r|].
      replace (attempt + S j)%nat with (S attempt + j)%nat by lia.
      apply IH. lia.
  - exists 0%nat. split; [lia|]. rewrite Nat.add_0_r.
    split; [reflexivity|]. split; [exact Etaken|]. intros j Hj. lia.
Qed.

(** X20.  [_generate_unique_room_code] changes nothing.  A code it returns
    is carried by no room, has 6 characters, all uppercase letters or
    digits, and is the code of the first attempt whose code was free.  It
    raises, a validation error, if and only if the codes of all
    [max_attempts] attempts are taken. *)
Theorem unique_room_code_is_fresh (draws : nat -> nat -> nat)
    (max_attempts : nat) (db : DB) :
  let taken attempt :=
    existsb (has_code (generate_room_code (draws attempt))) (rooms db) = true in
  exists res,
    _generate_unique_room_code draws max_attempts db = (db, [], res)
    /\ (forall code, res = Ok code ->
          existsb (has_code code) (rooms db) = false
          /\ code_chars code = true
          /\ String.length code = 6%nat
          /\ exists attempt, (attempt < max_attempts)%nat
                             /\ code = generate_room_code (draws attempt)
                             /\ forall earlier, (earlier < attempt)%nat ->
                                                taken earlier)
    /\ (forall e, res = Raise e -> e = ValidationError)
    /\ ((exists e, res = Raise e)
        <-> forall attempt, (attempt < max_attempts)%nat -> taken attempt).
Proof.
  intros taken. subst taken.
  cbv [_generate_unique_room_code bind get ret raise].
  pose proof (unique_code_from_spec draws db 0 max_attempts) as Hspec.
  destruct (unique_code_from draws db 0 max_attempts) as [code|].
  - destruct Hspec as (k & Hk & Hcode & Hfree & Hbefore). cbn [Nat.add] in *.
    eexists. split; [reflexivity|].
    split.
    { intros ? [= <-]. split; [exact Hfree|].
      rewrite Hcode. destruct (generate_room_code_chars (draws k)) as [Hchars Hlen].
      split; [exact Hchars|]. split; [exact Hlen|].
      exists k. split; [exact Hk|]. split; [reflexivity | exact Hbefore]. }
    split; [intros ? [=]|].
    split; [intros [? [=]]|].
    intros Hall. specialize (Hall k Hk). rewrite <- Hcode in Hall. congruence.
  - cbn [Nat.add] in Hspec. eexists. split; [reflexivity|].
    split; [intros ? [=]|]. split; [now intros ? [= <-]|].
    split; [intros _; exact Hspec | intros _; eexists; reflexivity].
Qed.

Lemma generated_code_spec (draws : nat -> nat -> nat) (db : DB) (code : string) :
  unique_code_from draws db 0 10 = Some code ->
  code_chars code = true
  /\ String.length code = 6%nat
  /\ existsb (has_code code) (rooms db) = false.
Proof.
  intros H. pose proof (unique_code_from_spec draws db 0 10) as Hspec.
  rewrite H in Hspec. destruct Hspec as (k & _ & Hcode & Hfree & _).
  rewrite Hcode at 1 2.
  destruct (generate_room_code_chars (draws (0 + k)%nat)) as [Hchars Hlen].
  repeat split; assumption.
Qed.

Lemma creator_has_open_room (creator_id max_players now : Z)
    (room_code : option string) (is_public : bool) (age_group : option string)
    (rs : list Room.t) :
  existsb (has_open_room creator_id)
          (rs ++ [Room.mk (next_id (map Room.id rs)) creator_id max_players
                          RoomStatus.WAITING room_code is_public age_group now])
  = true.
Proof.
  rewrite existsb_app. cbn [existsb]. unfold has_open_room at 2. cbn.
  now rewrite Z.eqb_refl, !orb_true_r.
Qed.

(** X21.  Whenever [create_room] succeeds: one room is appended, with a
    fresh id, the caller as its creator, waiting, with the requested
    capacity and visibility; the creator is appended as a participant of
    it, and the response counts 1 player.  The room has no code exactly
    when it is public and no code was requested; a code has 6 code
    characters and was carried by no room; a private room has the age
    group "mixed".  The creator had no waiting or playing room before, and
    any further [create_room] of the same creator fails with a validation
    error and changes nothing. *)
Theorem create_room_outcomes (today : Z * Z * Z) (calendar : Z -> Z * Z * Z)
    (draws : nat -> nat -> nat) (now creator_id : Z) (room_data : RoomCreate)
    (db db' : DB) (fx : list Effect) (response : RoomResponse) :
  create_room today calendar draws now creator_id room_data db
    = (db', fx, Ok response) ->
  exists room,
    rooms db' = rooms db ++ [room]
    /\ room_participants db'
       = room_participants db ++ [new_participant db now (Room.id room) creator_id]
    /\ Room.id room = rr_id response
    /\ ~ In (Room.id room) (map Room.id (rooms db))
    /\ Room.creator_id room = creator_id
    /\ Room.status room = RoomStatus.WAITING
    /\ Room.max_players room = rc_max_players room_data
    /\ Room.is_public room = rc_is_public room_data
    /\ rr_room_code response = Room.room_code room
    /\ rr_current_players response = 1
    /\ (Room.room_code room = None
        <-> rc_generate_code room_data = false /\ rc_is_public room_data = true)
    /\ (forall code, Room.room_code room = Some code ->
          code_chars code = true
          /\ String.length code = 6%nat
          /\ existsb (has_code code) (rooms db) = false)
    /\ (rc_is_public room_data = false ->
        Room.age_group room = Some "mixed"%string)
    /\ existsb (has_open_room creator_id) (rooms db) = false
    /\ (forall draws' later data,
          create_room today calendar draws' later creator_id data db'
          = (db', [], Raise ValidationError)).
Proof.
  cbv [create_room bind get raise ret raise_when put _generate_unique_room_code].
  destruct (find _ (users db)) as [user|] eqn:Huser; [|intros [=]].
  cbn beta iota zeta.
  destruct (User.is_profile_complete user) eqn:Hcomplete; cbn [negb];
    [|intros [=]].
  cbn beta iota zeta.
  destruct (existsb (has_open_room creator_id) (rooms db)) eqn:Hopen;
    [intros [=]|].
  cbn beta iota zeta.
  assert (Hagain : forall room_code is_public age_group draws' later data,
            create_room today calendar draws' later creator_id data
              (set_room_participants
                 (set_rooms db
                    (rooms db ++
                     [Room.mk (next_id (map Room.id (rooms db))) creator_id
                              (rc_max_players room_data) RoomStatus.WAITING
                              room_code is_public age_group now]))
                 (room_participants db ++
                  [new_participant db now (next_id (map Room.id (rooms db)))
                                   creator_id]))
            = (set_room_participants
                 (set_rooms db
                    (rooms db ++
                     [Room.mk (next_id (map Room.id (rooms db))) creator_id
                              (rc_max_players room_data) RoomStatus.WAITING
                              room_code is_public age_group now]))
                 (room_participants db ++
                  [new_participant db now (next_id (map Room.id (rooms db)))
                                   creator_id]),
               [], Raise ValidationError)).
  { intros room_code is_public age_group draws' later data.
    cbv [create_room bind get raise ret raise_when].
    cbn [users rooms set_rooms set_room_participants].
    rewrite Huser. cbn beta iota zeta. rewrite Hcomplete. cbn [negb].
    cbn beta iota zeta. now rewrite creator_has_open_room. }
  destruct (rc_generate_code room_data) eqn:Egen;
    destruct (rc_is_public room_data) eqn:Epub; cbn [negb orb];
    cbn beta iota zeta;
    try (destruct (unique_code_from draws db 0 10) as [code|] eqn:Ecode;
         cbn beta iota zeta; [|intros [=]];
         pose proof (generated_code_spec draws db code Ecode) as Hcode);
    intros [= <- <- <-]; eexists;
    cbn [rooms room_participants set_rooms set_room_participants
         Room.id Room.creator_id Room.status Room.max_players Room.is_public
         Room.room_code Room.age_group rr_id rr_room_code rr_current_players];
    (split; [reflexivity|]); (split; [reflexivity|]); (split; [reflexivity|]);
    (split; [apply next_id_fresh|]);
    (split; [reflexivity|]); (split; [reflexivity|]); (split; [reflexivity|]);
    (split; [reflexivity|]); (split; [reflexivity|]); (split; [reflexivity|]);
    (split; [split; [intros H; try discriminate H; auto
                    |intros [H1 H2]; try discriminate; reflexivity]|]);
    (split; [intros c H; try discriminate H; injection H as <-; exact Hcode|]);
    (split; [intros H; try discriminate H; reflexivity|]);
    (split; [reflexivity | apply Hagain]).
Qed.

(** Dave creates a private room; every draw of the code generator is 0. *)
Lemma create_room_outcomes_witness :
  exists db' response,
    create_room (2025, 6, 15) (fun _ => (2000, 1, 1)) (fun _ _ => 0%nat) 50 4
                (mkRoomCreate 4 false false) Sample.lobby
    = (db', [], Ok response)
    /\ rr_room_code response = Some "AAAAAA"%string
    /\ create_room (2025, 6, 15) (fun _ => (2000, 1, 1)) (fun _ _ => 1%nat) 60 4
                   (mkRoomCreate 6 true false) db'
       = (db', [], Raise ValidationError).
Proof.
  eexists _, _. split; [reflexivity|].
  destruct (create_room_outcomes (2025, 6, 15) (fun _ => (2000, 1, 1))
              (fun _ _ => 0%nat) 50 4 (mkRoomCreate 4 false false) Sample.lobby
              _ _ _ eq_refl)
    as (room & _ & _ & _ & _ & _ & _ & _ & _ & _ & _ & _ & _ & _ & _ & Hagain).
  split; [reflexivity | apply Hagain].
Defined.

Lemma find_by_unique_id (rs : list Room.t) (room : Room.t) :
  NoDup (map Room.id rs) -> In room rs ->
  find (fun r => Room.id r =? Room.id room) rs = Some room.
Proof.
  induction rs as [|x rs IH]; [intros _ []|].
  intros Hnd Hin. inversion Hnd as [|? ? Hnotin Hnd']; subst. simpl.
  destruct Hin as [->|Hin]; [now rewrite Z.eqb_refl|].
  destruct (Room.id x =? Room.id room) eqn:E; [|now apply IH].
  apply Z.eqb_eq in E. exfalso. apply Hnotin. rewrite E. now apply in_map.
Qed.

(** X22.  With an ordering that only permutes the rooms, and room ids a
    primary key: [get_available_rooms] lists at most [limit] rooms, each
    public, waiting and with fewer active participants, the count it
    reports, than seats; and [join_room] succeeds on every listed room for
    every user with a complete profile who is not already active in it. *)
Theorem listed_rooms_accept_a_join (latest_first : list Room.t -> list Room.t)
    (limit : nat) (db : DB) :
  (forall rs, Permutation rs (latest_first rs)) ->
  NoDup (map Room.id (rooms db)) ->
  let listed := get_available_rooms latest_first limit db in
  (length listed <= limit)%nat
  /\ Forall (fun r => rr_is_public r = true
                      /\ rr_status r = RoomStatus.WAITING
                      /\ rr_current_players r = _get_active_players_count db (rr_id r)
                      /\ rr_current_players r < rr_max_players r)
            listed
  /\ (forall r now user_id user,
        In r listed ->
        find (fun u => User.id u =? user_id) (users db) = Some user ->
        User.is_profile_complete user = true ->
        existsb (GameService.is_active_participant (rr_id r) user_id)
                (room_participants db) = false ->
        exists db' details,
          join_room now (rr_id r) user_id db = (db', [], Ok details)
          /\ rd_id details = rr_id r).
Proof.
  intros Horder Hpk listed. subst listed. unfold get_available_rooms.
  set (waiting := filter (fun r => RoomStatus.eqb (Room.status r) RoomStatus.WAITING
                                   && Room.is_public r) (rooms db)).
  set (free := fun room => _get_active_players_count db (Room.id room)
                           <? Room.max_players room).
  assert (Hlisted : forall room,
            In room (filter free (firstn limit (latest_first waiting))) ->
            In room (rooms db)
            /\ Room.status room = RoomStatus.WAITING
            /\ Room.is_public room = true
            /\ _get_active_players_count db (Room.id room) < Room.max_players room).
  { intros room Hin. apply filter_In in Hin as [Hin Hfree].
    assert (Hin' : In room (latest_first waiting)).
    { rewrite <- (firstn_skipn limit (latest_first waiting)).
      apply in_or_app. now left. }
    clear Hin. rename Hin' into Hin.
    apply (Permutation_in _ (Permutation_sym (Horder waiting))) in Hin.
    apply filter_In in Hin as [Hin Hwaiting].
    apply andb_true_iff in Hwaiting as [Hw Hp].
    apply room_status_eqb_WAITING in Hw. apply Z.ltb_lt in Hfree. auto. }
  split; [|split].
  - rewrite length_map.
    etransitivity; [apply filter_length_le|]. apply firstn_le_length.
  - apply Forall_forall. intros r Hr. apply in_map_iff in Hr as (room & <- & Hin).
    destruct (Hlisted room Hin) as (_ & Hw & Hp & Hfree). cbn. auto.
  - intros r now user_id user Hr Huser Hcomplete Hnew.
    apply in_map_iff in Hr as (room & <- & Hin). cbn [rr_id] in *.
    destruct (Hlisted room Hin) as (Hroom & Hw & Hp & Hfree).
    pose proof (find_by_unique_id _ _ Hpk Hroom) as Hfind.
    assert (Hwb : RoomStatus.eqb (Room.status room) RoomStatus.WAITING = true)
      by now apply room_status_eqb_WAITING.
    assert (Hfull : (_get_active_players_count db (Room.id room)
                     >=? Room.max_players room) = false)
      by (rewrite Z.geb_leb, Z.leb_gt; exact Hfree).
    cbv [join_room bind require_complete_profile _get_room_or_404 get raise ret
         raise_when].
    rewrite Huser. cbn beta iota zeta. rewrite Hcomplete. cbn [negb].
    cbn beta iota zeta. rewrite Hfind. cbn beta iota zeta.
    rewrite Hp, Hwb. cbn [negb]. cbn beta iota zeta.
    rewrite Hnew, Hfull. cbn beta iota zeta.
    rewrite (join_room_internal_run now (Room.id room) user_id db room
               Hfind Hwb Hnew Hfull).
    cbv [get_room_details bind _get_room_or_404 get raise ret raise_when].
    cbn [rooms set_room_participants]. rewrite Hfind. cbn beta iota zeta.
    rewrite Hp. cbn [negb andb]. cbn beta iota zeta.
    eexists _, _. split; reflexivity.
Qed.

(** The sample room is listed, and Dave can join it. *)
Lemma listed_rooms_accept_a_join_witness :
  map rr_id (get_available_rooms (fun rs => rs) 20 Sample.lobby) = [1]
  /\ exists db' details,
       join_room 5 1 4 Sample.lobby = (db', [], Ok details)
       /\ rd_id details = 1.
Proof.
  assert (Hpk : NoDup (map Room.id (rooms Sample.lobby))).
  { simpl. repeat constructor; simpl; tauto. }
  destruct (listed_rooms_accept_a_join (fun rs => rs) 20 Sample.lobby
              (fun rs => Permutation_refl rs) Hpk)
    as (_ & _ & Hjoin).
  split; [reflexivity|].
  apply (Hjoin (mkRoomResponse 1 1 4 RoomStatus.WAITING (Some "ABC123"%string) true 3)
               5 4 Sample.dave);
    [vm_compute; auto | reflexivity | reflexivity | reflexivity].
Defined.

End Rooms.

(** ** Matchmaking *)

Section Matchmaking.
Import RoomService.

Lemma current_room_ids_spec (db : DB) (user_id room_id : Z) :
  In room_id (current_room_ids db user_id)
  <-> exists p room,
        In p (room_participants db) /\ In room (rooms db)
        /\ RoomParticipant.user_id p = user_id
        /\ RoomParticipant.status p = ParticipantStatus.ACTIVE
        /\ RoomParticipant.room_id p = room_id
        /\ Room.id room = room_id
        /\ (Room.status room = RoomStatus.WAITING
            \/ Room.status room = RoomStatus.PLAYING).
Proof.
  unfold current_room_ids. rewrite in_flat_map. split.
  - intros (p & Hp & Hin). apply filter_In in Hp as [Hp Hsel].
    apply in_map_iff in Hin as (room & <- & Hroom).
    apply filter_In in Hroom as [Hroom Hopen].
    apply andb_true_iff in Hsel as [Hu Hs], Hopen as [Hid Hst].
    apply Z.eqb_eq in Hu, Hid. apply participant_status_eqb_ACTIVE in Hs.
    exists p, room. repeat split; try assumption.
    apply orb_true_iff in Hst.
    destruct (Room.status room); simpl in Hst; intuition discriminate.
  - intros (p & room & Hp & Hroom & Hu & Hs & Hr & Hid & Hst).
    exists p. split.
    + apply filter_In. split; [exact Hp|].
      rewrite Hu, Hs, Z.eqb_refl. reflexivity.
    + apply in_map_iff. exists room. split; [exact Hr|].
      apply filter_In. split; [exact Hroom|].
      rewrite Hid, Hr, Z.eqb_refl. destruct Hst as [-> | ->]; reflexivity.
Qed.

Lemma get_room_details_run (room_id : Z) (user_id : option Z) (db : DB) :
  exists res,
    get_room_details room_id user_id db = (db, [], res)
    /\ (forall details, res = Ok details -> rd_id details = room_id)
    /\ (forall e, res = Raise e -> e = NotFoundError \/ e = PermissionError).
Proof.
  cbv [get_room_details bind _get_room_or_404 get raise ret raise_when].
  destruct (find _ (rooms db)) as [room|] eqn:Hroom; cbn beta iota zeta.
  2:{ eexists. split; [reflexivity|]. split; [intros ? [=] | intros ? [= <-]; auto]. }
  pose proof (find_room_id _ _ _ Hroom) as Hid.
  destruct (negb (Room.is_public room) && truthy user_id);
    [destruct user_id as [u|];
     [destruct (negb (existsb _ (room_participants db)))|]
    |destruct (negb (Room.is_public room) && negb (truthy user_id))];
    cbn beta iota zeta;
    (eexists; split; [reflexivity|]);
    (split; [intros ? [= <-]; exact Hid || discriminate
            |intros ? [= <-]; auto || discriminate]).
Qed.

(** X23.  [get_user_current_room] changes nothing.  When it returns a
    room, the id of the room is not 0, the user is an active participant of
    it, and a room of that id is waiting or playing.  It returns none when
    the user has no active participation in a waiting or playing room; and
    for a user other than user 0, and room ids other than 0, it returns a
    room whenever the user has such a participation. *)
Theorem current_room_is_open_room_of_user (user_id : Z) (db : DB) :
  exists res,
    get_user_current_room user_id db = (db, [], res)
    /\ (forall details, res = Ok (Some details) ->
          rd_id details <> 0
          /\ existsb (GameService.is_active_participant (rd_id details) user_id)
                     (room_participants db) = true
          /\ exists room, In room (rooms db)
                          /\ Room.id room = rd_id details
                          /\ (Room.status room = RoomStatus.WAITING
                              \/ Room.status room = RoomStatus.PLAYING))
    /\ (~ in_open_room db user_id -> res = Ok None)
    /\ (in_open_room db user_id -> user_id <> 0 ->
        (forall room, In room (rooms db) -> Room.id room <> 0) ->
        exists details, res = Ok (Some details)).
Proof.
  unfold get_user_current_room. cbv [bind get ret].
  destruct (current_room_ids db user_id) as [|room_id rest] eqn:Eids.
  { eexists. split; [reflexivity|]. split; [intros ? [=]|]. split; [reflexivity|].
    intros (p & room & Hp & Hroom & Hu & Hs & Hid & Hst) _ _. exfalso.
    assert (Hin : In (RoomParticipant.room_id p) (current_room_ids db user_id)).
    { apply current_room_ids_spec. exists p, room. repeat split; assumption. }
    now rewrite Eids in Hin. }
  assert (Hfirst : In room_id (current_room_ids db user_id))
    by (rewrite Eids; now left).
  apply current_room_ids_spec in Hfirst
    as (p & room & Hp & Hroom & Hu & Hs & Hr & Hid & Hst).
  assert (Hopen : in_open_room db user_id).
  { exists p, room. repeat split; try assumption. congruence. }
  assert (Hactive : existsb (GameService.is_active_participant room_id user_id)
                            (room_participants db) = true).
  { apply is_active_participant_spec. exists p. repeat split; assumption. }
  destruct (room_id =? 0) eqn:Ezero; cbn [negb].
  { apply Z.eqb_eq in Ezero. eexists. split; [reflexivity|]. split; [intros ? [=]|].
    split; [reflexivity|]. intros _ _ Hids. exfalso.
    apply (Hids room Hroom). congruence. }
  apply Z.eqb_neq in Ezero.
  cbv [get_room_details bind _get_room_or_404 get raise ret raise_when].
  destruct (find (fun r => Room.id r =? room_id) (rooms db)) as [found|] eqn:Hfound.
  2:{ exfalso. pose proof (find_none _ _ Hfound room Hroom) as Hnone.
      cbn beta in Hnone. rewrite Hid, Z.eqb_refl in Hnone. discriminate. }
  cbn beta iota zeta.
  pose proof (find_room_id _ _ _ Hfound) as Hfid.
  destruct (Room.is_public found); cbn [negb andb]; cbn beta iota zeta.
  - eexists. split; [reflexivity|].
    split; [intros ? [= <-]; cbn [rd_id]; rewrite Hfid;
            repeat split; try assumption; now exists room|].
    split; [intros H; contradiction | intros _ _ _; eexists; reflexivity].
  - cbn [truthy]. destruct (user_id =? 0) eqn:Euser; cbn [negb];
      cbn beta iota zeta.
    + apply Z.eqb_eq in Euser. eexists. split; [reflexivity|].
      split; [intros ? [=]|]. split; [intros H; contradiction|].
      intros _ Hnz. contradiction.
    + rewrite Hactive. cbn [negb]. cbn beta iota zeta.
      eexists. split; [reflexivity|].
      split; [intros ? [= <-]; cbn [rd_id]; rewrite Hfid;
              repeat split; try assumption; now exists room|].
      split; [intros H; contradiction | intros _ _ _; eexists; reflexivity].
Qed.

Ltac join_refused :=
  intros [= <- <- <-]; (split; [reflexivity|]);
  (split; [intros ? [=] | intros _; reflexivity]).

Lemma join_room_run (now room_id user_id : Z) (db db' : DB) (fx : list Effect)
    (res : Result RoomDetailResponse) :
  join_room now room_id user_id db = (db', fx, res) ->
  fx = []
  /\ (forall details, res = Ok details ->
        exists user room,
          find (fun u => User.id u =? user_id) (users db) = Some user
          /\ User.is_profile_complete user = true
          /\ find (fun r => Room.id r =? room_id) (rooms db) = Some room
          /\ Room.is_public room = true
          /\ Room.status room = RoomStatus.WAITING
          /\ db' = set_room_participants db
                     (room_participants db
                      ++ [new_participant db now room_id user_id]))
  /\ (res = Raise ValidationError -> db' = db).
Proof.
  cbv [join_room bind require_complete_profile _get_room_or_404 get raise ret
       raise_when].
  destruct (find _ (users db)) as [user|] eqn:Huser; cbn beta iota zeta;
    [|join_refused].
  destruct (User.is_profile_complete user) eqn:Hcomplete; cbn [negb];
    cbn beta iota zeta; [|join_refused].
  destruct (find _ (rooms db)) as [room|] eqn:Hroom; cbn beta iota zeta;
    [|join_refused].
  destruct (Room.is_public room) eqn:Hpublic; cbn [negb]; cbn beta iota zeta;
    [|join_refused].
  destruct (RoomStatus.eqb (Room.status room) RoomStatus.WAITING) eqn:Hwaiting;
    cbn [negb]; cbn beta iota zeta; [|join_refused].
  destruct (existsb _ (room_participants db)) eqn:Hnew; cbn beta iota zeta;
    [join_refused|].
  destruct (_get_active_players_count db room_id >=? Room.max_players room)
    eqn:Hfull; cbn beta iota zeta; [join_refused|].
  rewrite (join_room_internal_run now room_id user_id db room
             Hroom Hwaiting Hnew Hfull).
  match goal with
  | |- context [get_room_details ?r ?u ?d] =>
      destruct (get_room_details_run r u d) as (res2 & Hrun2 & _ & Hraise)
  end.
  rewrite Hrun2. intros [= <- <- <-]. split; [reflexivity|].
  split.
  - intros details _. exists user, room. repeat split; try assumption.
    now apply room_status_eqb_WAITING.
  - intros ->. destruct (Hraise _ eq_refl); discriminate.
Qed.

Lemma find_appended_room (rs : list Room.t) (room : Room.t) :
  ~ In (Room.id room) (map Room.id rs) ->
  find (fun x => Room.id x =? Room.id room) (rs ++ [room]) = Some room.
Proof.
  induction rs as [|x rs IH]; simpl; intros Hnot.
  - now rewrite Z.eqb_refl.
  - destruct (Room.id x =? Room.id room) eqn:E.
    + apply Z.eqb_eq in E. exfalso. apply Hnot. now left.
    + apply IH. intros H. apply Hnot. now right.
Qed.

Lemma create_room_appends (today : Z * Z * Z) (calendar : Z -> Z * Z * Z)
    (draws : nat -> nat -> nat) (now creator_id : Z) (room_data : RoomCreate)
    (db db' : DB) (fx : list Effect) (response : RoomResponse) :
  create_room today calendar draws now creator_id room_data db
    = (db', fx, Ok response) ->
  exists room,
    fx = []
    /\ rooms db' = rooms db ++ [room]
    /\ room_participants db'
       = room_participants db ++ [new_participant db now (Room.id room) creator_id]
    /\ Room.id room = next_id (map Room.id (rooms db))
    /\ rr_id response = Room.id room
    /\ rr_room_code response = Room.room_code room
    /\ Room.status room = RoomStatus.WAITING
    /\ Room.is_public room = rc_is_public room_data.
Proof.
  cbv [create_room bind get raise ret raise_when put _generate_unique_room_code].
  destruct (find _ (users db)) as [user|]; [|intros [=]].
  cbn beta iota zeta.
  destruct (User.is_profile_complete user); cbn [negb]; [|intros [=]].
  cbn beta iota zeta.
  destruct (existsb (has_open_room creator_id) (rooms db)); [intros [=]|].
  cbn beta iota zeta.
  destruct (rc_generate_code room_data);
    destruct (rc_is_public room_data) eqn:Epublic; cbn [negb orb];
    cbn beta iota zeta;
    lazymatch goal with
    | |- context [unique_code_from draws db 0 10] =>
        destruct (unique_code_from draws db 0 10) as [code|];
        cbn beta iota zeta; [|intros [=]]
    | |- _ => idtac
    end;
    intros [= <- <- <-]; eexists;
    cbn [rooms room_participants set_rooms set_room_participants];
    (split; [reflexivity|]); (split; [reflexivity|]);
    cbn [Room.id Room.room_code Room.status Room.is_public rr_id rr_room_code];
    repeat (split; [reflexivity|]); reflexivity.
Qed.

Lemma get_user_current_room_run (user_id : Z) (db : DB) :
  exists res, get_user_current_room user_id db = (db, [], res).
Proof.
  unfold get_user_current_room. cbv [bind get ret].
  destruct (current_room_ids db user_id) as [|room_id rest];
    [eexists; reflexivity|].
  destruct (negb (room_id =? 0)); [|eexists; reflexivity].
  destruct (get_room_details_run room_id (Some user_id) db) as (res & Hrun & _).
  rewrite Hrun. destruct res; eexists; reflexivity.
Qed.

Lemma quick_match_groups_spec (db : DB) (age_group : option string)
    (preferred_players : option Z) (room : Room.t) (current_players : Z) :
  In (room, current_players) (quick_match_groups db age_group preferred_players) ->
  In room (rooms db)
  /\ Room.status room = RoomStatus.WAITING
  /\ Room.is_public room = true
  /\ age_group_matches age_group room = true
  /\ _get_active_players_count db (Room.id room) < Room.max_players room.
Proof.
  unfold quick_match_groups. intros H. apply in_flat_map in H as (r & Hr & H).
  destruct (_ && _) eqn:E; [|destruct H].
  destruct H as [[= <- <-]|[]].
  rewrite !andb_true_iff in E. destruct E as [[[[[Hw Hp] Hage] _] Hfree] _].
  apply room_status_eqb_WAITING in Hw. apply Z.ltb_lt in Hfree. auto.
Qed.

(** X24.  With an ordering that only permutes the groups, room ids a
    primary key and a request the schema admits: whenever [quick_match]
    returns a response, nothing was published.  A response without success
    means that the user already had a current room, and nothing changed.  A
    successful response means that the user had no current room and has one
    participation more, in the room the response names, which is public and
    waiting and has the code of the response; that room either existed,
    with a free seat and the age group of the user, or was created by the
    call, with a fresh id. *)
Theorem quick_match_outcomes (today : Z * Z * Z) (calendar : Z -> Z * Z * Z)
    (by_fullness : list (Room.t * Z) -> list (Room.t * Z))
    (draws : nat -> nat -> nat) (now user_id : Z) (request : QuickMatchRequest)
    (db db' : DB) (fx : list Effect) (response : QuickMatchResponse) :
  (forall groups, Permutation groups (by_fullness groups)) ->
  NoDup (map Room.id (rooms db)) ->
  valid_request request ->
  quick_match today calendar by_fullness draws now user_id request db
    = (db', fx, Ok response) ->
  fx = []
  /\ (qm_success response = false ->
      db' = db
      /\ qm_room_id response = None
      /\ exists details,
           get_user_current_room user_id db = (db, [], Ok (Some details)))
  /\ (qm_success response = true ->
      get_user_current_room user_id db = (db, [], Ok None)
      /\ exists room,
           qm_room_id response = Some (Room.id room)
           /\ qm_room_code response = Room.room_code room
           /\ find (fun r => Room.id r =? Room.id room) (rooms db') = Some room
           /\ Room.is_public room = true
           /\ Room.status room = RoomStatus.WAITING
           /\ room_participants db'
              = room_participants db
                ++ [new_participant db now (Room.id room) user_id]
           /\ ((rooms db' = rooms db
                /\ In room (rooms db)
                /\ _get_active_players_count db (Room.id room)
                   < Room.max_players room
                /\ exists user,
                     find (fun u => User.id u =? user_id) (users db) = Some user
                     /\ Room.age_group room
                        = Some (_determine_age_group today calendar (Some user)))
               \/ (rooms db' = rooms db ++ [room]
                   /\ ~ In (Room.id room) (map Room.id (rooms db))))).
Proof.
  intros Horder Hpk Hvalid.
  unfold quick_match. cbv [bind].
  destruct (get_user_current_room_run user_id db) as (res & Hcurrent).
  rewrite Hcurrent.
  destruct res as [[details|]|e]; [| |intros [=]].
  { cbv [ret]. intros [= <- <- <-]. split; [reflexivity|].
    split; [intros _; repeat split; now exists details | discriminate]. }
  cbv [get]. cbn beta iota zeta.
  set (age_group := match find (fun u => User.id u =? user_id) (users db) with
                    | Some u => Some (_determine_age_group today calendar (Some u))
                    | None => None
                    end).
  set (room_data := mkRoomCreate _ true false).
  assert (Hcreated : forall db1 fx1 new_room,
            create_room today calendar draws now user_id room_data db
            = (db1, fx1, Ok new_room) ->
            fx1 = []
            /\ exists room,
                 Some (rr_id new_room) = Some (Room.id room)
                 /\ rr_room_code new_room = Room.room_code room
                 /\ find (fun r => Room.id r =? Room.id room) (rooms db1) = Some room
                 /\ Room.is_public room = true
                 /\ Room.status room = RoomStatus.WAITING
                 /\ room_participants db1
                    = room_participants db
                      ++ [new_participant db now (Room.id room) user_id]
                 /\ rooms db1 = rooms db ++ [room]
                 /\ ~ In (Room.id room) (map Room.id (rooms db))).
  { intros db1 fx1 new_room Hcreate.
    destruct (create_room_appends _ _ _ _ _ _ _ _ _ _ Hcreate)
      as (room & Hfx & Hrooms & Hparts & Hid & Hrid & Hcode & Hstatus & Hpublic).
    assert (Hfresh : ~ In (Room.id room) (map Room.id (rooms db)))
      by (rewrite Hid; apply next_id_fresh).
    split; [exact Hfx|]. exists room.
    split; [now rewrite Hrid|]. split; [exact Hcode|].
    split; [rewrite Hrooms; now apply find_appended_room|].
    split; [exact Hpublic|]. split; [exact Hstatus|].
    split; [exact Hparts|]. split; [exact Hrooms | exact Hfresh]. }
  destruct (by_fullness _) as [|[room current_players] rest] eqn:Egroups.
  - cbv [ret].
    destruct (create_room today calendar draws now user_id room_data db)
      as [[db1 fx1] [new_room|e]] eqn:Hcreate; [|intros [=]].
    intros [= <- <- <-].
    destruct (Hcreated _ _ _ eq_refl)
      as (-> & created & Hid & Hcode & Hfind & Hpublic & Hstatus & Hparts & Hrooms
          & Hfresh).
    split; [reflexivity|]. split; [discriminate|]. intros _.
    split; [reflexivity|]. exists created. cbn [qm_room_id qm_room_code].
    split; [exact Hid|]. split; [exact Hcode|]. split; [exact Hfind|].
    split; [exact Hpublic|]. split; [exact Hstatus|]. split; [exact Hparts|].
    right. split; assumption.
  - assert (Hin : In (room, current_players)
                     (quick_match_groups db age_group (qr_preferred_players request))).
    { apply (Permutation_in _ (Permutation_sym (Horder _))).
      rewrite Egroups. now left. }
    apply quick_match_groups_spec in Hin
      as (Hroom & Hw & Hp & Hage & Hfree).
    cbv [try_except_validation ret].
    destruct (join_room now (Room.id room) user_id db)
      as [[db1 fx1] [joined|e]] eqn:Hjoin.
    + destruct (join_room_run _ _ _ _ _ _ _ Hjoin) as (-> & Hok & _).
      destruct (Hok _ eq_refl)
        as (user & found & Huser & _ & Hfound & _ & _ & ->).
      intros [= <- <- <-]. split; [reflexivity|]. split; [discriminate|].
      intros _. split; [reflexivity|]. exists room.
      cbn [qm_room_id qm_room_code rooms room_participants set_room_participants].
      split; [reflexivity|]. split; [reflexivity|].
      split; [now apply find_by_unique_id|].
      split; [exact Hp|]. split; [exact Hw|]. split; [reflexivity|].
      left. split; [reflexivity|]. split; [exact Hroom|]. split; [exact Hfree|].
      exists user. split; [exact Huser|].
      subst age_group. rewrite Huser in Hage.
      unfold age_group_matches in Hage.
      destruct (Room.age_group room) as [group|]; [|discriminate].
      apply andb_true_iff in Hage as [Hage _]. apply String.eqb_eq in Hage.
      now rewrite Hage.
    + destruct (join_room_run _ _ _ _ _ _ _ Hjoin) as (-> & _ & Hval).
      destruct e; cbn beta iota zeta; try (intros H; discriminate H).
      rewrite (Hval eq_refl).
      destruct (create_room today calendar draws now user_id room_data db)
        as [[db2 fx2] [new_room|e]] eqn:Hcreate; [|intros [=]].
      intros [= <- <- <-].
      destruct (Hcreated _ _ _ eq_refl)
        as (-> & created & Hid & Hcode & Hfind & Hpublic & Hstatus & Hparts
            & Hrooms & Hfresh).
      split; [reflexivity|]. split; [discriminate|]. intros _.
      split; [reflexivity|]. exists created. cbn [qm_room_id qm_room_code].
      split; [exact Hid|]. split; [exact Hcode|]. split; [exact Hfind|].
      split; [exact Hpublic|]. split; [exact Hstatus|]. split; [exact Hparts|].
      right. split; assumption.
Qed.

(** Dave asks for a quick match and lands in the sample room. *)
Lemma quick_match_outcomes_witness :
  exists db' response,
    quick_match (2025, 6, 15) (fun _ => (2000, 1, 1)) (fun groups => groups)
                (fun _ _ => 0%nat) 50 4 (mkQuickMatchRequest None 30)
                Sample.grouped_lobby
    = (db', [], Ok response)
    /\ qm_room_id response = Some 1
    /\ rooms db' = rooms Sample.grouped_lobby.
Proof.
  assert (Hpk : NoDup (map Room.id (rooms Sample.grouped_lobby))).
  { simpl. repeat constructor; simpl; tauto. }
  eexists _, _. split; [reflexivity|].
  destruct (quick_match_outcomes (2025, 6, 15) (fun _ => (2000, 1, 1))
              (fun groups => groups) (fun _ _ => 0%nat) 50 4
              (mkQuickMatchRequest None 30) Sample.grouped_lobby _ _ _
              (fun groups => Permutation_refl groups) Hpk I eq_refl)
    as (_ & _ & Hmatched).
  split; reflexivity.
Defined.

End Matchmaking.

(** ** Leaving and coming back *)

Section Rejoining.
Import PlayerManager RoomService.

Lemma filter_after_leaving (user_id room_id : Z) (l : list RoomParticipant.t)
    (p : RoomParticipant.t) :
  NoDup (map RoomParticipant.id l) ->
  filter (is_participant user_id room_id) l = [p] ->
  filter (is_participant user_id room_id)
         (update_by_id (RoomParticipant.id p) set_left l)
  = [set_left p].
Proof.
  intros Hnd Hsingle.
  assert (Hin : In p l /\ is_participant user_id room_id p = true).
  { apply filter_In. rewrite Hsingle. now left. }
  destruct Hin as [Hin Hp].
  unfold update_by_id.
  revert Hnd Hsingle Hin. induction l as [|x l IH]; [intros _ [=]|].
  intros Hnd Hsingle Hin. inversion Hnd as [|? ? Hnotin Hnd']; subst.
  cbn [map filter] in *.
  destruct (is_participant user_id room_id x) eqn:Ex.
  - injection Hsingle as -> Hrest.
    rewrite Z.eqb_refl.
    assert (Hleft : is_participant user_id room_id (set_left p) = true) by exact Hp.
    rewrite Hleft. f_equal.
    rewrite (map_ext_in _ (fun q => q)), map_id; [exact Hrest|].
    intros q Hq. destruct (RoomParticipant.id q =? RoomParticipant.id p) eqn:E;
      [|reflexivity].
    apply Z.eqb_eq in E. exfalso. apply Hnotin. rewrite <- E. now apply in_map.
  - destruct Hin as [->|Hin]; [congruence|].
    destruct (RoomParticipant.id x =? RoomParticipant.id p) eqn:E.
    + apply Z.eqb_eq in E. exfalso. apply Hnotin. rewrite E. now apply in_map.
    + rewrite Ex. now apply IH.
Qed.

(** X27.  With participant ids a primary key: a user other than the
    creator, with a complete profile and a single, active participation in
    a public waiting room that is not over its capacity, can [leave_room]
    and then [join_room] again.  Both succeed, and the user then has two
    rows for the room: the old one, marked [LEFT], and a new active one.
    If the lookup of [mark_player_disconnected], which asks for no order,
    then returns the old row, the disconnect is counted on the old row and
    reported with a status other than [ACTIVE], while the new row is
    untouched and the user is still an active participant of the room. *)
Theorem rejoined_player_keeps_stale_row (now later room_id user_id : Z) (db : DB)
    (room : Room.t) (user : User.t) (p : RoomParticipant.t) :
  find (fun r => Room.id r =? room_id) (rooms db) = Some room ->
  Room.is_public room = true ->
  Room.status room = RoomStatus.WAITING ->
  Room.creator_id room <> user_id ->
  find (fun u => User.id u =? user_id) (users db) = Some user ->
  User.is_profile_complete user = true ->
  NoDup (map RoomParticipant.id (room_participants db)) ->
  filter (is_participant user_id room_id) (room_participants db) = [p] ->
  RoomParticipant.status p = ParticipantStatus.ACTIVE ->
  _get_active_players_count db room_id <= Room.max_players room ->
  exists db1 left db2 details,
    leave_room room_id user_id db = (db1, [], Ok left)
    /\ join_room now room_id user_id db1 = (db2, [], Ok details)
    /\ filter (is_participant user_id room_id) (room_participants db2)
       = [set_left p; new_participant db1 now room_id user_id]
    /\ forall rows : list RoomParticipant.t,
         Permutation (room_participants db2) rows ->
         find (is_participant user_id room_id) rows = Some (set_left p) ->
         exists db3 info,
           mark_player_disconnected (set_room_participants db2 rows)
                                    later user_id room_id
           = Ok (db3, info)
           /\ di_status info <> ParticipantStatus.ACTIVE
           /\ di_disconnect_count info = RoomParticipant.disconnect_count p + 1
           /\ In (new_participant db1 now room_id user_id) (room_participants db3)
           /\ existsb (GameService.is_active_participant room_id user_id)
                      (room_participants db3) = true.
Proof.
  intros Hroom Hpublic Hwaiting Hcreator Huser Hcomplete Hpk Hsingle Hactive Hcount.
  assert (Hin : In p (room_participants db)
                /\ is_participant user_id room_id p = true).
  { apply filter_In. rewrite Hsingle. now left. }
  destruct Hin as [Hin Hp].
  assert (Hp_active : GameService.is_active_participant room_id user_id p = true).
  { unfold GameService.is_active_participant, is_participant in *.
    apply andb_true_iff in Hp as [Hu Hr]. now rewrite Hu, Hr, Hactive. }
  assert (Hfind : find (GameService.is_active_participant room_id user_id)
                       (room_participants db) = Some p).
  { destruct (find (GameService.is_active_participant room_id user_id)
                   (room_participants db)) as [q|] eqn:E.
    - apply find_some in E as [Hq Hq_active].
      apply active_implies_participant in Hq_active.
      now rewrite (only_row_of_user _ _ _ _ _ Hsingle Hq Hq_active).
    - now rewrite (find_none _ _ E p Hin) in Hp_active. }
  (* leaving *)
  assert (Hleave : leave_room room_id user_id db
                   = (set_room_participants db
                        (update_by_id (RoomParticipant.id p) set_left
                                      (room_participants db)),
                      [], Ok (mkLeaveResult true false))).
  { cbv [leave_room bind _get_room_or_404 get raise ret put GameService.save_room].
    rewrite Hroom. cbn beta iota zeta. rewrite Hfind. cbn beta iota zeta.
    apply Z.eqb_neq in Hcreator. now rewrite Hcreator. }
  set (l1 := update_by_id (RoomParticipant.id p) set_left (room_participants db))
    in *.
  set (db1 := set_room_participants db l1) in *.
  assert (Hsingle1 : filter (is_participant user_id room_id) l1 = [set_left p])
    by exact (filter_after_leaving _ _ _ _ Hpk Hsingle).
  assert (Hnone1 : existsb (GameService.is_active_participant room_id user_id) l1
                   = false).
  { apply not_true_iff_false. intros H. apply existsb_exists in H as (q & Hq & Hqa).
    pose proof (active_implies_participant _ _ _ Hqa) as Hqp.
    rewrite (only_row_of_user _ _ _ _ _ Hsingle1 Hq Hqp) in Hqa.
    unfold GameService.is_active_participant in Hqa. cbn in Hqa.
    now rewrite andb_false_r in Hqa. }
  assert (Hcount1 : _get_active_players_count db1 room_id
                    = _get_active_players_count db room_id - 1).
  { unfold _get_active_players_count, db1, l1.
    cbn [room_participants set_room_participants].
    rewrite (count_after_leaving room_id room_id _ p Hpk Hin
               (is_active_participant_in _ _ _ Hp_active)).
    now rewrite Z.eqb_refl. }
  (* joining again *)
  assert (Hwb : RoomStatus.eqb (Room.status room) RoomStatus.WAITING = true)
    by now apply room_status_eqb_WAITING.
  assert (Hroom1 : find (fun r => Room.id r =? room_id) (rooms db1) = Some room)
    by exact Hroom.
  assert (Huser1 : find (fun u => User.id u =? user_id) (users db1) = Some user)
    by exact Huser.
  assert (Hnone1' : existsb (GameService.is_active_participant room_id user_id)
                            (room_participants db1) = false)
    by exact Hnone1.
  assert (Hfull1 : (_get_active_players_count db1 room_id >=? Room.max_players room)
                   = false).
  { rewrite Z.geb_leb, Z.leb_gt. lia. }
  assert (Hjoin : exists details,
            join_room now room_id user_id db1
            = (set_room_participants db1
                 (l1 ++ [new_participant db1 now room_id user_id]),
               [], Ok details)).
  { cbv [join_room bind require_complete_profile _get_room_or_404 get raise ret
         raise_when].
    rewrite Huser1. cbn beta iota zeta. rewrite Hcomplete. cbn [negb].
    cbn beta iota zeta. rewrite Hroom1. cbn beta iota zeta.
    rewrite Hpublic, Hwb. cbn [negb]. cbn beta iota zeta.
    rewrite Hnone1'. cbn beta iota zeta.
    rewrite Hfull1. cbn beta iota zeta.
    rewrite (join_room_internal_run now room_id user_id db1 room
               Hroom1 Hwb Hnone1' Hfull1).
    cbv [get_room_details bind _get_room_or_404 get raise ret raise_when].
    cbn [rooms set_room_participants]. rewrite Hroom1. cbn beta iota zeta.
    rewrite Hpublic. cbn [negb andb]. cbn beta iota zeta.
    eexists. reflexivity. }
  destruct Hjoin as [details Hjoin].
  set (fresh := new_participant db1 now room_id user_id) in *.
  assert (Hfresh_part : is_participant user_id room_id fresh = true).
  { unfold is_participant, fresh, new_participant. cbn. now rewrite !Z.eqb_refl. }
  assert (Hsingle2 : filter (is_participant user_id room_id) (l1 ++ [fresh])
                     = [set_left p; fresh]).
  { rewrite filter_app, Hsingle1. cbn [filter]. now rewrite Hfresh_part. }
  (* the disconnect lands on the old row *)
  assert (Hfresh_id : (RoomParticipant.id fresh =? RoomParticipant.id (set_left p))
                      = false).
  { apply Z.eqb_neq. unfold fresh, new_participant. cbn [RoomParticipant.id set_left].
    cbn [room_participants db1 set_room_participants].
    intros Heq. apply (next_id_fresh (map RoomParticipant.id l1)). rewrite Heq.
    unfold l1, update_by_id. rewrite map_map.
    apply in_map_iff. exists p. split; [|exact Hin].
    now rewrite Z.eqb_refl. }
  exists db1, (mkLeaveResult true false),
         (set_room_participants db1 (l1 ++ [fresh])), details.
  split; [exact Hleave|]. split; [exact Hjoin|].
  split; [exact Hsingle2|].
  cbn [room_participants set_room_participants].
  intros rows Hrows Hfind2.
  assert (Hfresh_in : In fresh rows).
  { apply (Permutation_in _ Hrows). apply in_or_app. right. now left. }
  unfold mark_player_disconnected.
  cbn [room_participants set_room_participants]. rewrite Hfind2. cbn zeta.
  eexists _, _. split; [reflexivity|].
  cbn [di_status di_disconnect_count room_participants set_room_participants
       RoomParticipant.disconnect_count set_left].
  split; [destruct (RoomParticipant.disconnect_count p + 1 >=? MAX_DISCONNECT_COUNT);
          intros H; discriminate H|].
  split; [reflexivity|].
  assert (Hkept : In fresh
                     (update_by_id (RoomParticipant.id (set_left p))
                        (fun q =>
                           RoomParticipant.mk (RoomParticipant.id q)
                             (RoomParticipant.room_id q) (RoomParticipant.user_id q)
                             (RoomParticipant.joined_at q)
                             (if RoomParticipant.disconnect_count p + 1
                                 >=? MAX_DISCONNECT_COUNT
                              then ParticipantStatus.LEFT
                              else ParticipantStatus.DISCONNECTED)
                             ConnectionStatus.DISCONNECTED later
                             (RoomParticipant.last_ping q)
                             (RoomParticipant.disconnect_count p + 1)
                             (RoomParticipant.missed_actions q))
                        rows)).
  { unfold update_by_id. apply in_map_iff. exists fresh.
    rewrite Hfresh_id. split; [reflexivity | exact Hfresh_in]. }
  split; [exact Hkept|].
  apply existsb_exists. exists fresh. split; [exact Hkept|].
  apply new_participant_is_active.
Qed.

(** Bob leaves the sample room and joins it again; then his connection
    drops and the lookup returns his rows in the order of their insertion. *)
Lemma rejoined_player_keeps_stale_row_witness :
  exists db1 left db2 details db3 info,
    leave_room 1 2 Sample.lobby = (db1, [], Ok left)
    /\ join_room 5 1 2 db1 = (db2, [], Ok details)
    /\ mark_player_disconnected db2 10 2 1 = Ok (db3, info)
    /\ di_status info <> ParticipantStatus.ACTIVE
    /\ existsb (GameService.is_active_participant 1 2) (room_participants db3) = true.
Proof.
  assert (Hpk : NoDup (map RoomParticipant.id (room_participants Sample.lobby))).
  { simpl. repeat constructor; simpl; intuition discriminate. }
  edestruct (rejoined_player_keeps_stale_row 5 10 1 2 Sample.lobby)
    as (db1 & left & db2 & details & Hleave & Hjoin & Hrows & Hdrop);
    [reflexivity | reflexivity | reflexivity | discriminate | reflexivity
    | reflexivity | exact Hpk | reflexivity | reflexivity | vm_compute; discriminate
    |].
  destruct (Hdrop (room_participants db2) (Permutation_refl _))
    as (db3 & info & Hmark & Hstatus & _ & _ & Hstill).
  { exact (find_of_filter _ _ _ _ Hrows). }
  exists db1, left, db2, details, db3, info.
  split; [exact Hleave|]. split; [exact Hjoin|].
  split; [|split; [exact Hstatus | exact Hstill]].
  rewrite <- Hmark. destruct db2; reflexivity.
Defined.

End Rejoining.
